(** * DiscordAlertingBot: the alert pipeline core, embedded in Rocq

    A shallow embedding of the TypeScript sources of the alert pipeline
    (normalizers, dedup store, incident store, processor, chat mirror
    button handlers, escalation loop, config validation), with the
    properties of the specification stated and proved over it.

    Conventions.
    - A JavaScript string is a [string]: one [ascii] per UTF-16 code unit,
      restricted to the Latin-1 range (code units below 256).
    - A JavaScript number that the code treats as an integer (milliseconds,
      seconds, an index) is a [Z].
    - [undefined] / a missing property is [None]; where the source
      distinguishes [null] from [undefined] a three-valued type is used.
    - [await] points are sequenced in program order; the Redis commands
      are the atomic steps. One run of a handler happens at one instant
      [now] (epoch milliseconds): the clock does not advance between its
      reads. Redis and the database do not fail; the chat gateway may. *)

From Stdlib Require Import ZArith Ascii String List Bool Lia DecimalString.
From stdpp Require Import base option list gmap strings fin_maps.

Set Warnings "-register-all".

Open Scope string_scope.
Open Scope Z_scope.

(* ===================================================================== *)
(** * JavaScript string primitives *)
(* ===================================================================== *)

Module Js.

(** ECMAScript WhiteSpace and LineTerminator code units below 256:
    TAB, LF, VT, FF, CR, SPACE, NBSP. The same set is the regular
    expression class [\s] and what [String.prototype.trim] strips. *)
Definition is_space (c : ascii) : bool :=
  let n := nat_of_ascii c in
  ((9 <=? n) && (n <=? 13) || (n =? 32) || (n =? 160))%nat.

(** The regular expression class [\w]: [A-Za-z0-9_]. *)
Definition is_word (c : ascii) : bool :=
  let n := nat_of_ascii c in
  ((48 <=? n) && (n <=? 57) || (65 <=? n) && (n <=? 90)
   || (97 <=? n) && (n <=? 122) || (n =? 95))%nat.

Definition is_empty (s : string) : bool :=
  match s with EmptyString => true | String _ _ => false end.

(** Truthiness of a string value: the empty string is falsy. *)
Definition truthy (s : string) : bool := negb (is_empty s).

(** Truthiness of [string | undefined]. *)
Definition truthy_opt (o : option string) : bool :=
  match o with Some s => truthy s | None => false end.

Fixpoint trimStart (s : string) : string :=
  match s with
  | String c r => if is_space c then trimStart r else s
  | EmptyString => EmptyString
  end.

Fixpoint trimEnd (s : string) : string :=
  match s with
  | String c r =>
      let r' := trimEnd r in
      if is_space c && is_empty r' then EmptyString else String c r'
  | EmptyString => EmptyString
  end.

(** [s.trim()] *)
Definition trim (s : string) : string := trimEnd (trimStart s).

(** [s.replace(/\s+/g, "_")]: every maximal run of white space becomes
    one underscore. [inrun] records that the previous code unit was
    white space (its run has already produced the underscore). *)
Fixpoint replace_ws_runs (inrun : bool) (s : string) : string :=
  match s with
  | String c r =>
      if is_space c
      then (if inrun then replace_ws_runs true r
            else String "_" (replace_ws_runs true r))
      else String c (replace_ws_runs false r)
  | EmptyString => EmptyString
  end.

(** [String.prototype.toLowerCase] on one Latin-1 code unit: A-Z and
    the accented capitals U+00C0..U+00DE (except the multiplication
    sign U+00D7) move up by 32. *)
Definition lower_char (c : ascii) : ascii :=
  let n := nat_of_ascii c in
  if ((65 <=? n) && (n <=? 90)
      || (192 <=? n) && (n <=? 222) && negb (n =? 215))%nat
  then ascii_of_nat (n + 32) else c.

Fixpoint toLowerCase (s : string) : string :=
  match s with
  | String c r => String (lower_char c) (toLowerCase r)
  | EmptyString => EmptyString
  end.

(** [s.slice(0, n)] for a non-negative [n]. *)
Fixpoint slice0 (n : nat) (s : string) : string :=
  match n, s with
  | S k, String c r => String c (slice0 k r)
  | _, _ => EmptyString
  end.

(** [s.slice(n)] for a non-negative [n]. *)
Fixpoint drop (n : nat) (s : string) : string :=
  match n, s with
  | S k, String _ r => drop k r
  | _, _ => s
  end.

(** [s.replace(a, b)] with one-character string patterns: only the
    first occurrence is replaced. *)
Fixpoint replace_first (a b : ascii) (s : string) : string :=
  match s with
  | String c r =>
      if Ascii.eqb c a then String b r else String c (replace_first a b r)
  | EmptyString => EmptyString
  end.

(** [s.startsWith(p)] *)
Fixpoint startsWith (p s : string) : bool :=
  match p, s with
  | EmptyString, _ => true
  | String a p', String c s' => Ascii.eqb a c && startsWith p' s'
  | String _ _, EmptyString => false
  end.

(** A case-insensitive literal prefix as the flag [i] of a regular
    expression compares it (without the flag [u]): two code units match
    when they are equal after upper-casing, which for Latin-1 letters is
    the same as after lower-casing, y-diaeresis and micro sign apart,
    which no pattern of this program contains. *)
Fixpoint startsWith_ci (p s : string) : bool :=
  match p, s with
  | EmptyString, _ => true
  | String a p', String c s' =>
      Ascii.eqb (lower_char a) (lower_char c) && startsWith_ci p' s'
  | String _ _, EmptyString => false
  end.

(** [s.split(sep)] for a one-character separator. *)
Fixpoint split (sep : ascii) (s : string) : list string :=
  match s with
  | EmptyString => [EmptyString]
  | String c r =>
      if Ascii.eqb c sep then EmptyString :: split sep r
      else match split sep r with
           | h :: t => String c h :: t
           | [] => [String c EmptyString]
           end
  end.

(** Whether the code unit [c] occurs in [s]. *)
Fixpoint contains (c : ascii) (s : string) : bool :=
  match s with
  | String d r => Ascii.eqb d c || contains c r
  | EmptyString => false
  end.

(** [a ?? b] on an optional value. *)
Definition nullish {A} (o : option A) (d : A) : A :=
  match o with Some a => a | None => d end.

End Js.

(* ===================================================================== *)
(** * discord/embed.ts: the field lists of the interaction embeds *)
(* ===================================================================== *)

Module Embed.

(** [inline?: boolean | null] *)
Inductive Inline := InlineUndefined | InlineNull | InlineBool (b : bool).

(** [type EmbedField = { name; value; inline?: boolean | null }] *)
Record EmbedField := mkEmbedField {
  ef_name : string;
  ef_value : string;
  ef_inline : Inline;
}.

(** [type ResolvedField = { name; value; inline: boolean }] *)
Record ResolvedField := mkResolvedField {
  rf_name : string;
  rf_value : string;
  rf_inline : bool;
}.

(** A [ResolvedField] is an [EmbedField] (structural subtyping): the
    embed that the handler sends back is the one the next press reads. *)
Definition as_embed_field (f : ResolvedField) : EmbedField :=
  mkEmbedField (rf_name f) (rf_value f) (InlineBool (rf_inline f)).

(** [f.inline ?? true] *)
Definition inline_or_true (i : Inline) : bool :=
  match i with InlineBool b => b | _ => true end.

Definition carry (f : EmbedField) : ResolvedField :=
  mkResolvedField (ef_name f) (ef_value f) (inline_or_true (ef_inline f)).

Definition name_is (n : string) (f : EmbedField) : bool := String.eqb (ef_name f) n.

Definition keep_resolved (f : EmbedField) : bool :=
  negb (name_is "Status" f) && negb (name_is "Resolved by" f)
  && negb (name_is "Resolved at" f).

Definition keep_acknowledged (f : EmbedField) : bool :=
  negb (name_is "Status" f) && negb (name_is "Acknowledged by" f).

(** The template [`<@${userId}>`]. *)
Definition mention (userId : string) : string := "<@" ++ userId ++ ">".

(** [resolvedAt.slice(0, 19).replace("T", " ")] *)
Definition resolved_at_text (resolvedAt : string) : string :=
  Js.replace_first "T" " " (Js.slice0 19 resolvedAt).

Definition buildResolvedFields
    (existingFields : list EmbedField) (userId resolvedAt : string)
    : list ResolvedField :=
  let filtered := List.filter keep_resolved existingFields in
  List.map carry filtered ++
  [ mkResolvedField "Status" "resolved" true;
    mkResolvedField "Resolved by" (mention userId) true;
    mkResolvedField "Resolved at" (resolved_at_text resolvedAt) true ].

Definition buildAcknowledgedFields
    (existingFields : list EmbedField) (userId : string)
    : list ResolvedField :=
  let filtered := List.filter keep_acknowledged existingFields in
  List.map carry filtered ++
  [ mkResolvedField "Status" "acknowledged" true;
    mkResolvedField "Acknowledged by" (mention userId) true ].

(** How many fields of a list carry the name [n]. *)
Definition count_name (n : string) (l : list ResolvedField) : nat :=
  length (List.filter (fun f => String.eqb (rf_name f) n) l).

End Embed.

(* ===================================================================== *)
(** * JavaScript values and the runtime's built-ins *)
(* ===================================================================== *)

(** A value as [JSON.parse] returns it, with [undefined] added for a
    missing property. An object is the list of its own enumerable
    properties in [Object.entries] order. *)
Inductive JsVal :=
| JUndefined
| JNull
| JBool (b : bool)
| JNum (n : Z)
| JStr (s : string)
| JArr (items : list JsVal)
| JObj (props : list (string * JsVal)).

Module JsValue.

(** Own-property lookup in an entry list. *)
Fixpoint lookup (k : string) (props : list (string * JsVal)) : option JsVal :=
  match props with
  | [] => None
  | (k', v) :: rest => if String.eqb k' k then Some v else lookup k rest
  end.

(** [v[k]] / [v.k] for a property name that no prototype defines:
    [undefined] when [v] has no such own property, and on a primitive
    or an array (whose own properties are indices and [length]). *)
Definition get (v : JsVal) (k : string) : JsVal :=
  match v with
  | JObj props => Js.nullish (lookup k props) JUndefined
  | _ => JUndefined
  end.

(** [k in v] for an object [v]. *)
Definition has (v : JsVal) (k : string) : bool :=
  match v with
  | JObj props => bool_decide (is_Some (lookup k props))
  | _ => false
  end.

(** [v !== null && typeof v === "object"] *)
Definition is_object (v : JsVal) : bool :=
  match v with JObj _ | JArr _ => true | _ => false end.

(** [typeof v === "string"] *)
Definition is_string (v : JsVal) : bool :=
  match v with JStr _ => true | _ => false end.

(** The string in [v] when [typeof v === "string"]. *)
Definition as_string (v : JsVal) : option string :=
  match v with JStr s => Some s | _ => None end.

(** ToBoolean. *)
Definition truthy (v : JsVal) : bool :=
  match v with
  | JUndefined | JNull => false
  | JBool b => b
  | JNum n => negb (n =? 0)
  | JStr s => Js.truthy s
  | JArr _ | JObj _ => true
  end.

(** [out[k] = v] on a plain object, for an object value [v]: the key
    [__proto__] replaces the prototype and creates no own property; any
    other key updates the property in place or appends it. *)
Fixpoint upsert (k : string) (v : JsVal) (props : list (string * JsVal))
    : list (string * JsVal) :=
  match props with
  | [] => [(k, v)]
  | (k', v') :: rest =>
      if String.eqb k' k then (k, v) :: rest else (k', v') :: upsert k v rest
  end.

Definition assign (k : string) (v : JsVal) (props : list (string * JsVal))
    : list (string * JsVal) :=
  if String.eqb k "__proto__" then props else upsert k v props.

End JsValue.

(** The built-ins of the JavaScript runtime that the pipeline calls.
    They are not code of the repository; the program is modelled over
    any implementation of them. *)
Class Runtime := {
  (** [new Date(s).getTime()]; [None] is [NaN]. *)
  Date_getTime : string -> option Z;
  (** [new Date(ms).toISOString()] *)
  Date_toISOString : Z -> string;
  (** [JSON.parse(s)]; [None] when it throws. *)
  JSON_parse : string -> option JsVal;
  (** [JSON.stringify(v)] *)
  JSON_stringify : JsVal -> string;
  (** [String(v)] *)
  ToString : JsVal -> string;
}.

(* ===================================================================== *)
(** * types/alert.ts, types/config.ts *)
(* ===================================================================== *)

Inductive AlertStatus := Firing | Resolved | Acknowledged.
Inductive Severity := Critical | High | Warning | Info.
Inductive AlertState := StateFiring | StateAcknowledged | StateResolved.

Definition severity_name (s : Severity) : string :=
  match s with
  | Critical => "critical" | High => "high"
  | Warning => "warning" | Info => "info"
  end.

Definition status_eqb (a b : AlertStatus) : bool :=
  match a, b with
  | Firing, Firing | Resolved, Resolved | Acknowledged, Acknowledged => true
  | _, _ => false
  end.

Definition state_eqb (a b : AlertState) : bool :=
  match a, b with
  | StateFiring, StateFiring | StateAcknowledged, StateAcknowledged
  | StateResolved, StateResolved => true
  | _, _ => false
  end.

(** [AlertApiPayload] *)
Record AlertApiPayload := mkPayload {
  alertId : string;
  resource : option string;
  title : string;
  description : option string;
  status : AlertStatus;
  severity : option Severity;
  fields : option (list (string * string));
  startedAt : string;
  p_resolvedAt : option string;
  generatorURL : option string;
  p_channelId : string;
  p_ruleName : option string;
  p_thumbnailUrl : option string;
  source : option string;
}.

(** [StoredAlert]: the incident record. *)
Record StoredAlert := mkStored {
  messageId : string;
  channelId : string;
  threadId : option string;
  state : AlertState;
  updatedAt : string;
  ruleName : option string;
  acknowledgedBy : option string;
  resolvedBy : option string;
  s_severity : option string;
  mentionLevel : option Z;
  resolvedAt : option string;
  acknowledgedAt : option string;
}.

(** [AlertTypeConfig] *)
Record AlertTypeConfig := mkTypeConfig {
  c_channelId : string;
  suppressWindowMs : option Z;
  importantLabels : option (list string);
  hiddenLabels : option (list string);
  thumbnailUrl : option string;
  mentions : option (list string);
}.

(** [AlertsConfig = Record<string, AlertTypeConfig>] *)
Abbreviation AlertsConfig := (gmap string AlertTypeConfig).

(* ===================================================================== *)
(** * The Redis key space *)
(* ===================================================================== *)

(** What a key holds: a plain string, or the JSON text of an incident
    record, kept as the record it encodes ([JSON.parse] after
    [JSON.stringify] gives the record back: its fields are strings,
    integers or absent). *)
Inductive RedisValue :=
| RString (s : string)
| RJson (a : StoredAlert).

(** A key maps to its value and the instant (epoch milliseconds) at
    which it expires. *)
Abbreviation Redis := (gmap string (RedisValue * Z)).

Module RedisCmd.

(** GET at instant [now]: an expired key reads as absent. *)
Definition get (now : Z) (k : string) (r : Redis) : option RedisValue :=
  match r !! k with
  | Some (v, expiry) => if now <? expiry then Some v else None
  | None => None
  end.

(** SETEX key seconds value at instant [now]. *)
Definition setex (now : Z) (k : string) (seconds : Z) (v : RedisValue)
    (r : Redis) : Redis :=
  <[k := (v, now + seconds * 1000)]> r.

(** DEL key. *)
Definition del (k : string) (r : Redis) : Redis := delete k r.

(** The remaining time to live of a key, in milliseconds. *)
Definition pttl (now : Z) (k : string) (r : Redis) : option Z :=
  match r !! k with
  | Some (_, expiry) => if now <? expiry then Some (expiry - now) else None
  | None => None
  end.

(** The live keys that match [MATCH prefix*], as a full SCAN returns
    them. *)
Definition scan (now : Z) (prefix : string) (r : Redis) : list string :=
  List.filter (fun k => Js.startsWith prefix k && bool_decide (is_Some (get now k r)))
              (map fst (map_to_list r)).

End RedisCmd.

(* ===================================================================== *)
(** * store/dedup.ts *)
(* ===================================================================== *)

Module Dedup.

Definition DEDUP_KEY_PREFIX : string := "dedup:".

Definition dedupKey (fingerprint : string) : string :=
  DEDUP_KEY_PREFIX ++ fingerprint.

(** [Math.ceil(ms / 1000)] on an integer number of milliseconds. *)
Definition ceil_seconds (ms : Z) : Z := - ((- ms) / 1000).

(** [Math.max(1, Math.ceil(ttlMs / 1000))] *)
Definition ttlSec (ttlMs : Z) : Z := Z.max 1 (ceil_seconds ttlMs).

(** [isDuplicate] is two Redis round trips: GET, and SETEX when the GET
    found nothing. *)
Definition isDuplicate (now : Z) (fingerprint : string) (ttlMs : Z)
    (r : Redis) : bool * Redis :=
  let key := dedupKey fingerprint in
  match RedisCmd.get now key r with
  | Some _ => (true, r)
  | None => (false, RedisCmd.setex now key (ttlSec ttlMs) (RString "1") r)
  end.

Definition clearDedup (fingerprint : string) (r : Redis) : Redis :=
  RedisCmd.del (dedupKey fingerprint) r.

Definition setDedupTtl (now : Z) (fingerprint : string) (ttlMs : Z)
    (r : Redis) : Redis :=
  RedisCmd.setex now (dedupKey fingerprint) (ttlSec ttlMs) (RString "1") r.

(** ** Two callers of [isDuplicate] on one store

    Each call suspends at its [await]s, so another call can run between
    its GET and its SETEX. A call in progress is at one of three
    points. *)
Inductive Pc :=
| PcGet               (* about to issue GET *)
| PcSetex             (* GET returned null; about to issue SETEX *)
| PcReturned (duplicate : bool).

Definition step (now : Z) (fingerprint : string) (ttlMs : Z)
    (pc : Pc) (r : Redis) : Pc * Redis :=
  let key := dedupKey fingerprint in
  match pc with
  | PcGet =>
      match RedisCmd.get now key r with
      | Some _ => (PcReturned true, r)
      | None => (PcSetex, r)
      end
  | PcSetex =>
      (PcReturned false, RedisCmd.setex now key (ttlSec ttlMs) (RString "1") r)
  | PcReturned d => (PcReturned d, r)
  end.

(** A schedule names, step by step, which of the two callers runs. *)
Inductive Caller := CallerA | CallerB.

Fixpoint run_two (now : Z) (fingerprint : string) (ttlMs : Z)
    (sched : list Caller) (a b : Pc) (r : Redis) : Pc * Pc * Redis :=
  match sched with
  | [] => (a, b, r)
  | CallerA :: rest =>
      let '(a', r') := step now fingerprint ttlMs a r in
      run_two now fingerprint ttlMs rest a' b r'
  | CallerB :: rest =>
      let '(b', r') := step now fingerprint ttlMs b r in
      run_two now fingerprint ttlMs rest a b' r'
  end.

(** The answers of the two callers after a schedule, when both have
    returned. *)
Definition answers (now : Z) (fingerprint : string) (ttlMs : Z)
    (sched : list Caller) (r : Redis) : option (bool * bool) :=
  match run_two now fingerprint ttlMs sched PcGet PcGet r with
  | (PcReturned da, PcReturned db, _) => Some (da, db)
  | _ => None
  end.

(** Atomic test-and-set: whatever the schedule, the two answers are
    those of one call running entirely before the other. *)
Definition atomic_test_and_set : Prop :=
  forall now fingerprint ttlMs sched r da db,
    answers now fingerprint ttlMs sched r = Some (da, db) ->
    let '(d1, r1) := isDuplicate now fingerprint ttlMs r in
    let '(d2, _) := isDuplicate now fingerprint ttlMs r1 in
    (da, db) = (d1, d2) \/ (da, db) = (d2, d1).

End Dedup.

(* ===================================================================== *)
(** * store/redis.ts: the incident store *)
(* ===================================================================== *)

Module Store.

Definition TTL_SEC : Z := 60 * 60 * 24 * 7.

(** [`alert:${alertId}:${resource ?? "default"}`] *)
Definition alertKey (alertId : string) (resource : option string) : string :=
  "alert:" ++ alertId ++ ":" ++ Js.nullish resource "default".

(** A key of the incident store holds the JSON text of a record and
    nothing else: no other writer uses the prefix. *)
Definition getStoredAlert (now : Z) (alertId : string)
    (resource : option string) (r : Redis) : option StoredAlert :=
  match RedisCmd.get now (alertKey alertId resource) r with
  | Some (RJson a) => Some a
  | _ => None
  end.

(** The caller's record is written as it is: no timestamp is injected. *)
Definition setStoredAlert (now : Z) (alertId : string)
    (resource : option string) (data : StoredAlert) (r : Redis) : Redis :=
  RedisCmd.setex now (alertKey alertId resource) TTL_SEC (RJson data) r.

Definition deleteStoredAlert (alertId : string) (resource : option string)
    (r : Redis) : Redis :=
  RedisCmd.del (alertKey alertId resource) r.

Definition getStoredAlertKeys (now : Z) (r : Redis) : list string :=
  RedisCmd.scan now "alert:" r.

End Store.

(* ===================================================================== *)
(** * services/config.ts: validation of a pushed configuration *)
(* ===================================================================== *)

Module Config.

(** The double quote, for the error text. *)
Definition dquote : string := String (ascii_of_nat 34) EmptyString.

(** [isAlertTypeConfig]: a non-null object with a string [channelId]. *)
Definition isAlertTypeConfig (v : JsVal) : bool :=
  JsValue.is_object v && JsValue.has v "channelId"
  && JsValue.is_string (JsValue.get v "channelId").

(** [Array.isArray(m) ? m.filter(x => typeof x === "string") : undefined] *)
Definition filter_mentions (m : JsVal) : JsVal :=
  match m with
  | JArr items => JArr (List.filter JsValue.is_string items)
  | _ => JUndefined
  end.

(** The object literal assigned to [out[key]]: six own properties, in
    this order, an absent input property giving [undefined]. *)
Definition entry_of (value : JsVal) : JsVal :=
  JObj [ ("channelId", JsValue.get value "channelId");
         ("suppressWindowMs", JsValue.get value "suppressWindowMs");
         ("importantLabels", JsValue.get value "importantLabels");
         ("hiddenLabels", JsValue.get value "hiddenLabels");
         ("thumbnailUrl", JsValue.get value "thumbnailUrl");
         ("mentions", filter_mentions (JsValue.get value "mentions")) ].

Inductive Validation :=
| Ok (config : JsVal)
| Invalid (error : string).

Definition entry_error (key : string) : string :=
  "Entry " ++ dquote ++ key ++ dquote ++ " must be an object with channelId (string)".

(** The loop over [Object.entries(data)], [out] being the object built
    so far. *)
Fixpoint validate_entries (entries out : list (string * JsVal)) : Validation :=
  match entries with
  | [] => Ok (JObj out)
  | (key, value) :: rest =>
      if isAlertTypeConfig value
      then validate_entries rest (JsValue.assign key (entry_of value) out)
      else Invalid (entry_error key)
  end.

Definition validateAlertsConfig (data : JsVal) : Validation :=
  match data with
  | JObj entries => validate_entries entries []
  | _ => Invalid "Config must be a JSON object"
  end.

(** [config?.channelId] is truthy. *)
Definition has_channel (c : option AlertTypeConfig) : bool :=
  match c with Some e => Js.truthy (c_channelId e) | None => false end.

End Config.

(* ===================================================================== *)
(** * The chat gateway as the client code sees it *)
(* ===================================================================== *)

Module Discord.

(** What the code asks of a fetched channel. *)
Record Channel := mkChannel {
  isTextBased : bool;
  isDMBased : bool;
  isThread : bool;
  hasThreads : bool;   (* "threads" in channel *)
}.

(** [await c.channels.fetch(id)] *)
Inductive Fetched :=
| FetchRejects
| FetchNull
| FetchChannel (c : Channel).

(** The answers of the gateway during one handler run. *)
Record Api := mkApi {
  channels_fetch : string -> Fetched;
  (** [channel.messages.fetch(messageId)] resolves *)
  messages_fetch : string -> string -> bool;
  (** [message.edit(options)] resolves *)
  message_edit : string -> bool;
  (** [message.startThread(...)]: the id of the thread, or it rejects *)
  message_startThread : string -> option string;
  (** [channel.send(...)]: the id of the message, or it rejects *)
  channel_send : string -> option string;
  (** whether the [n]-th (from 0) of the [channel.send(...)] that a
      handler awaits one after the other on a channel resolves *)
  channel_send_nth : string -> nat -> bool;
}.

(** [ch?.isTextBased() && !ch.isDMBased()] *)
Definition usable (f : Fetched) : option Channel :=
  match f with
  | FetchChannel c => if isTextBased c && negb (isDMBased c) then Some c else None
  | _ => None
  end.

Inductive ButtonStyle := Primary | Secondary | Success.

Record Button := mkButton {
  customId : string;
  label : string;
  style : ButtonStyle;
}.

(** An embed as an interaction carries it and as the handlers rebuild
    it. *)
Record MessageEmbed := mkEmbed {
  e_title : option string;
  e_description : option string;
  e_color : Z;
  e_fields : list Embed.EmbedField;
  e_footer : option string;
  e_timestamp : option string;
}.

(** What a handler sends to the gateway, oldest first. The embed of an
    alert message is [buildAlertEmbed payload]; the event keeps the
    payload it is built from. *)
Inductive ChatEvent :=
| MessageEdited (channel message : string) (alert : AlertApiPayload)
                (components : list Button)
| MessageCreated (channel message : string) (alert : AlertApiPayload)
                 (components : list Button)
| ThreadStarted (message thread name : string)
| RepeatedNotice (target time : string) (severity : option Severity)
                 (resource : option string)
| TextSent (target content : string)
| InteractionReply (content : string)
| InteractionUpdate (embed : option MessageEmbed) (components : list Button).

End Discord.

(** The calls a handler makes on its collaborators, oldest first. *)
Inductive Call :=
| CallInc (counter : string)
| CallClearDedup (fingerprint : string)
| CallIsDuplicate (fingerprint : string) (ttlMs : Z)
| CallSetDedupTtl (fingerprint : string) (ttlMs : Z)
| CallGetStoredAlert (alertId : string) (resource : option string)
| CallSetStoredAlert (alertId : string) (resource : option string)
                     (data : StoredAlert)
| CallDeleteStoredAlert (alertId : string) (resource : option string)
| CallSendOrUpdateAlert (payload : AlertApiPayload)
| CallInsertAlertEvent (payload : AlertApiPayload) (messageId : string)
| CallUpdateAlertEventAck (alertId : string) (resource : option string)
                          (userId : string)
| CallUpdateAlertEventResolve (alertId : string) (resource : option string)
                              (userId : string)
| CallChat (e : Discord.ChatEvent).

(** The state a handler runs in: the Redis key space and the record of
    the calls made so far. *)
Record World := mkWorld {
  redis : Redis;
  calls : list Call;
}.

(** The state monad of the handlers. *)
Definition M (A : Type) : Type := World -> A * World.

Definition ret {A} (a : A) : M A := fun w => (a, w).

Definition bind {A B} (m : M A) (k : A -> M B) : M B :=
  fun w => let '(a, w') := m w in k a w'.

Notation "'let*' x := m 'in' k" := (bind m (fun x => k))
  (at level 10, x pattern, m at level 100, k at level 200).
Notation "m ;; k" := (bind m (fun _ => k))
  (at level 100, k at level 200, right associativity).

Definition call (c : Call) : M unit :=
  fun w => (tt, mkWorld (redis w) (calls w ++ [c])).

Definition on_redis {A} (f : Redis -> A * Redis) : M A :=
  fun w => let '(a, r) := f (redis w) in (a, mkWorld r (calls w)).

Definition when (b : bool) (m : M unit) : M unit := if b then m else ret tt.

(** The collaborators, each recording its call. *)
Module Do.

Definition inc (name : string) : M unit := call (CallInc name).

Definition clearDedup (fp : string) : M unit :=
  call (CallClearDedup fp) ;;
  on_redis (fun r => (tt, Dedup.clearDedup fp r)).

Definition isDuplicate (now : Z) (fp : string) (ttlMs : Z) : M bool :=
  call (CallIsDuplicate fp ttlMs) ;;
  on_redis (Dedup.isDuplicate now fp ttlMs).

Definition setDedupTtl (now : Z) (fp : string) (ttlMs : Z) : M unit :=
  call (CallSetDedupTtl fp ttlMs) ;;
  on_redis (fun r => (tt, Dedup.setDedupTtl now fp ttlMs r)).

Definition getStoredAlert (now : Z) (alertId : string)
    (resource : option string) : M (option StoredAlert) :=
  call (CallGetStoredAlert alertId resource) ;;
  on_redis (fun r => (Store.getStoredAlert now alertId resource r, r)).

Definition setStoredAlert (now : Z) (alertId : string)
    (resource : option string) (data : StoredAlert) : M unit :=
  call (CallSetStoredAlert alertId resource data) ;;
  on_redis (fun r => (tt, Store.setStoredAlert now alertId resource data r)).

Definition deleteStoredAlert (alertId : string) (resource : option string)
    : M unit :=
  call (CallDeleteStoredAlert alertId resource) ;;
  on_redis (fun r => (tt, Store.deleteStoredAlert alertId resource r)).

Definition chat (e : Discord.ChatEvent) : M unit := call (CallChat e).

End Do.

(** [Date.now() - new Date(s).getTime() > limit]: with an unparsable
    [s] the difference is [NaN] and the comparison is false. *)
Definition older_than `{Runtime} (now : Z) (s : string) (limit : Z) : bool :=
  match Date_getTime s with
  | Some t => limit <? now - t
  | None => false
  end.

(** [parts[i]] interpolated into a template or used as a key:
    [undefined] prints as the word. *)
Definition part (parts : list string) (i : nat) : string :=
  Js.nullish (parts !! i) "undefined".

(* ===================================================================== *)
(** * discord/client.ts: posting and updating the alert message *)
(* ===================================================================== *)

Module Client.

Definition ACK_BUTTON_CUSTOM_ID : string := "alert_ack".
Definition TROUBLESHOOT_BUTTON_CUSTOM_ID : string := "alert_troubleshoot".
Definition RESOLVE_BUTTON_CUSTOM_ID : string := "alert_resolve".
Definition ACK_MIN_SUPPRESS_MS : Z := 10 * 60 * 1000.
Definition MENTION_ESCALATION_INTERVAL_MS : Z := 60 * 1000.
Definition MENTION_ESCALATION_STEP_MS : Z := 5 * 60 * 1000.
Definition ACK_REMINDER_AFTER_MS : Z := 60 * 60 * 1000.
Definition DEFAULT_SUPPRESS_MS : Z := 5 * 60 * 1000.
Definition DISCORD_MAX_LEN : nat := 2000.

(** [`${prefix}:${alertId}:${resource ?? ""}`] *)
Definition button_id (prefix alertId : string) (resource : option string)
    : string :=
  prefix ++ ":" ++ alertId ++ ":" ++ Js.nullish resource "".

Definition ack_button (alertId : string) (resource : option string) :=
  Discord.mkButton (button_id ACK_BUTTON_CUSTOM_ID alertId resource)
                   "Acknowledge" Discord.Primary.

Definition troubleshoot_button (alertId : string) (resource : option string) :=
  Discord.mkButton (button_id TROUBLESHOOT_BUTTON_CUSTOM_ID alertId resource)
                   "Troubleshooting guide" Discord.Secondary.

Definition resolve_button (alertId : string) (resource : option string) :=
  Discord.mkButton (button_id RESOLVE_BUTTON_CUSTOM_ID alertId resource)
                   "Resolve" Discord.Success.

(** The action row of an alert message: three buttons while firing,
    none otherwise. *)
Definition components (payload : AlertApiPayload) : list Discord.Button :=
  match status payload with
  | Firing =>
      [ ack_button (alertId payload) (resource payload);
        troubleshoot_button (alertId payload) (resource payload);
        resolve_button (alertId payload) (resource payload) ]
  | _ => []
  end.

Definition thread_name (payload : AlertApiPayload) : string :=
  "Incident: " ++ Js.slice0 50 (title payload).

(** [a ?? b] where both may be absent. *)
Definition or_else {A} (a b : option A) : option A :=
  match a with Some _ => a | None => b end.

Definition state_of_status (s : AlertStatus) : AlertState :=
  match s with
  | Resolved => StateResolved
  | Acknowledged => StateAcknowledged
  | Firing => StateFiring
  end.

(** [{ ...stored, mentionLevel: n }] *)
Definition with_mentionLevel (stored : StoredAlert) (n : Z) : StoredAlert :=
  mkStored (messageId stored) (channelId stored) (threadId stored)
           (state stored) (updatedAt stored) (ruleName stored)
           (acknowledgedBy stored) (resolvedBy stored) (s_severity stored)
           (Some n) (resolvedAt stored) (acknowledgedAt stored).

(** [{ ...stored, state: "acknowledged", acknowledgedBy, acknowledgedAt,
       updatedAt: acknowledgedAt }] *)
Definition acknowledged_by (stored : StoredAlert) (userId at_ : string)
    : StoredAlert :=
  mkStored (messageId stored) (channelId stored) (threadId stored)
           StateAcknowledged at_ (ruleName stored)
           (Some userId) (resolvedBy stored) (s_severity stored)
           (mentionLevel stored) (resolvedAt stored) (Some at_).

(** [{ ...stored, state: "resolved", resolvedBy, resolvedAt,
       updatedAt: resolvedAt }] *)
Definition resolved_by (stored : StoredAlert) (userId at_ : string)
    : StoredAlert :=
  mkStored (messageId stored) (channelId stored) (threadId stored)
           StateResolved at_ (ruleName stored)
           (acknowledgedBy stored) (Some userId) (s_severity stored)
           (mentionLevel stored) (Some at_) (acknowledgedAt stored).

Section Handlers.

Context `{rt : Runtime}.
Variable api : Discord.Api.
(** [getAlertsConfig()], the cached configuration. *)
Variable config : AlertsConfig.
(** [process.env.DATABASE_URL] is set. *)
Variable database : bool.
(** [getTroubleshootingGuide(ruleName)] *)
Variable guides : string -> option string.

(** The record written when an existing message was edited. *)
Definition updated_record (now : Z) (payload : AlertApiPayload)
    (stored : StoredAlert) (newThreadId : option string) : StoredAlert :=
  mkStored (messageId stored) (p_channelId payload) newThreadId
           (state_of_status (status payload))
           (Date_toISOString now)
           (or_else (p_ruleName payload) (ruleName stored))
           (acknowledgedBy stored) (resolvedBy stored)
           (or_else (option_map severity_name (severity payload))
                    (s_severity stored))
           None
           (match status payload with
            | Resolved =>
                Some (Js.nullish (p_resolvedAt payload) (Date_toISOString now))
            | _ => resolvedAt stored
            end)
           (acknowledgedAt stored).

(** The record written for a newly created message. *)
Definition fresh_record (now : Z) (payload : AlertApiPayload)
    (message : string) (thread : option string) : StoredAlert :=
  mkStored message (p_channelId payload) thread
           (match status payload with
            | Resolved => StateResolved | _ => StateFiring end)
           (Date_toISOString now) (p_ruleName payload) None None
           (option_map severity_name (severity payload))
           None None None.

(** The reminder after an hour of acknowledged state: mention the first
    user of the rule. A failed send is swallowed. *)
Definition ack_reminder (now : Z) (stored : StoredAlert) (target : string)
    : M unit :=
  if state_eqb (state stored) StateAcknowledged
     && match acknowledgedAt stored with
        | Some at_ => Js.truthy at_ && older_than now at_ ACK_REMINDER_AFTER_MS
        | None => false
        end
  then
    match config !! Js.nullish (ruleName stored) "" with
    | Some typeConfig =>
        match mentions typeConfig with
        | Some (firstMention :: _) =>
            when (Js.truthy firstMention)
              (match Discord.channel_send api target with
               | Some _ =>
                   Do.chat (Discord.TextSent target
                     ("This alert was acknowledged but not resolved."
                      ++ String (ascii_of_nat 10) "<@" ++ firstMention ++ ">"))
               | None => ret tt
               end)
        | _ => ret tt
        end
    | None => ret tt
    end
  else ret tt.

(** [threadChannel.send({ embeds: [repeatedEmbed] })] and what follows
    it in the inner [try]; a rejected send leaves the [try]. *)
Definition send_repeated (now : Z) (payload : AlertApiPayload)
    (stored : StoredAlert) (target : string) : M unit :=
  match Discord.channel_send api target with
  | Some _ =>
      Do.chat (Discord.RepeatedNotice target (Date_toISOString now)
                 (severity payload)
                 (if Js.truthy_opt (resource payload) then resource payload
                  else None)) ;;
      ack_reminder now stored target
  | None => ret tt
  end.

(** The inner [try] of the edit path for a firing payload: post the
    repeat notice into the incident thread, opening a thread when the
    stored one is not usable. Returns [newThreadId]. *)
Definition post_repeated (now : Z) (payload : AlertApiPayload)
    (stored : StoredAlert) (channel : Discord.Channel) : M (option string) :=
  let lookup : option (option string) :=   (* None: the fetch rejected *)
    match threadId stored with
    | Some tid =>
        if Js.truthy tid then
          match Discord.channels_fetch api tid with
          | Discord.FetchRejects => None
          | f => Some (match Discord.usable f with
                       | Some _ => Some tid
                       | None => None
                       end)
          end
        else Some None
    | None => Some None
    end in
  match lookup with
  | None => ret (threadId stored)
  | Some (Some tid) =>
      send_repeated now payload stored tid ;; ret (threadId stored)
  | Some None =>
      if negb (Discord.isThread channel) && Discord.hasThreads channel then
        match Discord.message_startThread api (messageId stored) with
        | Some newThread =>
            Do.chat (Discord.ThreadStarted (messageId stored) newThread
                       (thread_name payload)) ;;
            send_repeated now payload stored newThread ;;
            ret (Some newThread)
        | None => ret (threadId stored)
        end
      else ret (threadId stored)
  end.

(** The [try] block that edits the stored message. [None]: it threw,
    and the caller falls through to a new message. *)
Definition edit_existing (now : Z) (payload : AlertApiPayload)
    (stored : StoredAlert) : M (option string) :=
  match Discord.usable (Discord.channels_fetch api (p_channelId payload)) with
  | None => ret None
  | Some channel =>
      if negb (Discord.messages_fetch api (p_channelId payload) (messageId stored))
      then ret None
      else if negb (Discord.message_edit api (messageId stored))
      then ret None
      else
        Do.chat (Discord.MessageEdited (p_channelId payload) (messageId stored)
                   payload (components payload)) ;;
        let* newThreadId :=
          match status payload with
          | Firing => post_repeated now payload stored channel
          | _ => ret (threadId stored)
          end in
        Do.setStoredAlert now (alertId payload) (resource payload)
          (updated_record now payload stored newThreadId) ;;
        ret (Some (messageId stored))
  end.

(** Post a new message and open its thread. [None]: it threw. *)
Definition create_new (now : Z) (payload : AlertApiPayload)
    : M (option string) :=
  match Discord.usable (Discord.channels_fetch api (p_channelId payload)) with
  | None => ret None
  | Some channel =>
      match Discord.channel_send api (p_channelId payload) with
      | None => ret None
      | Some message =>
          Do.chat (Discord.MessageCreated (p_channelId payload) message
                     payload (components payload)) ;;
          let store thread :=
            Do.setStoredAlert now (alertId payload) (resource payload)
              (fresh_record now payload message thread) ;;
            ret (Some message) in
          if Discord.isThread channel || negb (Discord.hasThreads channel)
          then store None
          else
            match Discord.message_startThread api message with
            | None => ret None
            | Some thread =>
                Do.chat (Discord.ThreadStarted message thread
                           (thread_name payload)) ;;
                store (Some thread)
            end
      end
  end.

(** [sendOrUpdateAlert]: the id of the message, or [None] when it
    throws. *)
Definition sendOrUpdateAlert (now : Z) (payload : AlertApiPayload)
    : M (option string) :=
  let* stored := Do.getStoredAlert now (alertId payload) (resource payload) in
  match stored with
  | Some st =>
      if Js.truthy (messageId st) then
        let* edited := edit_existing now payload st in
        match edited with
        | Some message => ret (Some message)
        | None => create_new now payload
        end
      else create_new now payload
  | None => create_new now payload
  end.

(** ** The button handlers *)

(** A button press: the custom id of the button, the user, and the
    embeds of the message that carries the button. *)
Record Interaction := mkInteraction {
  i_customId : string;
  i_userId : string;
  i_embeds : list Discord.MessageEmbed;
}.

(** [parts[2] === "" ? undefined : parts[2]] *)
Definition button_resource (parts : list string) : option string :=
  match parts !! 2%nat with
  | Some s => if Js.is_empty s then None else Some s
  | None => None
  end.

(** The embed rebuilt from the old one with a new colour and field
    list. [None] when [new Date(oldEmbed.timestamp)] is invalid, which
    makes [setTimestamp] throw. *)
Definition rebuild (old : Discord.MessageEmbed) (color : Z)
    (fields : list Embed.ResolvedField) : option Discord.MessageEmbed :=
  let timestamp : option (option string) :=
    match Discord.e_timestamp old with
    | Some ts =>
        if Js.truthy ts
        then match Date_getTime ts with
             | Some ms => Some (Some (Date_toISOString ms))
             | None => None
             end
        else Some None
    | None => Some None
    end in
  match timestamp with
  | None => None
  | Some ts =>
      Some (Discord.mkEmbed
              (Some (Js.nullish (Discord.e_title old) "Alert"))
              (if Js.truthy_opt (Discord.e_description old)
               then Discord.e_description old else None)
              color
              (map Embed.as_embed_field fields)
              (Discord.e_footer old)
              ts)
  end.

Definition COLOR_RESOLVED : Z := 3066993.      (* 0x2ecc71 *)
Definition COLOR_ACKNOWLEDGED : Z := 3447003.  (* 0x3498db *)

(** [fullMessage] cut into pieces of at most 2000 code units. *)
Fixpoint chunks (fuel : nat) (s : string) : list string :=
  match fuel with
  | O => []
  | S fuel' =>
      if Js.is_empty s then []
      else Js.slice0 DISCORD_MAX_LEN s :: chunks fuel' (Js.drop DISCORD_MAX_LEN s)
  end.

Definition guide_text (ruleName : string) : string :=
  let fallback :=
    "No troubleshooting guide configured for **" ++ ruleName
    ++ "**. Add one via `POST /troubleshooting-guide` with `alertType: "
    ++ Config.dquote ++ ruleName ++ Config.dquote ++ "`." in
  match guides ruleName with
  | Some content =>
      if Js.truthy (Js.trim content) then Js.trim content else fallback
  | None => fallback
  end.

(** [for (const chunk of chunks) await targetChannel.send({ content: chunk })]
    from the [n]-th send on: each text is sent once the one before it
    has been accepted, and the first send that rejects ends the loop
    ([false]), the texts before it staying posted. *)
Fixpoint send_from (target : string) (n : nat) (texts : list string) : M bool :=
  match texts with
  | [] => ret true
  | t :: rest =>
      if Discord.channel_send_nth api target n
      then Do.chat (Discord.TextSent target t) ;; send_from target (S n) rest
      else ret false
  end.

Definition send_all (target : string) (texts : list string) : M bool :=
  send_from target 0 texts.

Definition onTroubleshoot (now : Z) (i : Interaction) : M unit :=
  let parts := Js.split ":" (i_customId i) in
  let alertId := part parts 1 in
  let resource := button_resource parts in
  let* stored := Do.getStoredAlert now alertId resource in
  match stored with
  | None => Do.chat (Discord.InteractionReply "Alert state not found.")
  | Some stored =>
      let ruleName := Js.nullish (ruleName stored) "default" in
      let target := Js.nullish (threadId stored) (channelId stored) in
      let fullMessage :=
        "## Troubleshooting guide: " ++ ruleName
        ++ String (ascii_of_nat 10) (String (ascii_of_nat 10) (guide_text ruleName)) in
      match Discord.channels_fetch api target with
      | Discord.FetchRejects =>
          Do.chat (Discord.InteractionReply "Failed to post troubleshooting guide.")
      | f =>
          match Discord.usable f with
          | Some _ =>
              let* sent := send_all target (chunks (String.length fullMessage) fullMessage) in
              if sent
              then Do.chat (Discord.InteractionReply
                              "Troubleshooting guide posted in the discussion thread.")
              else Do.chat (Discord.InteractionReply
                              "Failed to post troubleshooting guide.")
          | None =>
              Do.chat (Discord.InteractionReply
                         "Could not post to the discussion thread.")
          end
      end
  end.

Definition onResolve (now : Z) (i : Interaction) : M unit :=
  let parts := Js.split ":" (i_customId i) in
  let alertId := part parts 1 in
  let resource := button_resource parts in
  let* stored := Do.getStoredAlert now alertId resource in
  match stored with
  | None => Do.chat (Discord.InteractionReply "Alert state not found.")
  | Some stored =>
      let userId := i_userId i in
      Do.clearDedup alertId ;;
      let resolvedAt := Date_toISOString now in
      Do.setStoredAlert now alertId resource (resolved_by stored userId resolvedAt) ;;
      when database (call (CallUpdateAlertEventResolve alertId resource userId)) ;;
      match i_embeds i with
      | [] => Do.chat (Discord.InteractionUpdate None [])
      | oldEmbed :: _ =>
          match rebuild oldEmbed COLOR_RESOLVED
                  (Embed.buildResolvedFields (Discord.e_fields oldEmbed) userId resolvedAt) with
          | Some embed => Do.chat (Discord.InteractionUpdate (Some embed) [])
          | None => ret tt
          end
      end
  end.

Definition onAcknowledge (now : Z) (i : Interaction) : M unit :=
  let parts := Js.split ":" (i_customId i) in
  let alertId := part parts 1 in
  let resource := button_resource parts in
  let* stored := Do.getStoredAlert now alertId resource in
  match stored with
  | None => Do.chat (Discord.InteractionReply "Alert state not found.")
  | Some stored =>
      let userId := i_userId i in
      let typeConfig := config !! Js.nullish (ruleName stored) "" in
      let suppressWindowMs :=
        Js.nullish (typeConfig ≫= suppressWindowMs) DEFAULT_SUPPRESS_MS in
      let ackSuppressMs := Z.max suppressWindowMs ACK_MIN_SUPPRESS_MS in
      Do.setDedupTtl now alertId ackSuppressMs ;;
      let acknowledgedAt := Date_toISOString now in
      Do.setStoredAlert now alertId resource
        (acknowledged_by stored userId acknowledgedAt) ;;
      when database (call (CallUpdateAlertEventAck alertId resource userId)) ;;
      match i_embeds i with
      | [] => Do.chat (Discord.InteractionUpdate None [])
      | oldEmbed :: _ =>
          match rebuild oldEmbed COLOR_ACKNOWLEDGED
                  (Embed.buildAcknowledgedFields (Discord.e_fields oldEmbed) userId) with
          | Some embed =>
              Do.chat (Discord.InteractionUpdate (Some embed)
                         [ troubleshoot_button alertId resource;
                           resolve_button alertId resource ])
          | None => ret tt
          end
      end
  end.

(** The [interactionCreate] listener on a button interaction. *)
Definition onButton (now : Z) (i : Interaction) : M unit :=
  if Js.startsWith TROUBLESHOOT_BUTTON_CUSTOM_ID (i_customId i)
  then onTroubleshoot now i
  else if Js.startsWith RESOLVE_BUTTON_CUSTOM_ID (i_customId i)
  then onResolve now i
  else if negb (Js.startsWith ACK_BUTTON_CUSTOM_ID (i_customId i))
  then ret tt
  else onAcknowledge now i.

(** ** The mention escalation loop *)

(** [mentions[level]] *)
Definition mention_at (ms : list string) (level : Z) : option string :=
  if level <? 0 then None else ms !! Z.to_nat level.

Definition escalation_text (userId : string) (level : Z) : string :=
  "<@" ++ userId
  ++ "> Critical alert still not acknowledged or resolved (escalation level "
  ++ ToString (JNum (level + 1)) ++ ").".

(** [elapsed < threshold], with [elapsed = Date.now() - new
    Date(updatedAt).getTime()]: false when the date is invalid. *)
Definition too_early (now : Z) (updatedAt : string) (threshold : Z) : bool :=
  match Date_getTime updatedAt with
  | Some t => now - t <? threshold
  | None => false
  end.

(** The body of the loop for one record that passed the state and
    severity tests. *)
Definition escalate_record (now : Z) (alertId : string)
    (resource : option string) (stored : StoredAlert) : M unit :=
  match config !! Js.nullish (ruleName stored) "" ≫= mentions with
  | None | Some [] => ret tt
  | Some ms =>
      let level := Js.nullish (mentionLevel stored) 0 in
      if Z.of_nat (length ms) <=? level then ret tt
      else if too_early now (updatedAt stored)
                ((level + 1) * MENTION_ESCALATION_STEP_MS)
      then ret tt
      else
        let target := Js.nullish (threadId stored) (channelId stored) in
        match mention_at ms level with
        | None => ret tt
        | Some userId =>
            if negb (Js.truthy userId) then ret tt
            else
              match Discord.usable (Discord.channels_fetch api target) with
              | None => ret tt
              | Some _ =>
                  match Discord.channel_send api target with
                  | None => ret tt
                  | Some _ =>
                      Do.chat (Discord.TextSent target
                                 (escalation_text userId level)) ;;
                      Do.setStoredAlert now alertId resource
                        (with_mentionLevel stored (level + 1))
                  end
              end
        end
  end.

(** The body of the loop for one key of the scan. *)
Definition escalate_key (now : Z) (key : string) : M unit :=
  let parts := Js.split ":" key in
  if (length parts <? 3)%nat then ret tt
  else
    let alertId := part parts 1 in
    let resource :=
      if String.eqb (part parts 2) "default" then None
      else Some (part parts 2) in
    let* stored := Do.getStoredAlert now alertId resource in
    match stored with
    | None => ret tt
    | Some stored =>
        match state stored with
        | StateResolved | StateAcknowledged => ret tt
        | StateFiring =>
            if negb (String.eqb
                       (Js.toLowerCase (Js.nullish (s_severity stored) ""))
                       "critical")
            then ret tt
            else escalate_record now alertId resource stored
        end
    end.

Fixpoint for_each {A} (f : A -> M unit) (l : list A) : M unit :=
  match l with
  | [] => ret tt
  | a :: rest => f a ;; for_each f rest
  end.

(** One run of the interval callback of [startMentionEscalation]. *)
Definition escalation_tick (ready : bool) (now : Z) : M unit :=
  if negb ready then ret tt
  else
    let* keys := on_redis (fun r => (Store.getStoredAlertKeys now r, r)) in
    for_each (escalate_key now) keys.

End Handlers.

End Client.

(* ===================================================================== *)
(** * services/processor.ts *)
(* ===================================================================== *)

Module Processor.

Definition RESOLVED_NEW_ALERT_AFTER_MS : Z := 30 * 60 * 1000.
(** [1.5 * 60 * 60 * 1000] *)
Definition ACK_NEW_INCIDENT_AFTER_MS : Z := 5400000.

(** ** The Grafana normalizer *)

(** [Record<string, string>], as its entry list. *)
Abbreviation Labels := (list (string * string)).

(** [labels[k]], for a name that no prototype defines. *)
Fixpoint label (k : string) (l : Labels) : option string :=
  match l with
  | [] => None
  | (k', v) :: rest => if String.eqb k' k then Some v else label k rest
  end.

(** One item of the webhook batch, after schema parsing. *)
Record SingleAlert := mkSingleAlert {
  a_status : option string;
  a_labels : Labels;
  a_annotations : Labels;
  a_startsAt : option string;
  a_endsAt : option string;
  a_generatorURL : option string;
  a_fingerprint : option string;
}.

Record NormalizedAlert := mkNormalized {
  n_id : string;
  n_fingerprint : string;
  n_status : string;
  n_labels : Labels;
  n_annotations : Labels;
  n_startsAt : string;
  n_endsAt : string;
  n_generatorURL : option string;
  n_groupLabels : Labels;
  n_commonLabels : Labels;
  n_commonAnnotations : Labels;
}.

(** The length of a match of [/%![\w]*\(<nil>\)/] at the start of [s]. *)
Fixpoint skip_word (s : string) : nat * string :=
  match s with
  | String c r =>
      if Js.is_word c then let '(n, rest) := skip_word r in (S n, rest)
      else (O, s)
  | EmptyString => (O, s)
  end.

Definition broken_template_at (s : string) : option nat :=
  match s with
  | String "%" (String "!" r) =>
      let '(n, rest) := skip_word r in
      if Js.startsWith "(<nil>)" rest then Some (2 + n + 7)%nat else None
  | _ => None
  end.

(** [s.replace(BROKEN_TEMPLATE, "N/A")]; [skip] counts the code units
    of a match that are still to be dropped. *)
Fixpoint replace_broken (skip : nat) (s : string) : string :=
  match s with
  | EmptyString => EmptyString
  | String c r =>
      match skip with
      | S k => replace_broken k r
      | O =>
          match broken_template_at s with
          | Some n => "N/A" ++ replace_broken (n - 1) r
          | None => String c (replace_broken O r)
          end
      end
  end.

Definition sanitize (s : string) : string := Js.trim (replace_broken O s).

(** [synthesized] stands for the template with [Date.now()] and
    [Math.random()] that replaces a missing fingerprint; [nowIso] for
    [new Date().toISOString()]. *)
Definition normalizeOne (synthesized nowIso : string) (a : SingleAlert)
    (groupLabels commonLabels commonAnnotations : Labels) : NormalizedAlert :=
  let fingerprint := Js.nullish (a_fingerprint a) synthesized in
  mkNormalized fingerprint fingerprint
    (Js.nullish (a_status a) "firing")
    (a_labels a) (a_annotations a)
    (Js.nullish (a_startsAt a) nowIso)
    (Js.nullish (a_endsAt a) "")
    (a_generatorURL a) groupLabels commonLabels commonAnnotations.

Definition getAlertTypeKey (alert : NormalizedAlert) : string :=
  match label "alertname" (n_labels alert) with
  | Some n => n
  | None => Js.nullish (label "alert_type" (n_labels alert)) "default"
  end.

Definition isMeaningfulEndsAt (endsAt : string) : bool :=
  if negb (Js.truthy (Js.trim endsAt)) then false
  else if Js.startsWith_ci "0001-01-01T00:00:00" (Js.trim endsAt) then false
  else true.

(** The separator of the key-info parts: space, U+2022, space. It is
    three code units long; the bullet lies outside the code units that
    [ascii] holds, and the unit 149 stands for it, so that lengths and
    slices are those of the code. *)
Definition BULLET_SEP : string := " " ++ String (ascii_of_nat 149) " ".

Fixpoint join (sep : string) (l : list string) : string :=
  match l with
  | [] => ""
  | [x] => x
  | x :: rest => x ++ sep ++ join sep rest
  end.

Definition mem (k : string) (l : list string) : bool :=
  existsb (String.eqb k) l.

(** What every label object inherits from [Object.prototype], as a
    template literal prints it: the source text of a built-in function,
    and [[object Object]] for the prototype itself. *)
Definition inherited (k : string) : option string :=
  if String.eqb k "__proto__" then Some "[object Object]"
  else if String.eqb k "constructor"
  then Some "function Object() { [native code] }"
  else if mem k [ "__defineGetter__"; "__defineSetter__"; "hasOwnProperty";
                  "__lookupGetter__"; "__lookupSetter__"; "isPrototypeOf";
                  "propertyIsEnumerable"; "toString"; "valueOf";
                  "toLocaleString" ]
  then Some ("function " ++ k ++ "() { [native code] }")
  else None.

(** [labels[k]] for any name [k]: the entry of the object, else what it
    inherits. *)
Definition label_of (k : string) (labels : Labels) : option string :=
  match label k labels with
  | Some v => Some v
  | None => inherited k
  end.

Definition key_info (importantKeys : list string) (labels : Labels)
    : list (string * string) :=
  let parts :=
    omap (fun k => match label_of k labels with
                   | Some v => if Js.is_empty v then None
                               else Some (k ++ ": " ++ v)
                   | None => None
                   end) importantKeys in
  match parts with
  | [] => []
  | _ => [("Key info", join BULLET_SEP parts)]
  end.

Definition valid_severity (labels : Labels) : Severity :=
  let severity := Js.toLowerCase (Js.nullish (label "severity" labels) "warning") in
  if String.eqb severity "critical" then Critical
  else if String.eqb severity "high" then High
  else if String.eqb severity "info" then Info
  else Warning.

Definition first_truthy (a b c : string) : string :=
  if Js.truthy a then a else if Js.truthy b then b else c.

Definition normalizedToApiPayload (alert : NormalizedAlert)
    (config : AlertTypeConfig) : AlertApiPayload :=
  let status :=
    if String.eqb (n_status alert) "resolved" then Resolved else Firing in
  let hidden := Js.nullish (hiddenLabels config) [] in
  let importantKeys := Js.nullish (importantLabels config) [] in
  let fields :=
    (key_info importantKeys (n_labels alert)
     ++ List.filter (fun kv => negb (mem (fst kv) hidden)) (n_labels alert)
     ++ map (fun kv => (fst kv, sanitize (snd kv))) (n_annotations alert))%list in
  let resource :=
    Client.or_else (label "instance" (n_labels alert))
      (Client.or_else (label "DBInstanceIdentifier" (n_labels alert))
                      (label "resource" (n_labels alert))) in
  let summary := Js.nullish (label "summary" (n_annotations alert)) "" in
  let description := Js.nullish (label "description" (n_annotations alert)) "" in
  let descriptionText :=
    first_truthy (sanitize summary) (sanitize description) "No description" in
  let ruleName := Js.nullish (label "alertname" (n_labels alert)) "default" in
  mkPayload (n_fingerprint alert) resource ("Alert: " ++ ruleName)
            (Some descriptionText) status (Some (valid_severity (n_labels alert)))
            (Some fields) (n_startsAt alert)
            (if isMeaningfulEndsAt (n_endsAt alert)
             then Some (n_endsAt alert) else None)
            (n_generatorURL alert) (c_channelId config) (Some ruleName)
            (thumbnailUrl config) (Some "grafana").

(** ** The shared pipeline *)

Section Pipeline.

Context `{rt : Runtime}.
Variable api : Discord.Api.
Variable config : AlertsConfig.
Variable database : bool.

(** [stored?.resolvedAt ?? (stored?.state === "resolved" ?
     stored?.updatedAt : null)] *)
Definition resolved_reference (stored : option StoredAlert) : option string :=
  match stored with
  | Some st =>
      match resolvedAt st with
      | Some r => Some r
      | None =>
          if state_eqb (state st) StateResolved then Some (updatedAt st)
          else None
      end
  | None => None
  end.

(** The guard of the first deletion. *)
Definition resolved_expired (now : Z) (stored : option StoredAlert) : bool :=
  match resolved_reference stored with
  | Some r => Js.truthy r && older_than now r RESOLVED_NEW_ALERT_AFTER_MS
  | None => false
  end.

(** The guard of the second deletion. *)
Definition ack_expired (now : Z) (stored : option StoredAlert) : bool :=
  match stored with
  | Some st =>
      state_eqb (state st) StateAcknowledged
      && match acknowledgedAt st with
         | Some a => Js.truthy a && older_than now a ACK_NEW_INCIDENT_AFTER_MS
         | None => false
         end
  | None => false
  end.

(** The lifecycle-expiry check: what the processor does between the
    dedup gate and the chat emit. *)
Definition expire_stored (now : Z) (payload : AlertApiPayload) : M unit :=
  let* stored := Do.getStoredAlert now (alertId payload) (resource payload) in
  when (resolved_expired now stored)
       (Do.deleteStoredAlert (alertId payload) (resource payload)) ;;
  when (ack_expired now stored)
       (Do.deleteStoredAlert (alertId payload) (resource payload)).

(** The [try] block: the chat emit and the audit row. *)
Definition emit (now : Z) (payload : AlertApiPayload) : M unit :=
  call (CallSendOrUpdateAlert payload) ;;
  let* sent := Client.sendOrUpdateAlert api config now payload in
  match sent with
  | Some messageId =>
      Do.inc "alerts_sent_total" ;;
      when database (call (CallInsertAlertEvent payload messageId))
  | None => Do.inc "discord_errors_total"
  end.

Definition processOneAlertPayload (now : Z) (payload : AlertApiPayload)
    : M unit :=
  let ruleName := Js.nullish (p_ruleName payload) "default" in
  Do.inc "alerts_received_total" ;;
  let typeConfig := config !! ruleName in
  if negb (Config.has_channel typeConfig)
  then Do.inc "no_config_suppressed_total"
  else
    let suppressWindowMs :=
      Js.nullish (typeConfig ≫= suppressWindowMs) Client.DEFAULT_SUPPRESS_MS in
    let* suppressed :=
      match status payload with
      | Resolved => Do.clearDedup (alertId payload) ;; ret false
      | _ => Do.isDuplicate now (alertId payload) suppressWindowMs
      end in
    if suppressed
    then Do.inc "dedup_suppressed_total"
    else expire_stored now payload ;; emit now payload.

(** [processAlerts] on a parsed batch: [fresh] gives, per item, the
    synthesized fingerprint. *)
Fixpoint processAlerts (now : Z) (fresh : nat -> string)
    (groupLabels commonLabels commonAnnotations : Labels)
    (alerts : list SingleAlert) : M unit :=
  match alerts with
  | [] => ret tt
  | a :: rest =>
      let alert :=
        normalizeOne (fresh (length rest)) (Date_toISOString now) a
                     groupLabels commonLabels commonAnnotations in
      match config !! getAlertTypeKey alert with
      | Some typeConfig =>
          when (Js.truthy (c_channelId typeConfig))
               (processOneAlertPayload now
                  (normalizedToApiPayload alert typeConfig))
      | None => ret tt
      end ;;
      processAlerts now fresh groupLabels commonLabels commonAnnotations rest
  end.

End Pipeline.

End Processor.

(* ===================================================================== *)
(** * services/sns-processor.ts *)
(* ===================================================================== *)

Module Sns.

Definition DEFAULT_EVENT_NAME : string := "sns".
Definition MAX_DESCRIPTION_LEN : nat := 1500.
Definition VALID_SEVERITIES : list (string * Severity) :=
  [ ("critical", Critical); ("high", High);
    ("warning", Warning); ("info", Info) ].

(** [{ Type, Value }] *)
Record AttributeValue := mkAttr { attr_Type : string; attr_Value : string }.

(** The SNS Notification envelope, after schema parsing. *)
Record Envelope := mkEnvelope {
  MessageId : string;
  Subject : option string;
  Message : string;
  Timestamp : option string;
  MessageAttributes : option (list (string * AttributeValue));
}.

Fixpoint attribute (k : string) (l : list (string * AttributeValue))
    : option AttributeValue :=
  match l with
  | [] => None
  | (k', v) :: rest => if String.eqb k' k then Some v else attribute k rest
  end.

(** [attrs?.name?.Value] *)
Definition attr_value (e : Envelope) (name : string) : option string :=
  attr_Value <$> (MessageAttributes e ≫= attribute name).

(** [s?.trim()] is truthy. *)
Definition nonblank (o : option string) : bool :=
  match o with Some s => Js.truthy (Js.trim s) | None => false end.

Definition normalizeEventName (s : option string) : string :=
  match s with
  | Some s =>
      if negb (Js.truthy (Js.trim s)) then DEFAULT_EVENT_NAME
      else Js.replace_ws_runs false (Js.trim s)
  | None => DEFAULT_EVENT_NAME
  end.

(** [typeof v === "string" && v] *)
Definition nonempty_string (v : JsVal) : option string :=
  match v with
  | JStr s => if Js.truthy s then Some s else None
  | _ => None
  end.

Inductive ResourceResult :=
| NoResource
| ResourceString (s : string)
| ResourceIllTyped (v : JsVal).

Section WithRuntime.

Context `{rt : Runtime}.

(** [JSON.parse(message)] when it is a non-null object (or array). *)
Definition parsed_object (message : string) : option JsVal :=
  match JSON_parse message with
  | Some v => if JsValue.is_object v then Some v else None
  | None => None
  end.

Definition deriveEventName (envelope : Envelope) : string :=
  if nonblank (Subject envelope) then normalizeEventName (Subject envelope)
  else if nonblank (attr_value envelope "event_type")
  then normalizeEventName (attr_value envelope "event_type")
  else if nonblank (attr_value envelope "rule_name")
  then normalizeEventName (attr_value envelope "rule_name")
  else
    match parsed_object (Message envelope) with
    | Some o =>
        match nonempty_string (JsValue.get o "detail-type") with
        | Some s => normalizeEventName (Some s)
        | None =>
            match nonempty_string (JsValue.get o "source") with
            | Some s => normalizeEventName (Some s)
            | None =>
                match nonempty_string (JsValue.get o "eventName") with
                | Some s => normalizeEventName (Some s)
                | None => DEFAULT_EVENT_NAME
                end
            end
        end
    | None => DEFAULT_EVENT_NAME
    end.

Definition severity_named (s : string) : option Severity :=
  snd <$> List.find (fun p => String.eqb (fst p) s) VALID_SEVERITIES.

(** [a ?? b] on values. *)
Definition val_or (a b : JsVal) : JsVal :=
  match a with JUndefined | JNull => b | _ => a end.

Definition parseSeverity (envelope : Envelope) : Severity :=
  let fromAttr :=
    Client.or_else (Js.toLowerCase <$> attr_value envelope "severity")
                   (Js.toLowerCase <$> attr_value envelope "Severity") in
  match fromAttr ≫= (fun s => if Js.truthy s then severity_named s else None) with
  | Some sev => sev
  | None =>
      match parsed_object (Message envelope) with
      | Some o =>
          let s := Js.toLowerCase
                     (ToString (val_or (JsValue.get o "severity")
                                  (val_or (JsValue.get o "Severity") (JStr "")))) in
          Js.nullish (severity_named s) Warning
      | None => Warning
      end
  end.

Definition parseResource (envelope : Envelope) : ResourceResult :=
  match parsed_object (Message envelope) with
  | Some o =>
      match JsValue.get o "AlarmName" with
      | JStr s => ResourceString s
      | _ =>
          let detail := JsValue.get o "detail" in
          match (if JsValue.truthy detail then JsValue.get detail "resource"
                 else JUndefined) with
          | JStr s => ResourceString s
          | _ =>
              match JsValue.get detail "resources" with
              | JArr (first :: _) =>
                  let arn := JsValue.get first "ARN" in
                  if JsValue.truthy arn
                  then match arn with
                       | JStr s => ResourceString s
                       | v => ResourceIllTyped v
                       end
                  else NoResource
              | _ => NoResource
              end
          end
      end
  | None => NoResource
  end.

Definition parseResolvedState (envelope : Envelope)
    : AlertStatus * option string :=
  match parsed_object (Message envelope) with
  | Some o =>
      match JsValue.get o "NewStateValue" with
      | JStr "OK" => (Resolved, Timestamp envelope)
      | _ =>
          let detail := JsValue.get o "detail" in
          if JsValue.truthy detail
          then match JsValue.get (JsValue.get detail "state") "value" with
               | JStr "OK" => (Resolved, Timestamp envelope)
               | _ => (Firing, None)
               end
          else (Firing, None)
      end
  | None => (Firing, None)
  end.

(** [Object.entries(o)]: the index keys of an array are its positions
    printed in decimal. *)
Definition entries (o : JsVal) : list (string * JsVal) :=
  match o with
  | JObj props => props
  | JArr items => imap (fun i v => (ToString (JNum (Z.of_nat i)), v)) items
  | _ => []
  end.

Definition buildFieldsFromMessage (message : string) : list (string * string) :=
  let fields :=
    match parsed_object message with
    | Some o =>
        omap (fun kv : string * JsVal =>
                match snd kv with
                | JUndefined | JNull => None
                | v =>
                    Some (fst kv,
                          Js.slice0 500 (if JsValue.is_object v
                                         then JSON_stringify v else ToString v))
                end) (entries o)
    | None => []
    end in
  take 20 fields.

Inductive Built :=
| NoConfig                          (* returns null *)
| Payload (p : AlertApiPayload)
| IllTyped.                         (* a resource that is not a string *)

(** The suffix of the alert id: [resource ? `:${resource.slice(0, 64)}` : ""] *)
Definition resource_suffix (resource : string) : string :=
  if Js.truthy resource then ":" ++ Js.slice0 64 resource else "".

Definition snsEnvelopeToAlertPayload (config : AlertsConfig) (now : Z)
    (envelope : Envelope) : Built :=
  let eventName := deriveEventName envelope in
  match config !! eventName with
  | None => NoConfig
  | Some cfg =>
      if negb (Js.truthy (c_channelId cfg)) then NoConfig
      else
        let description := Js.slice0 MAX_DESCRIPTION_LEN (Message envelope) in
        let severity := parseSeverity envelope in
        let startedAt := Js.nullish (Timestamp envelope) (Date_toISOString now) in
        let fields := buildFieldsFromMessage (Message envelope) in
        let '(status, resolvedAt) := parseResolvedState envelope in
        let build (resource : option string) (alertId : string) :=
          Payload
            (mkPayload alertId resource
               (if nonblank (Subject envelope)
                then "Alert: " ++ Js.trim (Js.nullish (Subject envelope) "")
                else "Alert: " ++ eventName)
               (Some (if Js.truthy description then description
                      else "No description"))
               status (Some severity)
               (match fields with [] => None | _ => Some fields end)
               startedAt resolvedAt None (c_channelId cfg) (Some eventName)
               (thumbnailUrl cfg) (Some "sns")) in
        match parseResource envelope with
        | NoResource => build None (MessageId envelope)
        | ResourceString r =>
            build (Some r) (MessageId envelope ++ resource_suffix r)
        | ResourceIllTyped _ => IllTyped
        end
  end.

End WithRuntime.

End Sns.

(* ===================================================================== *)
(** * A sample runtime, for the concrete runs *)
(* ===================================================================== *)

(** An implementation of the built-ins on the fragment the concrete
    runs below use: dates in the format [toISOString] prints
    ([YYYY-MM-DDTHH:mm:ss.sssZ], the milliseconds optional), and JSON
    documents from a table. The theorems do not depend on it. *)
Module Sample.

Definition digit (c : ascii) : option Z :=
  let n := nat_of_ascii c in
  if ((48 <=? n) && (n <=? 57))%nat then Some (Z.of_nat n - 48) else None.

Fixpoint number_from (acc : Z) (s : string) : option Z :=
  match s with
  | EmptyString => Some acc
  | String c r =>
      match digit c with
      | Some d => number_from (acc * 10 + d) r
      | None => None
      end
  end.

(** A non-empty run of decimal digits. *)
Definition number (s : string) : option Z :=
  if Js.is_empty s then None else number_from 0 s.

(** Days from 1970-01-01 to a date of the proleptic Gregorian
    calendar. *)
Definition days_from_civil (y m d : Z) : Z :=
  let y' := if m <=? 2 then y - 1 else y in
  let era := y' / 400 in
  let yoe := y' - era * 400 in
  let mp := (m + 9) mod 12 in
  let doy := (153 * mp + 2) / 5 + d - 1 in
  let doe := yoe * 365 + yoe / 4 - yoe / 100 + doy in
  era * 146097 + doe - 719468.

Definition civil_from_days (z : Z) : Z * Z * Z :=
  let z' := z + 719468 in
  let era := z' / 146097 in
  let doe := z' - era * 146097 in
  let yoe := (doe - doe / 1460 + doe / 36524 - doe / 146096) / 365 in
  let doy := doe - (365 * yoe + yoe / 4 - yoe / 100) in
  let mp := (5 * doy + 2) / 153 in
  let d := doy - (153 * mp + 2) / 5 + 1 in
  let m := if mp <? 10 then mp + 3 else mp - 9 in
  let y := yoe + era * 400 in
  (if m <=? 2 then y + 1 else y, m, d).

Definition substr (from len : nat) (s : string) : string :=
  Js.slice0 len (Js.drop from s).

Definition getTime (s : string) : option Z :=
  let field from len := number (substr from len s) in
  let sep at_ c := String.eqb (substr at_ 1 s) c in
  let tail := Js.drop 19 s in
  let millis :=
    if String.eqb tail "Z" then Some 0
    else if sep 19%nat "." && String.eqb (Js.drop 23 s) "Z"
    then field 20%nat 3%nat else None in
  if sep 4%nat "-" && sep 7%nat "-" && sep 10%nat "T"
     && sep 13%nat ":" && sep 16%nat ":"
  then
    y ← field 0%nat 4%nat; mo ← field 5%nat 2%nat; d ← field 8%nat 2%nat;
    h ← field 11%nat 2%nat; mi ← field 14%nat 2%nat; sec ← field 17%nat 2%nat;
    ms ← millis;
    Some ((((days_from_civil y mo d * 24 + h) * 60 + mi) * 60 + sec) * 1000 + ms)
  else None.

Definition decimal (n : Z) : string :=
  DecimalString.NilZero.string_of_int (Z.to_int n).

Fixpoint zeros (n : nat) : string :=
  match n with O => "" | S k => String "0" (zeros k) end.

(** [n] in decimal, padded with zeros to [width] digits. *)
Definition padded (width : nat) (n : Z) : string :=
  let s := decimal n in
  zeros (width - String.length s) ++ s.

Definition toISOString (ms : Z) : string :=
  let days := ms / 86400000 in
  let rest := ms mod 86400000 in
  let '(y, m, d) := civil_from_days days in
  padded 4 y ++ "-" ++ padded 2 m ++ "-" ++ padded 2 d ++ "T"
  ++ padded 2 (rest / 3600000) ++ ":" ++ padded 2 (rest / 60000 mod 60)
  ++ ":" ++ padded 2 (rest / 1000 mod 60) ++ "."
  ++ padded 3 (rest mod 1000) ++ "Z".

Definition q : string := Config.dquote.

(** The JSON documents of the concrete runs, with their values. *)
Definition documents : list (string * JsVal) :=
  [ ("{}", JObj []);
    ("{" ++ q ++ "AlarmName" ++ q ++ ":" ++ q ++ "cpu" ++ q ++ "}",
     JObj [("AlarmName", JStr "cpu")]);
    ("{" ++ q ++ "detail-type" ++ q ++ ":" ++ q ++ "EC2 State Change" ++ q ++ "}",
     JObj [("detail-type", JStr "EC2 State Change")]);
    ("{" ++ q ++ "detail-type" ++ q ++ ":" ++ q ++ " " ++ q ++ ","
         ++ q ++ "source" ++ q ++ ":" ++ q ++ "aws.ec2" ++ q ++ "}",
     JObj [("detail-type", JStr " "); ("source", JStr "aws.ec2")]) ].

Definition parse (s : string) : option JsVal :=
  snd <$> List.find (fun d => String.eqb (fst d) s) documents.

Definition comma (first : bool) : string := if first then "" else ",".

(** [String(v)]: an array is its elements joined by commas, with
    [null] and [undefined] elements as the empty string. *)
Fixpoint toString (v : JsVal) : string :=
  match v with
  | JUndefined => "undefined"
  | JNull => "null"
  | JBool true => "true"
  | JBool false => "false"
  | JNum n => decimal n
  | JStr s => s
  | JArr items =>
      (fix join (first : bool) (l : list JsVal) : string :=
         match l with
         | [] => ""
         | x :: rest =>
             comma first
             ++ match x with JUndefined | JNull => "" | _ => toString x end
             ++ join false rest
         end) true items
  | JObj _ => "[object Object]"
  end.

Definition backslash : string := String (ascii_of_nat 92) EmptyString.

Definition hex_digit (n : nat) : string :=
  String.substring n 1 "0123456789abcdef".

(** One code unit inside a JSON string literal. *)
Definition escape (c : ascii) : string :=
  let n := nat_of_ascii c in
  if (n =? 34)%nat then backslash ++ q
  else if (n =? 92)%nat then backslash ++ backslash
  else if (n =? 8)%nat then backslash ++ "b"
  else if (n =? 9)%nat then backslash ++ "t"
  else if (n =? 10)%nat then backslash ++ "n"
  else if (n =? 12)%nat then backslash ++ "f"
  else if (n =? 13)%nat then backslash ++ "r"
  else if (n <? 32)%nat
  then backslash ++ "u00" ++ hex_digit (n / 16) ++ hex_digit (n mod 16)
  else String c EmptyString.

Fixpoint escaped (s : string) : string :=
  match s with
  | EmptyString => ""
  | String c rest => escape c ++ escaped rest
  end.

Definition quoted (s : string) : string := q ++ escaped s ++ q.

(** [JSON.stringify(v)] without indentation: a property whose value is
    [undefined] is left out, an [undefined] array element is [null].
    The program calls it on objects, arrays and [null] only. *)
Fixpoint stringify (v : JsVal) : string :=
  match v with
  | JUndefined => "undefined"
  | JNull => "null"
  | JBool true => "true"
  | JBool false => "false"
  | JNum n => decimal n
  | JStr s => quoted s
  | JArr items =>
      "[" ++ (fix join (first : bool) (l : list JsVal) : string :=
         match l with
         | [] => ""
         | x :: rest =>
             comma first
             ++ match x with JUndefined => "null" | _ => stringify x end
             ++ join false rest
         end) true items ++ "]"
  | JObj props =>
      "{" ++ (fix join (first : bool) (l : list (string * JsVal)) : string :=
         match l with
         | [] => ""
         | (k, x) :: rest =>
             match x with
             | JUndefined => join first rest
             | _ => comma first ++ quoted k ++ ":" ++ stringify x
                    ++ join false rest
             end
         end) true props ++ "}"
  end.

#[export] Instance runtime : Runtime :=
  {| Date_getTime := getTime;
     Date_toISOString := toISOString;
     JSON_parse := parse;
     JSON_stringify := stringify;
     ToString := toString |}.

End Sample.

(* ===================================================================== *)
(** * Concrete inputs of the runs below *)
(* ===================================================================== *)

Module Fixture.

(** A webhook item that ended at [endsAt]. *)
Definition alert_ending (endsAt : string) : Processor.NormalizedAlert :=
  Processor.mkNormalized "fp1" "fp1" "resolved" [("alertname", "HighCPU")] []
    "2024-01-15T10:00:00Z" endsAt None [] [] [].

Definition rule_c1 : AlertTypeConfig :=
  mkTypeConfig "c1" (Some 300000) None None None None.

(** The configuration of the runs: a Grafana rule with three users to
    escalate to, and the catch-all rule of the SNS pipeline. *)
Definition rule_HighCPU : AlertTypeConfig :=
  mkTypeConfig "c1" (Some 300000) None None None (Some ["u1"; "u2"; "u3"]).

Definition rule_sns : AlertTypeConfig :=
  mkTypeConfig "c2" None None None None None.

Definition alerts_config : AlertsConfig :=
  <["HighCPU" := rule_HighCPU]> (<["sns" := rule_sns]> ∅).

(** Two SNS deliveries: one whose message id contains a colon, and a
    CloudWatch alarm notification. *)
Definition envelope_plain : Sns.Envelope :=
  Sns.mkEnvelope "m:cpu" None "{}" (Some "2024-01-15T11:00:00Z") None.

Definition envelope_alarm : Sns.Envelope :=
  Sns.mkEnvelope "m" None
    ("{" ++ Sample.q ++ "AlarmName" ++ Sample.q ++ ":"
         ++ Sample.q ++ "cpu" ++ Sample.q ++ "}")
    (Some "2024-01-15T11:00:00Z") None.

(** A delivery named by its subject, one whose subject starts with a
    space, and an EventBridge event whose [detail-type] is a single
    space. *)
Definition envelope_health : Sns.Envelope :=
  Sns.mkEnvelope "a" (Some "AWS Health Event") "{}" None None.

Definition envelope_padded : Sns.Envelope :=
  Sns.mkEnvelope "a" (Some " Health Event") "{}" None None.

Definition envelope_blank_detail : Sns.Envelope :=
  Sns.mkEnvelope "a" None
    ("{" ++ Sample.q ++ "detail-type" ++ Sample.q ++ ":"
         ++ Sample.q ++ " " ++ Sample.q ++ ","
         ++ Sample.q ++ "source" ++ Sample.q ++ ":"
         ++ Sample.q ++ "aws.ec2" ++ Sample.q ++ "}")
    None None.

Definition envelope_other : Sns.Envelope :=
  Sns.mkEnvelope "n" None "{}" (Some "2024-01-15T11:00:00Z") None.

(** A gateway on which every request succeeds: [c1] is a text channel
    that can hold threads, every other id a thread. *)
Definition api_ok : Discord.Api :=
  Discord.mkApi
    (fun id => Discord.FetchChannel
       (if String.eqb id "c1" then Discord.mkChannel true false false true
        else Discord.mkChannel true false true false))
    (fun _ _ => true)
    (fun _ => true)
    (fun message => Some ("th-" ++ message))
    (fun channel => Some ("msg-" ++ channel))
    (fun _ _ => true).

(** A gateway on which no channel can be fetched. *)
Definition api_down : Discord.Api :=
  Discord.mkApi (fun _ => Discord.FetchRejects) (fun _ _ => false)
                (fun _ => false) (fun _ => None) (fun _ => None)
                (fun _ _ => false).

(** The gateway [api_ok] on which only the first text a handler sends
    to a channel is accepted. *)
Definition api_one_text : Discord.Api :=
  Discord.mkApi (Discord.channels_fetch api_ok) (Discord.messages_fetch api_ok)
                (Discord.message_edit api_ok) (Discord.message_startThread api_ok)
                (Discord.channel_send api_ok)
                (fun _ n => Nat.eqb n 0).

(** A guide of 2500 characters. *)
Definition long_guide : string :=
  String.concat "" (repeat "0123456789" 250).

(** 2024-01-15T11:00:00.000Z *)
Definition T0 : Z := 1705316400000.

Definition minutes (n : Z) : Z := n * 60000.

Definition firing_payload : AlertApiPayload :=
  mkPayload "fp1" None "Alert: HighCPU" (Some "CPU high") Firing
            (Some Critical) None "2024-01-15T10:50:00Z" None None
            "c1" (Some "HighCPU") None (Some "grafana").

Definition resolved_payload : AlertApiPayload :=
  mkPayload "fp1" None "Alert: HighCPU" (Some "CPU high") Resolved
            (Some Critical) None "2024-01-15T10:50:00Z"
            (Some "2024-01-15T11:00:00Z") None
            "c1" (Some "HighCPU") None (Some "grafana").

Definition process (now : Z) (payload : AlertApiPayload) : M unit :=
  Processor.processOneAlertPayload (rt := Sample.runtime)
    api_ok alerts_config false now payload.

Definition press (now : Z) (i : Client.Interaction) : M unit :=
  Client.onButton (rt := Sample.runtime) api_ok alerts_config false
    (fun _ => None) now i.

Definition empty_world : World := mkWorld ∅ [].

(** An incident that fires, resolves at [T0], fires again ten minutes
    later and is acknowledged at [T0] + 20 min. *)
Definition reopened_and_acknowledged : World :=
  (( process (T0 - minutes 10) firing_payload ;;
     process T0 resolved_payload ;;
     process (T0 + minutes 10) firing_payload ;;
     press (T0 + minutes 20) (Client.mkInteraction "alert_ack:fp1:" "u9" []) )
     empty_world).2.

(** The same incident before the acknowledgement. *)
Definition reopened : World :=
  (( process (T0 - minutes 10) firing_payload ;;
     process T0 resolved_payload ;;
     process (T0 + minutes 10) firing_payload ) empty_world).2.

(** The records these runs leave in the store. *)
Definition record_reopened : StoredAlert :=
  mkStored "msg-c1" "c1" (Some "th-msg-c1") StateFiring
           "2024-01-15T11:10:00.000Z" (Some "HighCPU") None None
           (Some "critical") None (Some "2024-01-15T11:00:00Z") None.

Definition record_acknowledged : StoredAlert :=
  mkStored "msg-c1" "c1" (Some "th-msg-c1") StateAcknowledged
           "2024-01-15T11:20:00.000Z" (Some "HighCPU") (Some "u9") None
           (Some "critical") None (Some "2024-01-15T11:00:00Z")
           (Some "2024-01-15T11:20:00.000Z").

(** The incident after its first firing, at 10:50. *)
Definition fired : World :=
  (process (T0 - minutes 10) firing_payload empty_world).2.

Definition record_fired : StoredAlert :=
  mkStored "msg-c1" "c1" (Some "th-msg-c1") StateFiring
           "2024-01-15T10:50:00.000Z" (Some "HighCPU") None None
           (Some "critical") None None None.

(** The same alert on the instance [host:9100], after its first
    firing. *)
Definition firing_on_host : AlertApiPayload :=
  mkPayload "fp1" (Some "host:9100") "Alert: HighCPU" (Some "CPU high") Firing
            (Some Critical) None "2024-01-15T10:50:00Z" None None
            "c1" (Some "HighCPU") None (Some "grafana").

Definition fired_on_host : World :=
  (process (T0 - minutes 10) firing_on_host empty_world).2.

Definition record_on_host : StoredAlert := record_fired.

(** The embed of the alert message as a button press carries it. *)
Definition alert_embed : Discord.MessageEmbed :=
  Discord.mkEmbed (Some "Alert: HighCPU") (Some "CPU high") 15158332
    [ Embed.mkEmbedField "Status" "firing" (Embed.InlineBool true);
      Embed.mkEmbedField "Started" "2024-01-15T10:50:00Z" (Embed.InlineBool true) ]
    (Some "Alert ID: fp1") (Some "2024-01-15T10:50:00.000Z").


(** A configuration as [POST /push-config] receives it, and what
    validation makes of it. *)
Definition pushed_config : JsVal :=
  JObj [ ("HighCPU",
          JObj [ ("channelId", JStr "c1");
                 ("suppressWindowMs", JNum 300000);
                 ("mentions", JArr [JStr "u1"; JNum 42; JStr "u2"]);
                 ("note", JStr "dropped") ]);
         ("sns", JObj [ ("channelId", JStr "c2") ]) ].

Definition validated_config : JsVal :=
  JObj [ ("HighCPU",
          JObj [ ("channelId", JStr "c1");
                 ("suppressWindowMs", JNum 300000);
                 ("importantLabels", JUndefined);
                 ("hiddenLabels", JUndefined);
                 ("thumbnailUrl", JUndefined);
                 ("mentions", JArr [JStr "u1"; JStr "u2"]) ]);
         ("sns",
          JObj [ ("channelId", JStr "c2");
                 ("suppressWindowMs", JUndefined);
                 ("importantLabels", JUndefined);
                 ("hiddenLabels", JUndefined);
                 ("thumbnailUrl", JUndefined);
                 ("mentions", JUndefined) ]) ].

(** ** The data of the repository's unit tests *)

Definition base_fields : list Embed.EmbedField :=
  [ Embed.mkEmbedField "Status" "firing" (Embed.InlineBool true);
    Embed.mkEmbedField "Started" "2024-01-15T10:00:00Z" (Embed.InlineBool true);
    Embed.mkEmbedField "severity" "critical" (Embed.InlineBool true) ].

Definition with_null : list Embed.EmbedField :=
  [ Embed.mkEmbedField "env" "prod" Embed.InlineNull ].

Definition test_config : AlertsConfig :=
  <["sns" := mkTypeConfig "123" (Some 300000) None None None None]>
    (<["CloudWatch_Alarm" := mkTypeConfig "456" None None None None None]>
       (<["AWS_Health_Event" := mkTypeConfig "789" None None None None None]> ∅)).

Definition envelope_event_type : Sns.Envelope :=
  Sns.mkEnvelope "a" None "{}" None
    (Some [("event_type", Sns.mkAttr "String" "CloudWatch-Alarm")]).

Definition envelope_detail_type : Sns.Envelope :=
  Sns.mkEnvelope "a" None
    (Sample.stringify (JObj [("detail-type", JStr "EC2 State Change")]))
    None None.

Definition envelope_text : Sns.Envelope :=
  Sns.mkEnvelope "a" None "plain text" None None.

Definition envelope_unknown : Sns.Envelope :=
  Sns.mkEnvelope "mid" (Some "UnknownEvent") "body" None None.

Definition envelope_body : Sns.Envelope :=
  Sns.mkEnvelope "mid" (Some "sns") "alert body"
    (Some "2026-02-11T12:00:00Z") None.

(** A store that holds one record, written two hours before [T0], for
    the alert of [firing_payload]. *)
Definition holding (st : StoredAlert) : World :=
  mkWorld (Store.setStoredAlert (T0 - minutes 120) "fp1" None st ∅) [].

Definition resolved_since (instant : Z) : StoredAlert :=
  let t := Sample.toISOString instant in
  mkStored "old-msg" "c1" None StateResolved t None None None None None
           (Some t) None.

Definition acknowledged_since (instant : Z) : StoredAlert :=
  let t := Sample.toISOString instant in
  mkStored "old-msg" "c1" None StateAcknowledged t None None None None None
           None (Some t).

(** [deleteStoredAlert], respectively [sendOrUpdateAlert], was called. *)
Definition deletes (w : World) : bool :=
  existsb (fun c => match c with CallDeleteStoredAlert _ _ => true | _ => false end)
          (calls w).

Definition sends (w : World) : bool :=
  existsb (fun c => match c with CallSendOrUpdateAlert _ => true | _ => false end)
          (calls w).

End Fixture.

(* ===================================================================== *)
(** * The vocabulary of the specification *)
(* ===================================================================== *)

Module Spec.

(** Every code unit of [s] is white space: [s] is empty or
    whitespace-only. *)
Fixpoint blank (s : string) : bool :=
  match s with
  | String c r => Js.is_space c && blank r
  | EmptyString => true
  end.

(** No colon occurs in [s]. *)
Definition colon_free (s : string) : Prop := Js.contains ":" s = false.

(** A resource as a key or a button id can carry it back: absent, or a
    non-empty text without a colon. *)
Definition plain_resource (resource : option string) : Prop :=
  match resource with
  | Some r => colon_free r /\ r <> ""
  | None => True
  end.

(** The year of an ISO timestamp is 0001. *)
Definition year_0001 (timestamp : string) : bool :=
  Js.startsWith "0001-" timestamp.

(** The Go zero time, as the webhook source prints an unset end: the
    timestamp, trimmed, starts with [0001-01-01T00:00:00], the letter in
    either case. *)
Definition zero_sentinel (timestamp : string) : bool :=
  Js.startsWith_ci "0001-01-01T00:00:00" (Js.trim timestamp).

(** The first element of a list of candidates that passes [ok]. *)
Fixpoint first_some {A} (l : list (option A)) : option A :=
  match l with
  | [] => None
  | Some a :: _ => Some a
  | None :: rest => first_some rest
  end.

Definition only_if (ok : string -> bool) (o : option string) : option string :=
  match o with
  | Some s => if ok s then Some s else None
  | None => None
  end.

(** The candidates for the event name, in the order of the
    specification: the three envelope texts, then the three string
    fields of the parsed message. *)
Definition candidates `{Runtime} (e : Sns.Envelope) : list (option string) :=
  let field name :=
    Sns.parsed_object (Sns.Message e) ≫= (fun o => JsValue.as_string (JsValue.get o name)) in
  [ Sns.Subject e; Sns.attr_value e "event_type"; Sns.attr_value e "rule_name";
    field "detail-type"; field "source"; field "eventName" ].

(** The event name as the specification words it: the first non-empty
    candidate, every run of white space replaced with an underscore;
    [sns] when there is none. *)
Definition event_name_as_worded `{Runtime} (e : Sns.Envelope) : string :=
  match first_some (map (only_if Js.truthy) (candidates e)) with
  | Some s => Js.replace_ws_runs false s
  | None => "sns"
  end.

(** The same with "non-empty" read as "not blank" and the chosen name
    trimmed before its runs of white space are replaced. *)
Definition event_name_trimmed `{Runtime} (e : Sns.Envelope) : string :=
  match first_some (map (only_if (fun s => negb (blank s))) (candidates e)) with
  | Some s => Js.replace_ws_runs false (Js.trim s)
  | None => "sns"
  end.

(** What the SNS adapter appends to the message id: a colon and the
    first 64 code units of the resource, when there is a (non-empty)
    resource. *)
Definition resource_part (resource : option string) : string :=
  match resource with
  | Some r => if Js.is_empty r then "" else ":" ++ Js.slice0 64 r
  | None => ""
  end.

(** ** Frames of a handler run *)

(** [w'] continues [w]: the record of calls has only grown, by calls
    that satisfy [allowed], and the key [k], if it was absent, still
    is. *)
Definition continues (allowed : Call -> Prop) (k : string) (w w' : World)
    : Prop :=
  (exists added, calls w' = (calls w ++ added)%list /\ Forall allowed added)
  /\ (redis w !! k = None -> redis w' !! k = None).

(** Every run of [m] continues its initial state. *)
Definition keeps {A} (allowed : Call -> Prop) (k : string) (m : M A) : Prop :=
  forall w, continues allowed k w (m w).2.

(** Any call but a consultation of the dedup store. *)
Definition not_isDuplicate (c : Call) : Prop :=
  match c with CallIsDuplicate _ _ => False | _ => True end.

(** The calls of a delivery that passed the dedup gate: anything but a
    consultation of the dedup store or the count of a suppression. *)
Definition delivering (c : Call) : Prop :=
  not_isDuplicate c /\ c <> CallInc "dedup_suppressed_total".

(** The lifecycle-expiry check of the processor as the specification
    states it: delete exactly a record resolved more than 30 minutes
    ago or acknowledged more than 90 minutes ago. *)
Definition expired_as_stated `{Runtime} (now : Z) (stored : StoredAlert) : bool :=
  match state stored with
  | StateResolved =>
      match resolvedAt stored with
      | Some r => older_than now r (30 * 60 * 1000)
      | None => false
      end
  | StateAcknowledged =>
      match acknowledgedAt stored with
      | Some a => older_than now a (90 * 60 * 1000)
      | None => false
      end
  | StateFiring => false
  end.

(** ** The escalation loop on one incident *)

(** The resource as the escalation loop reads it back from a key: the
    word [default] stands for an absent resource. *)
Definition parsed_resource (resource : option string) : option string :=
  if String.eqb (Js.nullish resource "default") "default" then None
  else resource.

(** A resource whose text has no colon. *)
Definition colon_free_resource (resource : option string) : Prop :=
  match resource with Some r => colon_free r | None => True end.

(** The thread of an incident, or its channel when it has none. *)
Definition target (stored : StoredAlert) : string :=
  Js.nullish (threadId stored) (channelId stored).

(** A record the escalation loop acts on: firing, critical, of a rule
    that lists [users] to mention, last emitted at the instant [t0]. *)
Definition escalating `{Runtime} (config : AlertsConfig) (stored : StoredAlert)
    (users : list string) (t0 : Z) : Prop :=
  state stored = StateFiring
  /\ Js.toLowerCase (Js.nullish (s_severity stored) "") = "critical"
  /\ config !! Js.nullish (ruleName stored) "" ≫= mentions = Some users
  /\ Date_getTime (updatedAt stored) = Some t0.

(** The gateway delivers to the thread (or channel) of the incident. *)
Definition reachable (api : Discord.Api) (stored : StoredAlert) : Prop :=
  is_Some (Discord.usable (Discord.channels_fetch api (target stored)))
  /\ is_Some (Discord.channel_send api (target stored)).






(** ** The Acknowledge button *)




(** An entry of a configuration has a string [channelId]. *)
Definition typed (v : JsVal) : Prop :=
  exists s, JsValue.get v "channelId" = JStr s.

(** The property names of an object. *)
Definition keys (props : list (string * JsVal)) : list string := map fst props.

(** The shape of every object the validation loop builds: distinct
    keys, none of them [__proto__], every value an entry in normal
    form. *)
Definition built (out : list (string * JsVal)) : Prop :=
  NoDup (keys out)
  /\ Forall (fun kv => kv.1 <> "__proto__"
                       /\ exists v, typed v /\ kv.2 = Config.entry_of v) out.

(** A configuration entry by entry in normal form, the entry under
    [__proto__], which cannot be assigned, left out. *)
Definition normalized (props : list (string * JsVal)) : list (string * JsVal) :=
  map (fun kv => (kv.1, Config.entry_of kv.2))
      (List.filter (fun kv => negb (String.eqb kv.1 "__proto__")) props).

(** A string field of the parsed message that is white space only
    (and not empty). *)
Definition blank_field `{Runtime} (e : Sns.Envelope) (name : string) : Prop :=
  exists o s, Sns.parsed_object (Sns.Message e) = Some o
              /\ JsValue.get o name = JStr s /\ s <> "" /\ blank s = true.

End Spec.

Module Notions.

(** [m], started in a state that satisfies [P], ends with a result and
    a state that satisfy [Q]. *)
Definition hoare {A} (P : World -> Prop) (m : M A) (Q : A -> World -> Prop)
    : Prop :=
  forall w, P w -> Q (m w).1 (m w).2.

(** From [w] to [w'] the record of calls has grown by calls that
    satisfy [allowed], and the store has changed at keys that satisfy
    [touched] only. *)
Definition confined (allowed : Call -> Prop) (touched : string -> Prop)
    (w w' : World) : Prop :=
  (exists added, calls w' = (calls w ++ added)%list /\ Forall allowed added)
  /\ forall k, ~ touched k -> redis w' !! k = redis w !! k.

Definition confines {A} (allowed : Call -> Prop) (touched : string -> Prop)
    (m : M A) : Prop :=
  forall w, confined allowed touched w (m w).2.

(** A call to the chat gateway, or a read or write of the incident
    record of [alertId] and [resource]. *)
Definition gateway_or_record (alertId : string) (resource : option string)
    (c : Call) : Prop :=
  match c with
  | CallChat _ => True
  | CallGetStoredAlert a r | CallSetStoredAlert a r _ =>
      a = alertId /\ r = resource
  | _ => False
  end.

(** No key at all. *)
Definition nowhere (k : string) : Prop := False.

End Notions.

(* ===================================================================== *)
(** * discord/embed.ts: the embed of an alert message *)
(* ===================================================================== *)

Module AlertEmbed.

(** A text as the embed carries it: the list of its UTF-16 code units.
    The texts of the pipeline are Latin-1; the ellipsis that [truncate]
    appends and the bullet of the footer lie beyond. *)
Abbreviation Text := (list N).

Definition text (s : string) : Text := map N_of_ascii (list_ascii_of_string s).

Definition ELLIPSIS : N := 8230.   (* U+2026 *)
Definition BULLET : N := 8226.     (* U+2022 *)

Definition LIMIT_title : nat := 256.
Definition LIMIT_description : nat := 4096.
Definition LIMIT_fieldValue : nat := 1024.

(** [s.slice(0, max - 1)]: a negative end counts from the end. *)
Definition cut (s : Text) (max : nat) : Text :=
  match max with
  | O => removelast s
  | S k => take k s
  end.

Definition truncate (s : Text) (max : nat) : Text :=
  if (length s <=? max)%nat then s else (cut s max ++ [ELLIPSIS])%list.

Definition status_name (s : AlertStatus) : string :=
  match s with
  | Firing => "firing"
  | Resolved => "resolved"
  | Acknowledged => "acknowledged"
  end.

(** [SEVERITY_COLORS], types/alert.ts *)
Definition SEVERITY_COLORS : list (string * Z) :=
  [ ("critical", 15158332);   (* 0xe74c3c *)
    ("high", 15105570);       (* 0xe67e22 *)
    ("warning", 15844367);    (* 0xf1c40f *)
    ("info", 3447003);        (* 0x3498db *)
    ("resolved", 3066993) ].  (* 0x2ecc71 *)

Fixpoint color_named (name : string) (l : list (string * Z)) : option Z :=
  match l with
  | [] => None
  | (k, v) :: rest => if String.eqb k name then Some v else color_named name rest
  end.

Definition severityColor (payload : AlertApiPayload) : Z :=
  match status payload with
  | Resolved => 3066993
  | _ =>
      let sev :=
        Js.toLowerCase
          (Js.nullish (option_map severity_name (severity payload)) "warning") in
      Js.nullish (color_named sev SEVERITY_COLORS) 15844367
  end.

Record Field := mkField {
  f_name : Text;
  f_value : Text;
  f_inline : bool;
}.

Record EmbedData := mkEmbedData {
  d_title : Text;
  d_description : option Text;
  d_color : Z;
  d_fields : list Field;
  d_footer : Text;
  d_timestamp : string;
  d_thumbnail : option Text;
}.

(** The fields pushed after those of the payload. *)
Definition fixed_fields (payload : AlertApiPayload) : list Field :=
  ([ mkField (text "Status") (text (status_name (status payload))) true;
     mkField (text "Started") (text (startedAt payload)) true ]
   ++ match p_resolvedAt payload with
      | Some r => if Js.truthy r then [mkField (text "Resolved") (text r) true]
                  else []
      | None => []
      end
   ++ match generatorURL payload with
      | Some u =>
          if Js.truthy u
          then [mkField (text "Link") (truncate (text u) LIMIT_fieldValue) false]
          else []
      | None => []
      end)%list.

(** [`Alert ID: ${payload.alertId}${payload.resource ? ` • ${payload.resource}` : ""}`] *)
Definition footer_text (payload : AlertApiPayload) : Text :=
  (text ("Alert ID: " ++ alertId payload)
   ++ match resource payload with
      | Some r => if Js.truthy r then text " " ++ [BULLET] ++ text (" " ++ r)
                  else []
      | None => []
      end)%list.

(** [buildAlertEmbed]; [None] when it throws: [new
    Date(payload.startedAt).toISOString()] is a [RangeError] on an
    invalid date. *)
Definition buildAlertEmbed `{Runtime} (payload : AlertApiPayload)
    : option EmbedData :=
  let color := severityColor payload in
  let title := truncate (text (title payload)) LIMIT_title in
  let description :=
    match description payload with
    | Some d => if Js.truthy d then Some (truncate (text d) LIMIT_description)
                else None
    | None => None
    end in
  let fields :=
    (map (fun f => mkField (truncate (text f.1) 256)
                           (truncate (text f.2) LIMIT_fieldValue) true)
         (Js.nullish (fields payload) [])
     ++ fixed_fields payload)%list in
  match Date_getTime (startedAt payload) with
  | None => None
  | Some ms =>
      Some (mkEmbedData title description color fields
              (truncate (footer_text payload) 2048)
              (Date_toISOString ms)
              (match p_thumbnailUrl payload with
               | Some u =>
                   if Js.truthy (Js.trim u)
                   then Some (text (Js.slice0 2048 (Js.trim u)))
                   else None
               | None => None
               end))
  end.

End AlertEmbed.

(* ===================================================================== *)
(** * The emit with the construction of the embed *)
(* ===================================================================== *)

Module Delivery.

Section Pipeline.

Context `{rt : Runtime}.
Variable api : Discord.Api.
Variable config : AlertsConfig.
Variable database : bool.

(** [sendOrUpdateAlert], discord/client.ts, with [buildAlertEmbed]: the
    embed is built once the record is read and before the gateway is
    asked for anything, so a payload whose embed cannot be built makes
    the function throw there. With an embed the function is
    [Client.sendOrUpdateAlert]. *)
Definition sendOrUpdateAlert (now : Z) (payload : AlertApiPayload)
    : M (option string) :=
  match AlertEmbed.buildAlertEmbed payload with
  | Some _ => Client.sendOrUpdateAlert api config now payload
  | None =>
      Do.getStoredAlert now (alertId payload) (resource payload) ;; ret None
  end.

(** The [try] block of [processOneAlertPayload]. *)
Definition emit (now : Z) (payload : AlertApiPayload) : M unit :=
  call (CallSendOrUpdateAlert payload) ;;
  let* sent := sendOrUpdateAlert now payload in
  match sent with
  | Some messageId =>
      Do.inc "alerts_sent_total" ;;
      when database (call (CallInsertAlertEvent payload messageId))
  | None => Do.inc "discord_errors_total"
  end.

(** [processOneAlertPayload], services/processor.ts *)
Definition processOneAlertPayload (now : Z) (payload : AlertApiPayload)
    : M unit :=
  let ruleName := Js.nullish (p_ruleName payload) "default" in
  Do.inc "alerts_received_total" ;;
  let typeConfig := config !! ruleName in
  if negb (Config.has_channel typeConfig)
  then Do.inc "no_config_suppressed_total"
  else
    let suppressWindowMs :=
      Js.nullish (typeConfig ≫= suppressWindowMs) Client.DEFAULT_SUPPRESS_MS in
    let* suppressed :=
      match status payload with
      | Resolved => Do.clearDedup (alertId payload) ;; ret false
      | _ => Do.isDuplicate now (alertId payload) suppressWindowMs
      end in
    if suppressed
    then Do.inc "dedup_suppressed_total"
    else Processor.expire_stored now payload ;; emit now payload.

(** [processAlerts] on a parsed webhook batch; [fresh] gives, per item,
    the fingerprint made up for an item that has none. *)
Fixpoint processAlerts (now : Z) (fresh : nat -> string)
    (groupLabels commonLabels commonAnnotations : Processor.Labels)
    (alerts : list Processor.SingleAlert) : M unit :=
  match alerts with
  | [] => ret tt
  | a :: rest =>
      let alert :=
        Processor.normalizeOne (fresh (length rest)) (Date_toISOString now) a
          groupLabels commonLabels commonAnnotations in
      match config !! Processor.getAlertTypeKey alert with
      | Some typeConfig =>
          when (Js.truthy (c_channelId typeConfig))
               (processOneAlertPayload now
                  (Processor.normalizedToApiPayload alert typeConfig))
      | None => ret tt
      end ;;
      processAlerts now fresh groupLabels commonLabels commonAnnotations rest
  end.

End Pipeline.

End Delivery.

(** ** Further runs *)

Module Cases.

(** A webhook item that carries its rule in the [alert_type] label
    only. *)
Definition item_by_type : Processor.SingleAlert :=
  Processor.mkSingleAlert (Some "firing")
    [("alert_type", "HighCPU"); ("severity", "critical")] []
    (Some "2024-01-15T10:50:00Z") None None (Some "fp9").


End Cases.

(** ** The vocabulary of the processor's accounts *)

Module Ledger.

(** The counters that a list of calls increments, in order. *)
Definition counted (l : list Call) : list string :=
  omap (fun c => match c with CallInc name => Some name | _ => None end) l.

(** Any call but the increment of a counter. *)
Definition quiet (c : Call) : Prop :=
  match c with CallInc _ => False | _ => True end.

(** The calls the processor makes for one payload: counters, the dedup
    key of the alert id, the record of the incident, the emit and its
    audit row, the chat gateway. *)
Definition processor_call (payload : AlertApiPayload) (c : Call) : Prop :=
  match c with
  | CallInc _ | CallChat _ => True
  | CallClearDedup fp | CallIsDuplicate fp _ => fp = alertId payload
  | CallGetStoredAlert a r | CallSetStoredAlert a r _
  | CallDeleteStoredAlert a r => a = alertId payload /\ r = resource payload
  | CallSendOrUpdateAlert p | CallInsertAlertEvent p _ => p = payload
  | _ => False
  end.

(** The two keys of one alert: its dedup key and the key of its
    incident record. *)
Definition own_key (payload : AlertApiPayload) (k : string) : Prop :=
  k = Dedup.dedupKey (alertId payload)
  \/ k = Store.alertKey (alertId payload) (resource payload).

(** [getAlertsConfig()[ruleName]?.channelId] is truthy. *)
Definition has_rule (config : AlertsConfig) (payload : AlertApiPayload) : bool :=
  Config.has_channel (config !! Js.nullish (p_ruleName payload) "default").

(** The suppress window of the payload's rule. *)
Definition window (config : AlertsConfig) (payload : AlertApiPayload) : Z :=
  Js.nullish (config !! Js.nullish (p_ruleName payload) "default" ≫= suppressWindowMs)
             (5 * 60 * 1000).

(** The dedup gate holds the payload back: it is not a resolved one and
    the dedup key of its alert id is live. *)
Definition held_back (now : Z) (payload : AlertApiPayload) (w : World) : bool :=
  match status payload with
  | Resolved => false
  | _ => bool_decide (is_Some (RedisCmd.get now (Dedup.dedupKey (alertId payload))
                                            (redis w)))
  end.

End Ledger.

(** ** Reading identifiers back *)

Module Readback.

(** The text of [s] before its first colon. *)
Fixpoint before_colon (s : string) : string :=
  match s with
  | String c r => if Ascii.eqb c ":" then "" else String c (before_colon r)
  | EmptyString => ""
  end.

(** [undefined] for the empty text. *)
Definition nonempty (s : string) : option string :=
  if Js.is_empty s then None else Some s.

(** The known prefixes of a button's custom id. *)
Definition button_prefix (p : string) : Prop :=
  p = Client.ACK_BUTTON_CUSTOM_ID \/ p = Client.TROUBLESHOOT_BUTTON_CUSTOM_ID
  \/ p = Client.RESOLVE_BUTTON_CUSTOM_ID.

(** [Array.prototype.join("")] *)
Fixpoint concat (l : list string) : string :=
  match l with
  | [] => ""
  | x :: rest => x ++ concat rest
  end.

(** The message the Troubleshoot button posts for a rule. *)
Definition guide_message (guides : string -> option string) (ruleName : string)
    : string :=
  "## Troubleshooting guide: " ++ ruleName
  ++ String (ascii_of_nat 10) (String (ascii_of_nat 10)
       (Client.guide_text guides ruleName)).

(** What the Resolve handler answers the interaction with: the update
    without embed or button of a message that carries no embed, else
    the rebuilt embed without a button (nothing, when rebuilding the
    embed throws). *)
Definition resolve_response `{Runtime} (now : Z) (userId : string)
    (embeds : list Discord.MessageEmbed) : list Call :=
  match embeds with
  | [] => [CallChat (Discord.InteractionUpdate None [])]
  | oldEmbed :: _ =>
      match Client.rebuild oldEmbed Client.COLOR_RESOLVED
              (Embed.buildResolvedFields (Discord.e_fields oldEmbed) userId
                 (Date_toISOString now)) with
      | Some embed => [CallChat (Discord.InteractionUpdate (Some embed) [])]
      | None => []
      end
  end.

(** A press of a button is answered by taking every button off. *)
Definition takes_buttons_off (c : Call) : Prop :=
  match c with
  | CallChat (Discord.InteractionUpdate _ buttons) => buttons = []
  | _ => True
  end.

End Readback.

(** ** What the escalation loop may change *)

Module Levels.

(** The value of a key before and after: the same, or an incident
    record that differs in its escalation level (and its time to live)
    only. *)
Definition only_level (v v' : option (RedisValue * Z)) : Prop :=
  v' = v
  \/ exists stored expiry n expiry',
       v = Some (RJson stored, expiry)
       /\ v' = Some (RJson (Client.with_mentionLevel stored n), expiry').

(** From the store [r] to the store [r'] nothing has changed but the
    escalation level of records of the incident store. *)
Definition escalated (r r' : Redis) : Prop :=
  forall k, r' !! k = r !! k
            \/ Js.startsWith "alert:" k = true /\ only_level (r !! k) (r' !! k).

(** The calls of the escalation loop: reads and writes of incident
    records, and texts posted to the gateway. *)
Definition escalation_call (c : Call) : Prop :=
  match c with
  | CallGetStoredAlert _ _ | CallSetStoredAlert _ _ _
  | CallChat (Discord.TextSent _ _) => True
  | _ => False
  end.

End Levels.

(* ===================================================================== *)
(** * services/reconciler.ts *)
(* ===================================================================== *)

Module Reconciler.

Definition RECONCILE_INITIAL_DELAY_MS : Z := 5 * 60 * 1000.
Definition RECONCILE_INTERVAL_MS : Z := 30 * 60 * 1000.

(** Unknown Channel, Unknown Message. *)
Definition GONE_CODES : list Z := [10003; 10008].

(** [await channel.messages.fetch(id)]: it resolves, or it rejects with
    an error whose [code], when it has a numeric one, is given. *)
Inductive MessageFetch :=
| MessageFound
| MessageError (code : option Z).

(** The answers of the gateway during one run. *)
Record Api := mkApi {
  channels_fetch : string -> Discord.Fetched;
  messages_fetch : string -> string -> MessageFetch;
}.

(** [code !== undefined && GONE_CODES.has(code)] *)
Definition gone (f : MessageFetch) : bool :=
  match f with
  | MessageError (Some code) => existsb (Z.eqb code) GONE_CODES
  | _ => false
  end.

(** [{ ...stored, threadId: undefined }] *)
Definition without_thread (stored : StoredAlert) : StoredAlert :=
  mkStored (messageId stored) (channelId stored) None
           (state stored) (updatedAt stored) (ruleName stored)
           (acknowledgedBy stored) (resolvedBy stored) (s_severity stored)
           (mentionLevel stored) (resolvedAt stored) (acknowledgedAt stored).

(** [await c.channels.fetch(id).catch(() => null)] is truthy. *)
Definition fetched (f : Discord.Fetched) : bool :=
  match f with Discord.FetchChannel _ => true | _ => false end.

Section Run.

Variable api : Api.

(** The checks on one record that is not resolved. *)
Definition check_record (now : Z) (alertId : string)
    (resource : option string) (stored : StoredAlert) : M unit :=
  match Discord.usable (channels_fetch api (channelId stored)) with
  | None => Do.deleteStoredAlert alertId resource
  | Some _ =>
      if gone (messages_fetch api (channelId stored) (messageId stored))
      then Do.deleteStoredAlert alertId resource
      else
        match threadId stored with
        | Some tid =>
            if Js.truthy tid && negb (fetched (channels_fetch api tid))
            then Do.setStoredAlert now alertId resource (without_thread stored)
            else ret tt
        | None => ret tt
        end
  end.

(** The body of the loop for one key of the scan. *)
Definition reconcile_key (now : Z) (key : string) : M unit :=
  let parts := Js.split ":" key in
  if (length parts <? 3)%nat then ret tt
  else
    let alertId := part parts 1 in
    let resource :=
      if String.eqb (part parts 2) "default" then None
      else Some (part parts 2) in
    let* stored := Do.getStoredAlert now alertId resource in
    match stored with
    | None => ret tt
    | Some stored =>
        match state stored with
        | StateResolved => ret tt
        | _ => check_record now alertId resource stored
        end
    end.

(** One run of [run] in [startStateReconciliation]; [ready] is
    [c.isReady()]. *)
Definition run (ready : bool) (now : Z) : M unit :=
  if negb ready then ret tt
  else
    let* keys := on_redis (fun r => (Store.getStoredAlertKeys now r, r)) in
    Client.for_each (reconcile_key now) keys.

End Run.

End Reconciler.

(** ** What the reconciler may change *)

Module Orphans.








End Orphans.

(* ===================================================================== *)
(** * services/config.ts: the loader and the cache; migration.ts *)
(* ===================================================================== *)

Module ConfigStore.

(** What the file system answers at the resolved path of the
    configuration file: [existsSync] is false, [readFileSync] throws an
    error with this message, or the text of the file. *)
Inductive File :=
| Missing
| Unreadable (message : string)
| Text (raw : string).

(** The outcome of [reloadAlertsConfigSafe]. *)
Inductive Reload :=
| Reloaded (config : JsVal)
| Failed (error : string).

Section WithRuntime.

Context `{rt : Runtime}.

(** The message of the error that [JSON.parse] throws on a text. *)
Variable parse_error : string -> string.

(** [loadAlertsConfig]: the object read, as its entry list; [{}] when
    the file is missing, cannot be read or parsed, or holds anything
    but an object that is not an array. *)
Definition loadAlertsConfig (file : File) : list (string * JsVal) :=
  match file with
  | Text raw =>
      match JSON_parse raw with
      | Some (JObj props) => props
      | _ => []
      end
  | _ => []
  end.

(** [getAlertsConfig]: the state is [cachedConfig]. *)
Definition getAlertsConfig (file : File) (cachedConfig : option JsVal)
    : JsVal * option JsVal :=
  match cachedConfig with
  | Some config => (config, cachedConfig)
  | None =>
      let config := JObj (loadAlertsConfig file) in (config, Some config)
  end.

Definition reloadAlertsConfig (file : File) (cachedConfig : option JsVal)
    : JsVal * option JsVal :=
  getAlertsConfig file None.

(** [reloadAlertsConfigSafe]; [configPath] is the resolved path. *)
Definition reloadAlertsConfigSafe (configPath : string) (file : File)
    (cachedConfig : option JsVal) : Reload * option JsVal :=
  match file with
  | Missing => (Failed ("Config file not found: " ++ configPath), cachedConfig)
  | Unreadable message => (Failed message, cachedConfig)
  | Text raw =>
      match JSON_parse raw with
      | Some (JObj props) => (Reloaded (JObj props), Some (JObj props))
      | Some _ => (Failed "Config must be a JSON object", cachedConfig)
      | None => (Failed (parse_error raw), cachedConfig)
      end
  end.

(** [{ ...a, ...b }] on plain objects, as entry lists: the properties
    of [a], then those of [b], each defined as an own property. *)
Definition spread (a b : list (string * JsVal)) : list (string * JsVal) :=
  fold_left (fun out kv => JsValue.upsert kv.1 kv.2 out) b a.

(** [runAlertsConfigMigration]: the configuration handed to
    [setAlertsConfigInDb], if any. [database] says whether
    [DATABASE_URL] is set, [file] is the configuration file and
    [fromDb] what [getAlertsConfigFromDb] returned. *)
Definition runAlertsConfigMigration (database : bool) (file : File)
    (fromDb : option (list (string * JsVal))) : option JsVal :=
  if negb database then None
  else
    let fileConfig := loadAlertsConfig file in
    let dbConfig := Js.nullish fromDb [] in
    let merged := spread dbConfig fileConfig in
    match Config.validateAlertsConfig (JObj merged) with
    | Config.Invalid _ => None
    | Config.Ok config =>
        if (length merged =? 0)%nat then None else Some config
    end.

End WithRuntime.

(** The property of [file] under [k] if it has one, else that of [db]. *)
Definition file_over_db (file db : list (string * JsVal)) (k : string)
    : option JsVal :=
  match JsValue.lookup k file with
  | Some v => Some v
  | None => JsValue.lookup k db
  end.

(** A configuration file with one rule, a runtime that can parse it,
    and a database that has that rule, with another channel, and one
    more. *)
Definition sample_object : JsVal :=
  JObj [("HighCPU", JObj [("channelId", JStr "c1")])].

Definition sample_file : File := Text (Sample.stringify sample_object).

Definition sample_runtime : Runtime :=
  {| Date_getTime := Sample.getTime;
     Date_toISOString := Sample.toISOString;
     JSON_parse := fun s =>
       if String.eqb s (Sample.stringify sample_object)
       then Some sample_object else Sample.parse s;
     JSON_stringify := Sample.stringify;
     ToString := Sample.toString |}.

Definition sample_db : list (string * JsVal) :=
  [("HighCPU", JObj [("channelId", JStr "c0")]);
   ("DiskFull", JObj [("channelId", JStr "c2")])].

End ConfigStore.

(* ===================================================================== *)
(** * routes/auth.ts *)
(* ===================================================================== *)

Module Auth.

Definition BEARER : string := "Bearer ".

(** [getAuthToken]; [raw] is [req.headers.authorization] when it is a
    string. *)
Definition getAuthToken (raw : option string) : option string :=
  match raw with
  | None => None
  | Some raw =>
      if Js.startsWith BEARER raw
      then Some (Js.trim (Js.drop (String.length BEARER) raw))
      else Some (Js.trim raw)
  end.

(** What [requireAuth] does: it returns [true], or it sends a reply
    with this status and error and returns [false]. *)
Inductive Verdict :=
| Authorized
| Rejected (status : Z) (error : string).

(** [requireAuth]; [AUTH_TOKEN] is the environment variable. *)
Definition requireAuth (AUTH_TOKEN : option string) (raw : option string)
    : Verdict :=
  let token := Js.trim <$> AUTH_TOKEN in
  if negb (Js.truthy_opt token) then Authorized
  else
    let provided := getAuthToken raw in
    if bool_decide (provided = token) then Authorized
    else Rejected 401 "Unauthorized".

End Auth.

(* ===================================================================== *)
(** * discord/commands.ts: the options of /add-alert *)
(* ===================================================================== *)

Module Commands.

(** [parseCommaList] *)
Definition parseCommaList (s : option string) : option (list string) :=
  match s with
  | Some s =>
      if negb (Js.truthy (Js.trim s)) then None
      else Some (List.filter Js.truthy (map Js.trim (Js.split "," s)))
  | None => None
  end.

(** The options of the command, as [interaction.options] gives them. *)
Record AddAlert := mkAddAlert {
  o_name : string;
  o_channel_id : string;
  o_suppress_minutes : option Z;
  o_important_labels : option string;
  o_hidden_labels : option string;
  o_thumbnail_url : option string;
  o_mentions : option string;
}.

(** [...(list?.length ? { name: list } : {})] *)
Definition listed (name : string) (l : option (list string))
    : list (string * JsVal) :=
  match l with
  | Some (x :: rest) => [(name, JArr (map JStr (x :: rest)))]
  | _ => []
  end.

(** The entry that the command builds, as its property list. *)
Definition entry (o : AddAlert) : list (string * JsVal) :=
  ([("channelId", JStr (Js.trim (o_channel_id o)))]
   ++ match o_suppress_minutes o with
      | Some m => if 0 <? m then [("suppressWindowMs", JNum (m * 60 * 1000))]
                  else []
      | None => []
      end
   ++ listed "importantLabels" (parseCommaList (o_important_labels o))
   ++ listed "hiddenLabels" (parseCommaList (o_hidden_labels o))
   ++ match Js.trim <$> o_thumbnail_url o with
      | Some url => if Js.truthy url then [("thumbnailUrl", JStr url)] else []
      | None => []
      end
   ++ listed "mentions" (parseCommaList (o_mentions o)))%list.

Inductive Added :=
| Refused (content : string)
| Saved (config : list (string * JsVal)).

(** The command on the cached configuration [cached]: what it answers
    when an option is missing, or the configuration it hands to
    [saveAlertsConfigToDbAndCache]. *)
Definition add_alert (o : AddAlert) (cached : list (string * JsVal)) : Added :=
  let ruleName := Js.trim (o_name o) in
  let channelId := Js.trim (o_channel_id o) in
  if negb (Js.truthy ruleName) || negb (Js.truthy channelId)
  then Refused "`name` and `channel_id` are required."
  else Saved (JsValue.upsert ruleName (JObj (entry o))
                (ConfigStore.spread [] cached)).

(** An item of a list option as it is stored: not empty, without white
    space around it, without a comma. *)
Definition item (x : string) : Prop :=
  x <> "" /\ Js.trim x = x /\ Js.contains "," x = false.

(** A property of an entry that holds a list holds one or more items. *)
Definition well_listed (kv : string * JsVal) : Prop :=
  match kv.2 with
  | JArr values =>
      values <> [] /\ Forall (fun v => exists x, v = JStr x /\ item x) values
  | _ => True
  end.

Definition sample_options : AddAlert :=
  mkAddAlert " DiskFull " "c2" (Some 10) (Some "env, instance,,") (Some ",")
             None None.

End Commands.

(* ===================================================================== *)
(** * services/sqs-poller.ts *)
(* ===================================================================== *)

Module SqsPoller.

Definition POLL_WAIT_SECONDS : Z := 20.
Definition MAX_MESSAGES : Z := 10.
Definition VISIBILITY_TIMEOUT_SECONDS : Z := 60.

(** [getQueueUrl], from the two environment variables. *)
Definition getQueueUrl (SQS_ALERT_QUEUE_URL SNS_QUEUE_URL : option string)
    : option string :=
  match Client.or_else SQS_ALERT_QUEUE_URL SNS_QUEUE_URL with
  | Some url => if Js.truthy (Js.trim url) then Some (Js.trim url) else None
  | None => None
  end.

Definition isSqsPollerEnabled (SQS_ALERT_QUEUE_URL SNS_QUEUE_URL : option string)
    : bool :=
  bool_decide (is_Some (getQueueUrl SQS_ALERT_QUEUE_URL SNS_QUEUE_URL)).

(** A received message. *)
Record Message := mkMessage {
  m_MessageId : option string;
  m_Body : option string;
  m_ReceiptHandle : option string;
}.

(** The state of a poll: the world of the processor, and the receipt
    handles for which a [DeleteMessageCommand] has been sent. *)
Record Queue := mkQueue {
  world : World;
  deleted : list string;
}.

(** How often a list of calls increments [sqs_messages_processed_total]. *)
Definition processed (l : list Call) : nat :=
  length (List.filter (String.eqb "sqs_messages_processed_total")
                      (Ledger.counted l)).

Section Poller.

Context `{rt : Runtime}.
Variable api : Discord.Api.
Variable config : AlertsConfig.
Variable database : bool.

(** [snsNotificationEnvelopeSchema.safeParse], [None] when it does not
    succeed. *)
Variable safeParse : JsVal -> option Sns.Envelope.

(** [parseSqsSnsBody], types/sns.ts, on [message.Body]. *)
Definition parseSqsSnsBody (raw : option string) : option Sns.Envelope :=
  match raw with
  | Some text =>
      match JSON_parse text with
      | Some v => safeParse v
      | None => None
      end
  | None => safeParse JUndefined
  end.

(** [processSnsNotification], services/sns-processor.ts: the world it
    leaves. An envelope whose resource is not a string is not followed
    further: the result is [None]. *)
Definition processSnsNotification (now : Z) (envelope : Sns.Envelope)
    (w : World) : option World :=
  match Sns.snsEnvelopeToAlertPayload config now envelope with
  | Sns.NoConfig => Some w
  | Sns.Payload payload =>
      Some (Delivery.processOneAlertPayload api config database now payload w).2
  | Sns.IllTyped => None
  end.

(** [processOneMessage] *)
Definition processOneMessage (now : Z) (message : Message) (q : Queue)
    : option Queue :=
  match parseSqsSnsBody (m_Body message) with
  | None => Some q
  | Some envelope =>
      match processSnsNotification now envelope (world q) with
      | None => None
      | Some w =>
          let w' := (Do.inc "sqs_messages_processed_total" w).2 in
          if Js.truthy_opt (m_ReceiptHandle message)
          then Some (mkQueue w' (deleted q
                                 ++ [Js.nullish (m_ReceiptHandle message) ""]))
          else Some (mkQueue w' (deleted q))
      end
  end.

(** [pollOnce] on the messages received, each with the time at which
    it is processed. *)
Fixpoint pollOnce (arrivals : list (Z * Message)) (q : Queue) : option Queue :=
  match arrivals with
  | [] => Some q
  | (now, message) :: rest =>
      match processOneMessage now message q with
      | Some q' => pollOnce rest q'
      | None => None
      end
  end.

(** The body of the message is read as an SNS notification. *)
Definition readable (message : Message) : bool :=
  bool_decide (is_Some (parseSqsSnsBody (m_Body message))).

(** The receipt handle of a readable message that has one. *)
Definition handle (message : Message) : option string :=
  if readable message && Js.truthy_opt (m_ReceiptHandle message)
  then m_ReceiptHandle message else None.

(** The resource that the body of the message names, if any, is a
    string. *)
Definition string_resource (arrival : Z * Message) : Prop :=
  forall envelope,
    parseSqsSnsBody (m_Body arrival.2) = Some envelope ->
    Sns.snsEnvelopeToAlertPayload config arrival.1 envelope <> Sns.IllTyped.

End Poller.

(** A reader of envelopes that have the three required properties and
    no other, a runtime that parses the text of one, and two messages:
    one whose body is no JSON text, one that holds that envelope. *)
Definition sample_schema (v : JsVal) : option Sns.Envelope :=
  match JsValue.get v "Type", JsValue.get v "MessageId",
        JsValue.get v "Message" with
  | JStr type, JStr id, JStr message =>
      if String.eqb type "Notification"
      then Some (Sns.mkEnvelope id None message None None) else None
  | _, _, _ => None
  end.

Definition sample_envelope : JsVal :=
  JObj [("Type", JStr "Notification"); ("MessageId", JStr "m");
        ("Message", JStr "{}")].

Definition sample_runtime : Runtime :=
  {| Date_getTime := Sample.getTime;
     Date_toISOString := Sample.toISOString;
     JSON_parse := fun s =>
       if String.eqb s (Sample.stringify sample_envelope)
       then Some sample_envelope else Sample.parse s;
     JSON_stringify := Sample.stringify;
     ToString := Sample.toString |}.

Definition sample_arrivals : list (Z * Message) :=
  [ (Fixture.T0, mkMessage (Some "1") (Some "not json") (Some "r1"));
    (Fixture.T0, mkMessage (Some "2") (Some (Sample.stringify sample_envelope))
                           (Some "r2")) ].

End SqsPoller.

(** ** Texts without a broken template *)

Module Template.

(** No match of [/%![\w]*\(<nil>\)/] starts anywhere in [s]. *)
Fixpoint marker_free (s : string) : bool :=
  match s with
  | EmptyString => true
  | String _ r =>
      match Processor.broken_template_at s with
      | Some _ => false
      | None => marker_free r
      end
  end.

End Template.

(* ===================================================================== *)
(** * Facts about the string primitives *)
(* ===================================================================== *)

Module JsFacts.

Lemma trimStart_blank s : Spec.blank s = true -> Js.trimStart s = "".
Proof.
  induction s as [|c r IH]; simpl; [done|].
  intros [Hc Hr]%andb_true_iff. rewrite Hc. auto.
Qed.

Lemma trimEnd_blank s : Spec.blank s = true -> Js.trimEnd s = "".
Proof.
  induction s as [|c r IH]; simpl; [done|].
  intros [Hc Hr]%andb_true_iff. rewrite (IH Hr), Hc. done.
Qed.

Lemma trimEnd_empty s : Js.trimEnd s = "" -> Spec.blank s = true.
Proof.
  induction s as [|c r IH]; simpl; [done|].
  destruct (Js.is_space c) eqn:Hc; simpl; [|done].
  destruct (Js.trimEnd r) eqn:Hr; simpl; [auto | done].
Qed.

Lemma trimStart_not_blank s :
  Spec.blank s = false -> Spec.blank (Js.trimStart s) = false.
Proof.
  induction s as [|c r IH]; simpl; [done|].
  destruct (Js.is_space c) eqn:Hc; simpl; [auto|].
  intros _. by rewrite Hc.
Qed.

(** [s.trim()] is empty exactly when [s] is empty or whitespace-only. *)
Lemma trim_empty_iff s : Js.trim s = "" <-> Spec.blank s = true.
Proof.
  unfold Js.trim. split.
  - intros H%trimEnd_empty. destruct (Spec.blank s) eqn:Hb; [done|].
    by rewrite (trimStart_not_blank _ Hb) in H.
  - intros H. by rewrite (trimStart_blank _ H).
Qed.

Lemma truthy_trim s : Js.truthy (Js.trim s) = negb (Spec.blank s).
Proof.
  destruct (Spec.blank s) eqn:Hb.
  - apply trim_empty_iff in Hb. by rewrite Hb.
  - destruct (Js.trim s) eqn:Ht; [|done].
    apply trim_empty_iff in Ht. congruence.
Qed.

Lemma truthy_true s : Js.truthy s = true <-> s <> "".
Proof. destruct s; unfold Js.truthy; simpl; split; congruence. Qed.

Lemma append_cons x (r b : string) : String x r ++ b = String x (r ++ b).
Proof. reflexivity. Qed.

Lemma append_nil (b : string) : "" ++ b = b.
Proof. reflexivity. Qed.

Lemma append_empty_r (s : string) : s ++ "" = s.
Proof.
  induction s as [|x r IH]; [done|]. rewrite append_cons. by f_equal.
Qed.

Lemma contains_app c a b :
  Js.contains c (a ++ b) = Js.contains c a || Js.contains c b.
Proof.
  induction a as [|d r IH]; [done|].
  rewrite append_cons. simpl. rewrite IH. by rewrite orb_assoc.
Qed.

(** Splitting at the first colon. *)
Lemma split_colon_free s :
  Spec.colon_free s -> Js.split ":" s = [s].
Proof.
  unfold Spec.colon_free.
  induction s as [|c r IH]; simpl; [done|].
  destruct (Ascii.eqb c ":") eqn:Hc; simpl; [done|].
  intros H. by rewrite (IH H).
Qed.

Lemma split_cons s rest :
  Spec.colon_free s ->
  Js.split ":" (s ++ String ":" rest) = s :: Js.split ":" rest.
Proof.
  unfold Spec.colon_free.
  induction s as [|c r IH]; [done|].
  rewrite append_cons. simpl.
  destruct (Ascii.eqb c ":") eqn:Hc; simpl; [done|].
  intros H. by rewrite (IH H).
Qed.

Lemma app_assoc (a b c : string) : (a ++ b) ++ c = a ++ (b ++ c).
Proof.
  induction a as [|x r IH]; [done|].
  rewrite !append_cons. by f_equal.
Qed.

Lemma app_inv_head (a b c : string) : a ++ b = a ++ c -> b = c.
Proof.
  induction a as [|x r IH]; [done|].
  rewrite !append_cons. intros [= H]. auto.
Qed.

End JsFacts.

(* ===================================================================== *)
(** * The interaction embeds (discord/embed.ts) *)
(* ===================================================================== *)

Module EmbedFacts.
Import Embed.

Lemma carry_as_embed_field f : carry (as_embed_field f) = f.
Proof. by destruct f. Qed.

Lemma map_carry_as_embed_field l : map carry (map as_embed_field l) = l.
Proof.
  induction l as [|f l IH]; simpl; [done|].
  by rewrite carry_as_embed_field, IH.
Qed.

(** Filtering again what a filter kept changes nothing, the fields
    being carried with their names. *)
Lemma filter_carried keep l :
  (forall f, keep (as_embed_field (carry f)) = keep f) ->
  List.filter keep (map as_embed_field (map carry (List.filter keep l)))
  = map as_embed_field (map carry (List.filter keep l)).
Proof.
  intros Hk. induction l as [|f l IH]; simpl; [done|].
  destruct (keep f) eqn:Hf; simpl; [|done].
  by rewrite Hk, Hf, IH.
Qed.

Lemma count_carried keep n l :
  (forall f, keep f = true -> String.eqb (ef_name f) n = false) ->
  count_name n (map carry (List.filter keep l)) = 0%nat.
Proof.
  intros Hk. unfold count_name. induction l as [|f l IH]; simpl; [done|].
  destruct (keep f) eqn:Hf; simpl; [|done].
  by rewrite (Hk f Hf).
Qed.

Lemma count_name_app n (a b : list ResolvedField) :
  count_name n (a ++ b)%list = (count_name n a + count_name n b)%nat.
Proof. unfold count_name. by rewrite List.filter_app, length_app. Qed.

Lemma keep_resolved_spec f :
  keep_resolved f
  = bool_decide (ef_name f ∉ ["Status"; "Resolved by"; "Resolved at"]).
Proof.
  unfold keep_resolved, name_is.
  destruct (String.eqb_spec (ef_name f) "Status") as [->|H1]; [done|].
  destruct (String.eqb_spec (ef_name f) "Resolved by") as [->|H2]; [done|].
  destruct (String.eqb_spec (ef_name f) "Resolved at") as [->|H3]; [done|].
  simpl. symmetry. apply bool_decide_eq_true.
  rewrite !not_elem_of_cons. repeat split; try done. apply not_elem_of_nil.
Qed.

Lemma keep_acknowledged_spec f :
  keep_acknowledged f
  = bool_decide (ef_name f ∉ ["Status"; "Acknowledged by"]).
Proof.
  unfold keep_acknowledged, name_is.
  destruct (String.eqb_spec (ef_name f) "Status") as [->|H1]; [done|].
  destruct (String.eqb_spec (ef_name f) "Acknowledged by") as [->|H2]; [done|].
  simpl. symmetry. apply bool_decide_eq_true.
  rewrite !not_elem_of_cons. repeat split; try done. apply not_elem_of_nil.
Qed.

Lemma filter_ext_eq {A} (p q : A -> bool) l :
  (forall a, p a = q a) -> List.filter p l = List.filter q l.
Proof.
  intros H. induction l as [|a l IH]; simpl; [done|]. by rewrite H, IH.
Qed.

(** C10. [buildResolvedFields] carries through, in their order, exactly
    the fields whose name is none of Status, Resolved by, Resolved at,
    each with its name and its value and with [inline] as it was when
    it was a boolean and [true] otherwise; it ends with one Status
    (value resolved), one Resolved by and one Resolved at field, in that
    order, all inline, and these names occur nowhere else in the output;
    applied again to its own output (read as embed fields) with the
    same user and timestamp it returns the same list.
    [buildAcknowledgedFields] has the same properties for Status (value
    acknowledged) and Acknowledged by. *)
Theorem build_fields_idempotent_normalizing
    (fs : list EmbedField) (userId resolvedAt : string) :
  let r := buildResolvedFields fs userId resolvedAt in
  let a := buildAcknowledgedFields fs userId in
  let carried (f : EmbedField) :=
    {| rf_name := ef_name f;
       rf_value := ef_value f;
       rf_inline := match ef_inline f with
                    | InlineBool b => b
                    | InlineUndefined | InlineNull => true
                    end |} in
  let read_back (g : ResolvedField) :=
    {| ef_name := rf_name g;
       ef_value := rf_value g;
       ef_inline := InlineBool (rf_inline g) |} in
  (r = (map carried
          (List.filter (fun f => bool_decide
             (ef_name f ∉ ["Status"; "Resolved by"; "Resolved at"])) fs)
        ++ [ {| rf_name := "Status"; rf_value := "resolved";
                rf_inline := true |};
             {| rf_name := "Resolved by"; rf_value := "<@" ++ userId ++ ">";
                rf_inline := true |};
             {| rf_name := "Resolved at";
                rf_value := Js.replace_first "T" " " (Js.slice0 19 resolvedAt);
                rf_inline := true |} ])%list
   /\ count_name "Status" r = 1%nat
   /\ count_name "Resolved by" r = 1%nat
   /\ count_name "Resolved at" r = 1%nat
   /\ buildResolvedFields (map read_back r) userId resolvedAt = r)
  /\
  (a = (map carried
          (List.filter (fun f => bool_decide
             (ef_name f ∉ ["Status"; "Acknowledged by"])) fs)
        ++ [ {| rf_name := "Status"; rf_value := "acknowledged";
                rf_inline := true |};
             {| rf_name := "Acknowledged by";
                rf_value := "<@" ++ userId ++ ">"; rf_inline := true |} ])%list
   /\ count_name "Status" a = 1%nat
   /\ count_name "Acknowledged by" a = 1%nat
   /\ buildAcknowledgedFields (map read_back a) userId = a).
Proof.
  assert (Hr : forall f n, keep_resolved f = true ->
             n ∈ ["Status"; "Resolved by"; "Resolved at"] ->
             String.eqb (ef_name f) n = false).
  { intros f n Hk Hn. rewrite keep_resolved_spec in Hk.
    apply bool_decide_eq_true in Hk. apply String.eqb_neq. congruence. }
  assert (Ha : forall f n, keep_acknowledged f = true ->
             n ∈ ["Status"; "Acknowledged by"] ->
             String.eqb (ef_name f) n = false).
  { intros f n Hk Hn. rewrite keep_acknowledged_spec in Hk.
    apply bool_decide_eq_true in Hk. apply String.eqb_neq. congruence. }
  assert (Hcarried : forall l : list EmbedField,
            map (fun f => {| rf_name := ef_name f; rf_value := ef_value f;
                             rf_inline := match ef_inline f with
                                          | InlineBool b => b
                                          | InlineUndefined | InlineNull => true
                                          end |}) l
            = map carry l).
  { intros l. apply List.map_ext. intros f. unfold carry, inline_or_true.
    by destruct (ef_inline f). }
  cbv zeta. change (fun g => {| ef_name := rf_name g; ef_value := rf_value g;
                                ef_inline := InlineBool (rf_inline g) |})
    with as_embed_field.
  rewrite !Hcarried.
  split.
  - unfold buildResolvedFields. repeat split.
    + f_equal. f_equal. apply filter_ext_eq, keep_resolved_spec.
    + rewrite count_name_app, count_carried; [done|].
      intros f Hf. apply Hr; [done|]. set_solver.
    + rewrite count_name_app, count_carried; [done|].
      intros f Hf. apply Hr; [done|]. set_solver.
    + rewrite count_name_app, count_carried; [done|].
      intros f Hf. apply Hr; [done|]. set_solver.
    + rewrite map_app, List.filter_app, filter_carried by (by intros []).
      simpl. by rewrite app_nil_r, map_carry_as_embed_field.
  - unfold buildAcknowledgedFields. repeat split.
    + f_equal. f_equal. apply filter_ext_eq, keep_acknowledged_spec.
    + rewrite count_name_app, count_carried; [done|].
      intros f Hf. apply Ha; [done|]. set_solver.
    + rewrite count_name_app, count_carried; [done|].
      intros f Hf. apply Ha; [done|]. set_solver.
    + rewrite map_app, List.filter_app, filter_carried by (by intros []).
      simpl. by rewrite app_nil_r, map_carry_as_embed_field.
Qed.

(** On an embed with a field of every kind of [inline], a stale Status
    and a stale Resolved by. *)
Lemma build_fields_idempotent_normalizing_witness :
  let fs :=
    [ {| ef_name := "Started"; ef_value := "10:00";
         ef_inline := InlineUndefined |};
      {| ef_name := "Status"; ef_value := "firing";
         ef_inline := InlineBool true |};
      {| ef_name := "Host"; ef_value := "db-1"; ef_inline := InlineBool false |};
      {| ef_name := "Resolved by"; ef_value := "<@u0>";
         ef_inline := InlineBool false |};
      {| ef_name := "Note"; ef_value := "n"; ef_inline := InlineNull |} ] in
  buildResolvedFields fs "u1" "2024-01-15T11:30:45Z"
  = [ {| rf_name := "Started"; rf_value := "10:00"; rf_inline := true |};
      {| rf_name := "Host"; rf_value := "db-1"; rf_inline := false |};
      {| rf_name := "Note"; rf_value := "n"; rf_inline := true |};
      {| rf_name := "Status"; rf_value := "resolved"; rf_inline := true |};
      {| rf_name := "Resolved by"; rf_value := "<@u1>"; rf_inline := true |};
      {| rf_name := "Resolved at"; rf_value := "2024-01-15 11:30:45";
         rf_inline := true |} ]
  /\ buildAcknowledgedFields fs "u1"
     = [ {| rf_name := "Started"; rf_value := "10:00"; rf_inline := true |};
         {| rf_name := "Host"; rf_value := "db-1"; rf_inline := false |};
         {| rf_name := "Resolved by"; rf_value := "<@u0>"; rf_inline := false |};
         {| rf_name := "Note"; rf_value := "n"; rf_inline := true |};
         {| rf_name := "Status"; rf_value := "acknowledged"; rf_inline := true |};
         {| rf_name := "Acknowledged by"; rf_value := "<@u1>";
            rf_inline := true |} ].
Proof.
  intros fs.
  destruct (build_fields_idempotent_normalizing fs "u1" "2024-01-15T11:30:45Z")
    as [(Hr & _) (Ha & _)].
  split; [rewrite Hr | rewrite Ha]; reflexivity.
Defined.

End EmbedFacts.

(* ===================================================================== *)
(** * The resolved-at field of the webhook normalizer *)
(* ===================================================================== *)

Module NormalizerFacts.
Import Processor Fixture.

(** A timestamp of the year 0001 other than the zero time is carried
    into [resolvedAt]: the claim of C8 about every timestamp of that
    year fails. *)
Lemma year_0001_is_carried :
  ~ (forall alert config,
       Spec.year_0001 (n_endsAt alert) = true ->
       p_resolvedAt (normalizedToApiPayload alert config) = None).
Proof.
  intros H.
  specialize (H (alert_ending "0001-06-15T12:00:00Z") rule_c1 eq_refl).
  vm_compute in H. discriminate.
Qed.

(** C8, amended. The payload's [resolvedAt] is absent when [endsAt] is
    empty or whitespace-only, and when [endsAt], trimmed, starts with
    the zero time [0001-01-01T00:00:00] (the letter in either case); for
    every other [endsAt] it is [endsAt] itself. *)
Theorem resolvedAt_from_meaningful_endsAt
    (alert : NormalizedAlert) (config : AlertTypeConfig) :
  let resolvedAt := p_resolvedAt (normalizedToApiPayload alert config) in
  (Spec.blank (n_endsAt alert) = true -> resolvedAt = None)
  /\ (Spec.zero_sentinel (n_endsAt alert) = true -> resolvedAt = None)
  /\ (Spec.blank (n_endsAt alert) = false ->
      Spec.zero_sentinel (n_endsAt alert) = false ->
      resolvedAt = Some (n_endsAt alert)).
Proof.
  unfold normalizedToApiPayload. cbn [p_resolvedAt].
  unfold isMeaningfulEndsAt, Spec.zero_sentinel.
  rewrite JsFacts.truthy_trim.
  destruct (Spec.blank (n_endsAt alert)); cbn [negb].
  - repeat split; intros; congruence.
  - destruct (Js.startsWith_ci "0001-01-01T00:00:00" (Js.trim (n_endsAt alert)));
      repeat split; intros; congruence.
Qed.

Lemma resolvedAt_from_meaningful_endsAt_witness :
  p_resolvedAt (normalizedToApiPayload (alert_ending "   ") rule_c1) = None
  /\ p_resolvedAt (normalizedToApiPayload
                     (alert_ending "0001-01-01t00:00:00Z") rule_c1) = None
  /\ p_resolvedAt (normalizedToApiPayload
                     (alert_ending "2024-01-15T11:00:00Z") rule_c1)
     = Some "2024-01-15T11:00:00Z".
Proof.
  split; [|split].
  - exact (proj1 (resolvedAt_from_meaningful_endsAt
                    (alert_ending "   ") rule_c1) eq_refl).
  - exact (proj1 (proj2 (resolvedAt_from_meaningful_endsAt
                           (alert_ending "0001-01-01t00:00:00Z") rule_c1))
                 eq_refl).
  - exact (proj2 (proj2 (resolvedAt_from_meaningful_endsAt
                           (alert_ending "2024-01-15T11:00:00Z") rule_c1))
                 eq_refl eq_refl).
Defined.

End NormalizerFacts.

(* ===================================================================== *)
(** * Validation of a configuration (services/config.ts) *)
(* ===================================================================== *)

Module ConfigFacts.
Import Config Spec.

Lemma lookup_get props k v :
  JsValue.lookup k props = Some v -> JsValue.get (JObj props) k = v.
Proof. intros H. simpl. by rewrite H. Qed.

Lemma isAlertTypeConfig_typed v : isAlertTypeConfig v = true <-> typed v.
Proof.
  unfold isAlertTypeConfig, typed, JsValue.has, JsValue.get, JsValue.is_object.
  destruct v as [| |b|n|s0|items|props];
    try (split; [done | intros [s Hs]; done]).
  destruct (JsValue.lookup "channelId" props) as [c|] eqn:Hl.
  - rewrite bool_decide_eq_true_2 by eauto.
    destruct c; cbn; split; try done; try (intros [s Hs]; done). eauto.
  - rewrite bool_decide_eq_false_2 by (by intros [? ?]).
    split; [done | intros [s Hs]; done].
Qed.

Lemma filter_mentions_idem m : filter_mentions (filter_mentions m) = filter_mentions m.
Proof.
  destruct m as [| |b|n|s0|items|props]; simpl; try done.
  f_equal. induction items as [|x l IH]; simpl; [done|].
  destruct (JsValue.is_string x) eqn:Hx; simpl; [|done].
  by rewrite Hx, IH.
Qed.

(** What [entry_of] keeps of an entry: the five fields it copies, and
    the mentions filtered. *)
Lemma entry_of_fields v :
  JsValue.get (entry_of v) "channelId" = JsValue.get v "channelId"
  /\ JsValue.get (entry_of v) "suppressWindowMs" = JsValue.get v "suppressWindowMs"
  /\ JsValue.get (entry_of v) "importantLabels" = JsValue.get v "importantLabels"
  /\ JsValue.get (entry_of v) "hiddenLabels" = JsValue.get v "hiddenLabels"
  /\ JsValue.get (entry_of v) "thumbnailUrl" = JsValue.get v "thumbnailUrl"
  /\ JsValue.get (entry_of v) "mentions"
     = filter_mentions (JsValue.get v "mentions").
Proof. repeat split; reflexivity. Qed.

Lemma entry_of_idem v : entry_of (entry_of v) = entry_of v.
Proof.
  destruct (entry_of_fields v) as (H1 & H2 & H3 & H4 & H5 & H6).
  unfold entry_of at 1. rewrite H1, H2, H3, H4, H5, H6.
  by rewrite filter_mentions_idem.
Qed.

Lemma entry_of_typed v : typed v -> typed (entry_of v).
Proof. intros [s Hs]. exists s. by rewrite <- Hs. Qed.

(** ** The object under construction *)

Lemma upsert_fresh k v out :
  k ∉ keys out -> JsValue.upsert k v out = (out ++ [(k, v)])%list.
Proof.
  induction out as [|[k' v'] out IH]; simpl; [done|].
  intros [Hne Hout]%not_elem_of_cons.
  destruct (String.eqb_spec k' k) as [->|_]; [done|].
  by rewrite IH.
Qed.

Lemma upsert_keys k v out :
  k ∈ keys out -> keys (JsValue.upsert k v out) = keys out.
Proof.
  induction out as [|[k' v'] out IH]; simpl; [by intros ?%elem_of_nil|].
  destruct (String.eqb_spec k' k) as [->|Hne]; [done|].
  intros [?|Hin]%elem_of_cons; [congruence|]. simpl. f_equal. by apply IH.
Qed.

Lemma upsert_Forall (P : string * JsVal -> Prop) k v out :
  P (k, v) -> Forall P out -> Forall P (JsValue.upsert k v out).
Proof.
  intros Hk. induction 1 as [|[k' v'] out Hx Hout IH]; simpl.
  - by constructor.
  - destruct (String.eqb k' k); by constructor.
Qed.

Lemma built_assign k v out :
  typed v -> built out -> built (JsValue.assign k (entry_of v) out).
Proof.
  intros Hv [Hnd Hall]. unfold JsValue.assign.
  destruct (String.eqb_spec k "__proto__") as [->|Hk]; [done|].
  split.
  - destruct (decide (k ∈ keys out)) as [Hin|Hnin].
    + by rewrite upsert_keys.
    + rewrite upsert_fresh by done. unfold keys. rewrite map_app. simpl.
      apply NoDup_app. repeat split; [done | | apply NoDup_singleton].
      intros x Hx ->%list_elem_of_singleton. done.
  - apply upsert_Forall; [|done]. split; [done|]. eauto.
Qed.

Lemma validate_entries_built entries out config :
  built out -> validate_entries entries out = Ok config ->
  exists out', config = JObj out' /\ built out'.
Proof.
  revert out. induction entries as [|[k v] rest IH]; simpl; intros out Hb.
  - intros [= <-]. eauto.
  - destruct (isAlertTypeConfig v) eqn:Hv; [|done].
    apply IH, built_assign; [|done]. by apply isAlertTypeConfig_typed.
Qed.

(** The loop over an object of the built shape appends it, entry by
    entry and unchanged, to what it started from. *)
Lemma validate_entries_normal entries out :
  built entries -> (forall k, k ∈ keys entries -> k ∉ keys out) ->
  validate_entries entries out = Ok (JObj (out ++ entries)%list).
Proof.
  revert out. induction entries as [|[k e] rest IH]; intros out [Hnd Hall] Hdis.
  - by rewrite app_nil_r.
  - simpl in Hnd. apply NoDup_cons in Hnd as [Hk Hnd].
    apply Forall_cons in Hall as [[Hproto (v & Hv & He)] Hall].
    simpl in Hproto, He. subst e. simpl.
    pose proof (entry_of_typed v Hv) as Ht.
    apply isAlertTypeConfig_typed in Ht. rewrite Ht.
    unfold JsValue.assign. rewrite (proj2 (String.eqb_neq _ _) Hproto).
    rewrite upsert_fresh, entry_of_idem by (apply Hdis; simpl; left).
    rewrite IH; [by rewrite <- app_assoc | done |].
    intros k' Hk'. unfold keys. rewrite map_app. simpl.
    rewrite elem_of_app, list_elem_of_singleton. intros [Hin | ->]; [|done].
    by apply (Hdis k'); [simpl; right|].
Qed.

Lemma keys_normalized props k : k ∈ keys (normalized props) -> k ∈ keys props.
Proof.
  unfold normalized, keys. rewrite !list_elem_of_fmap.
  intros ([k1 e] & -> & [[k2 v] [-> Hin]]%list_elem_of_fmap). simpl.
  apply list_elem_of_In, List.filter_In in Hin as [Hin _].
  exists (k2, v). split; [done|]. by apply list_elem_of_In.
Qed.

Lemma validate_entries_typed props out :
  NoDup (keys props) -> Forall (fun kv => typed kv.2) props ->
  (forall k, k ∈ keys props -> k ∉ keys out) ->
  validate_entries props out = Ok (JObj (out ++ normalized props)%list).
Proof.
  revert out. induction props as [|[k v] rest IH]; intros out Hnd Hall Hdis.
  - by rewrite app_nil_r.
  - simpl in Hnd. apply NoDup_cons in Hnd as [Hk Hnd].
    apply Forall_cons in Hall as [Hv Hall]. simpl in Hv. simpl.
    rewrite (proj2 (isAlertTypeConfig_typed v) Hv).
    unfold JsValue.assign, normalized. simpl.
    destruct (String.eqb_spec k "__proto__") as [->|Hproto]; simpl.
    + apply IH; [done..|]. intros k' Hk'. apply Hdis. simpl. by right.
    + rewrite upsert_fresh by (apply Hdis; simpl; left).
      fold (normalized rest). rewrite IH; [by rewrite <- app_assoc | done..|].
      intros k' Hk'. unfold keys. rewrite map_app. simpl.
      rewrite elem_of_app, list_elem_of_singleton. intros [Hin | ->]; [|done].
      by apply (Hdis k'); [simpl; right|].
Qed.

Lemma validate_entries_untyped props out k v :
  (k, v) ∈ props -> ~ typed v ->
  exists error, validate_entries props out = Invalid error.
Proof.
  revert out. induction props as [|[k' v'] rest IH]; intros out Hin Hv.
  - by apply elem_of_nil in Hin.
  - simpl. destruct (isAlertTypeConfig v') eqn:Hv'; [|eauto].
    apply elem_of_cons in Hin as [[= -> ->]|Hin].
    + by apply isAlertTypeConfig_typed in Hv'.
    + by apply IH.
Qed.

(** C6. [validateAlertsConfig] rejects whatever is not an object
    ([null], arrays, primitives); it rejects every object one of whose
    entries lacks a string [channelId]; on an object whose entries all
    have one it returns, key by key, the entry with [channelId],
    [suppressWindowMs], [importantLabels], [hiddenLabels] and
    [thumbnailUrl] unchanged and [mentions] filtered to its string
    elements ([undefined] when it is not an array); and validating what
    it returned succeeds and returns the same configuration. *)
Theorem validateAlertsConfig_idempotent_typed :
  (forall data, (forall props, data <> JObj props) ->
     validateAlertsConfig data = Invalid "Config must be a JSON object")
  /\ (forall props key value,
        (key, value) ∈ props ->
        (forall s, JsValue.get value "channelId" <> JStr s) ->
        exists error, validateAlertsConfig (JObj props) = Invalid error)
  /\ (forall props,
        NoDup (keys props) ->
        (forall key value, (key, value) ∈ props ->
           exists s, JsValue.get value "channelId" = JStr s) ->
        validateAlertsConfig (JObj props) = Ok (JObj (normalized props)))
  /\ (forall value,
        JsValue.get (entry_of value) "channelId" = JsValue.get value "channelId"
        /\ JsValue.get (entry_of value) "suppressWindowMs"
           = JsValue.get value "suppressWindowMs"
        /\ JsValue.get (entry_of value) "importantLabels"
           = JsValue.get value "importantLabels"
        /\ JsValue.get (entry_of value) "hiddenLabels"
           = JsValue.get value "hiddenLabels"
        /\ JsValue.get (entry_of value) "thumbnailUrl"
           = JsValue.get value "thumbnailUrl"
        /\ JsValue.get (entry_of value) "mentions"
           = match JsValue.get value "mentions" with
             | JArr items => JArr (List.filter JsValue.is_string items)
             | _ => JUndefined
             end)
  /\ (forall data config,
        validateAlertsConfig data = Ok config ->
        validateAlertsConfig config = Ok config).
Proof.
  split; [|split; [|split; [|split]]].
  - intros data Hd. destruct data; try done. by destruct (Hd props).
  - intros props key value Hin Hv. simpl.
    apply (validate_entries_untyped props [] key value Hin).
    intros [s Hs]. by apply (Hv s).
  - intros props Hnd Hall. simpl.
    rewrite (validate_entries_typed props []); [done | done | | ].
    + apply Forall_forall. intros [k v] Hin. by apply (Hall k v).
    + intros k _. apply not_elem_of_nil.
  - intros value. apply entry_of_fields.
  - intros data config H. destruct data; try done. simpl in H.
    apply validate_entries_built in H as (out & -> & Hb).
    + simpl. rewrite (validate_entries_normal out []); [done | done |].
      intros k _. apply not_elem_of_nil.
    + split; [apply NoDup_nil_2 | apply Forall_nil_2].
Qed.

Lemma validateAlertsConfig_idempotent_typed_witness :
  validateAlertsConfig Fixture.pushed_config = Ok Fixture.validated_config
  /\ validateAlertsConfig Fixture.validated_config = Ok Fixture.validated_config
  /\ (exists error,
        validateAlertsConfig (JObj [("Bad", JObj [("suppressWindowMs", JNum 1000)])])
        = Invalid error)
  /\ validateAlertsConfig (JArr [JStr "a"; JStr "b"])
     = Invalid "Config must be a JSON object".
Proof.
  destruct validateAlertsConfig_idempotent_typed as (H1 & H2 & H3 & _ & H5).
  split; [|split; [|split]].
  - reflexivity.
  - apply (H5 Fixture.pushed_config). reflexivity.
  - apply (H2 _ "Bad" (JObj [("suppressWindowMs", JNum 1000)])).
    + apply list_elem_of_singleton. reflexivity.
    + intros s. discriminate.
  - apply H1. intros props. discriminate.
Defined.

End ConfigFacts.

(* ===================================================================== *)
(** * The alert id of an SNS delivery (services/sns-processor.ts) *)
(* ===================================================================== *)

Module SnsFacts.
Import Sns Spec.

(** The message id is what precedes the first colon of the alert id,
    when it has no colon of its own. *)
Lemma message_id_recovered m resource :
  colon_free m -> hd "" (Js.split ":" (m ++ resource_part resource)) = m.
Proof.
  intros Hm. unfold resource_part.
  destruct resource as [r|]; [destruct (Js.is_empty r)|].
  - by rewrite JsFacts.append_empty_r, JsFacts.split_colon_free.
  - change (":" ++ Js.slice0 64 r) with (String ":" (Js.slice0 64 r)).
    by rewrite JsFacts.split_cons.
  - by rewrite JsFacts.append_empty_r, JsFacts.split_colon_free.
Qed.

Section WithRuntime.

Context `{rt : Runtime}.

Lemma payload_alertId config now e p :
  snsEnvelopeToAlertPayload config now e = Payload p ->
  alertId p = MessageId e ++ resource_part (resource p)
  /\ match parseResource e with
     | ResourceString r => resource p = Some r
     | _ => resource p = None
     end.
Proof.
  unfold snsEnvelopeToAlertPayload.
  destruct (config !! deriveEventName e) as [cfg|]; [|done].
  destruct (negb (Js.truthy (c_channelId cfg))); [done|].
  destruct (parseResolvedState e) as [st ra].
  destruct (parseResource e) as [|r|v]; [| |done].
  - intros [= <-]. simpl. by rewrite JsFacts.append_empty_r.
  - intros [= <-]. simpl. split; [|done]. unfold resource_suffix, Js.truthy.
    by destruct (Js.is_empty r).
Qed.

(** C9, amended. A payload built from an envelope has the envelope's
    [MessageId] as its [alertId], followed, when a non-empty resource
    was derived, by a colon and the first 64 code units of the resource;
    two envelopes whose message ids differ and contain no colon give
    different alert ids. *)
Theorem sns_alertId_from_MessageId
    (config1 config2 : AlertsConfig) (now1 now2 : Z)
    (e1 e2 : Envelope) (p1 p2 : AlertApiPayload) :
  snsEnvelopeToAlertPayload config1 now1 e1 = Payload p1 ->
  snsEnvelopeToAlertPayload config2 now2 e2 = Payload p2 ->
  alertId p1 = MessageId e1 ++ resource_part (resource p1)
  /\ (colon_free (MessageId e1) -> colon_free (MessageId e2) ->
      MessageId e1 <> MessageId e2 -> alertId p1 <> alertId p2).
Proof.
  intros [H1 _]%payload_alertId [H2 _]%payload_alertId. split; [done|].
  intros Hc1 Hc2 Hne Heq. apply Hne.
  rewrite <- (message_id_recovered (MessageId e1) (resource p1) Hc1).
  rewrite <- (message_id_recovered (MessageId e2) (resource p2) Hc2).
  by rewrite <- H1, <- H2, Heq.
Qed.

End WithRuntime.

(** ** The event name *)

Section EventName.

Context `{rt : Runtime}.

Lemma normalizeEventName_nonblank s :
  blank s = false ->
  normalizeEventName (Some s) = Js.replace_ws_runs false (Js.trim s).
Proof.
  intros Hb. unfold normalizeEventName. by rewrite JsFacts.truthy_trim, Hb.
Qed.

(** One of the three envelope texts in front of the remaining
    candidates. *)
Lemma envelope_text_choice (o : option string) (rest : list (option string))
    (otherwise : string) :
  otherwise = match first_some rest with
              | Some s => Js.replace_ws_runs false (Js.trim s)
              | None => "sns"
              end ->
  (if nonblank o then normalizeEventName o else otherwise)
  = match first_some (only_if (fun s => negb (blank s)) o :: rest) with
    | Some s => Js.replace_ws_runs false (Js.trim s)
    | None => "sns"
    end.
Proof.
  intros ->. destruct o as [s|]; [|done]. cbn [nonblank only_if first_some].
  rewrite JsFacts.truthy_trim. destruct (blank s) eqn:Hb; cbn [negb first_some].
  - done.
  - by apply normalizeEventName_nonblank.
Qed.

(** One of the three fields of the parsed message, when it is not
    white space only. *)
Lemma message_field_choice o name (rest : list (option string))
    (otherwise : string) :
  (forall s, JsValue.get o name = JStr s -> s <> "" -> blank s = false) ->
  otherwise = match first_some rest with
              | Some s => Js.replace_ws_runs false (Js.trim s)
              | None => "sns"
              end ->
  match nonempty_string (JsValue.get o name) with
  | Some s => normalizeEventName (Some s)
  | None => otherwise
  end
  = match first_some (only_if (fun s => negb (blank s))
                        (JsValue.as_string (JsValue.get o name)) :: rest) with
    | Some s => Js.replace_ws_runs false (Js.trim s)
    | None => "sns"
    end.
Proof.
  intros H ->.
  destruct (JsValue.get o name) as [| |b|n|s|items|props]; try done.
  cbn [nonempty_string JsValue.as_string only_if].
  destruct s as [|c r]; [done|]. unfold Js.truthy. cbn [Js.is_empty negb].
  rewrite (H (String c r)) by done. cbn [negb first_some].
  apply normalizeEventName_nonblank. by apply H.
Qed.

(** C7, amended. On an envelope none of whose message fields
    [detail-type], [source], [eventName] is a whitespace-only string,
    [deriveEventName] chooses the first candidate that is not blank, in
    the order Subject, event_type, rule_name, then the three message
    fields; it trims the chosen name and replaces every run of white
    space in it with one underscore; with no candidate it returns
    [sns]. *)
Theorem deriveEventName_first_candidate (e : Envelope) :
  ~ blank_field e "detail-type" ->
  ~ blank_field e "source" ->
  ~ blank_field e "eventName" ->
  deriveEventName e = event_name_trimmed e.
Proof.
  intros H1 H2 H3. unfold deriveEventName, event_name_trimmed, candidates.
  cbn [map].
  do 3 (apply envelope_text_choice).
  destruct (parsed_object (Message e)) as [o|] eqn:Ho; [|done].
  cbn [mbind option_bind].
  assert (Hf : forall name, ~ blank_field e name ->
            forall s, JsValue.get o name = JStr s -> s <> "" -> blank s = false).
  { intros name Hn s Hs Hne. destruct (blank s) eqn:Hb; [|done].
    destruct Hn. exists o, s. by rewrite Ho. }
  do 3 (apply message_field_choice; [by apply Hf|]). done.
Qed.

End EventName.

Lemma deriveEventName_first_candidate_witness :
  deriveEventName (rt := Sample.runtime) Fixture.envelope_health
  = "AWS_Health_Event".
Proof.
  rewrite (deriveEventName_first_candidate (rt := Sample.runtime)
             Fixture.envelope_health).
  - reflexivity.
  - intros (o & s & Ho & Hs & _). vm_compute in Ho. by injection Ho as <-.
  - intros (o & s & Ho & Hs & _). vm_compute in Ho. by injection Ho as <-.
  - intros (o & s & Ho & Hs & _). vm_compute in Ho. by injection Ho as <-.
Defined.

(** The event name is not the first non-empty candidate with its runs
    of white space replaced. A subject is trimmed first, so that white
    space at its ends is dropped, not replaced; and a [detail-type] of
    one space gives [sns], which is neither the underscore of the
    wording nor, with "non-empty" read as "not blank", the [source] that
    follows. *)
Lemma event_name_not_as_worded :
  let derive := deriveEventName (rt := Sample.runtime) in
  let worded := event_name_as_worded (H := Sample.runtime) in
  let trimmed := event_name_trimmed (H := Sample.runtime) in
  (derive Fixture.envelope_padded = "Health_Event"
   /\ worded Fixture.envelope_padded = "_Health_Event")
  /\ (derive Fixture.envelope_blank_detail = "sns"
      /\ worded Fixture.envelope_blank_detail = "_"
      /\ trimmed Fixture.envelope_blank_detail = "aws.ec2")
  /\ ~ (forall e, derive e = worded e)
  /\ ~ (forall e, derive e = trimmed e).
Proof.
  intros derive worded trimmed. repeat split.
  - intros H. specialize (H Fixture.envelope_padded). by vm_compute in H.
  - intros H. specialize (H Fixture.envelope_blank_detail). by vm_compute in H.
Qed.

(** Two deliveries with different message ids and the same alert id:
    the message id of the first ends in what the second appends. The
    conclusion of C9 about every two distinct message ids fails. *)
Lemma distinct_MessageId_same_alertId :
  ~ (forall (config : AlertsConfig) now e1 e2 p1 p2,
       snsEnvelopeToAlertPayload (rt := Sample.runtime) config now e1 = Payload p1 ->
       snsEnvelopeToAlertPayload (rt := Sample.runtime) config now e2 = Payload p2 ->
       MessageId e1 <> MessageId e2 -> alertId p1 <> alertId p2).
Proof.
  intros H.
  destruct (snsEnvelopeToAlertPayload (rt := Sample.runtime) Fixture.alerts_config 0
              Fixture.envelope_plain) as [|p1|] eqn:H1; try (vm_compute in H1; discriminate).
  destruct (snsEnvelopeToAlertPayload (rt := Sample.runtime) Fixture.alerts_config 0
              Fixture.envelope_alarm) as [|p2|] eqn:H2; try (vm_compute in H2; discriminate).
  apply (H _ _ _ _ _ _ H1 H2); [discriminate|].
  vm_compute in H1, H2. by injection H1 as <-; injection H2 as <-.
Qed.

Lemma sns_alertId_from_MessageId_witness :
  exists p1 p2,
    snsEnvelopeToAlertPayload (rt := Sample.runtime) Fixture.alerts_config 0 Fixture.envelope_alarm
    = Payload p1
    /\ alertId p1 = "m:cpu" /\ alertId p1 <> alertId p2.
Proof.
  destruct (snsEnvelopeToAlertPayload (rt := Sample.runtime) Fixture.alerts_config 0
              Fixture.envelope_alarm) as [|p1|] eqn:H1; try (vm_compute in H1; discriminate).
  destruct (snsEnvelopeToAlertPayload (rt := Sample.runtime) Fixture.alerts_config 0
              Fixture.envelope_other) as [|p2|] eqn:H2; try (vm_compute in H2; discriminate).
  exists p1, p2.
  destruct (sns_alertId_from_MessageId _ _ _ _ _ _ _ _ H1 H2) as [Hid Hne].
  split; [done|]. split.
  - vm_compute in H1. by injection H1 as <-.
  - apply Hne; [reflexivity | reflexivity | discriminate].
Defined.

End SnsFacts.

(* ===================================================================== *)
(** * The dedup store (store/dedup.ts) *)
(* ===================================================================== *)

Module DedupFacts.
Import Dedup.

(** [ceil_seconds ms] is the least number of whole seconds that covers
    [ms] milliseconds. *)
Lemma ceil_seconds_spec ms :
  1000 * (ceil_seconds ms - 1) < ms <= 1000 * ceil_seconds ms.
Proof.
  unfold ceil_seconds.
  pose proof (Z.div_mod (- ms) 1000 ltac:(lia)).
  pose proof (Z.mod_pos_bound (- ms) 1000 ltac:(lia)). lia.
Qed.

Lemma ttlSec_positive ttlMs : 1 <= ttlSec ttlMs.
Proof. unfold ttlSec. lia. Qed.

Lemma get_setex now k sec v (r : Redis) :
  1 <= sec -> RedisCmd.get now k (RedisCmd.setex now k sec v r) = Some v.
Proof.
  intros Hs. unfold RedisCmd.get, RedisCmd.setex. rewrite lookup_insert_eq.
  by rewrite (proj2 (Z.ltb_lt _ _)) by lia.
Qed.

Lemma pttl_setex now k sec v (r : Redis) :
  1 <= sec ->
  RedisCmd.pttl now k (RedisCmd.setex now k sec v r) = Some (sec * 1000).
Proof.
  intros Hs. unfold RedisCmd.pttl, RedisCmd.setex. rewrite lookup_insert_eq.
  rewrite (proj2 (Z.ltb_lt _ _)) by lia. f_equal. lia.
Qed.

Lemma get_setex_ne now now' k k' sec v (r : Redis) :
  k <> k' ->
  RedisCmd.get now' k' (RedisCmd.setex now k sec v r) = RedisCmd.get now' k' r.
Proof.
  intros Hk. unfold RedisCmd.get, RedisCmd.setex. by rewrite lookup_insert_ne.
Qed.

(** Two callers that interleave both get the answer "new": the GET of
    the second runs before the SETEX of the first. [isDuplicate] is not
    an atomic test-and-set. *)
Lemma isDuplicate_not_atomic : ~ atomic_test_and_set.
Proof.
  intros H.
  specialize (H 0 "fp1" 300000 [CallerA; CallerB; CallerA; CallerB] ∅
                false false eq_refl).
  vm_compute in H. by destruct H.
Qed.

(** C4, amended. [isDuplicate] is a GET followed by a SETEX, and is not
    atomic; run with no other command on the key in between: when the
    fingerprint is absent it returns false (new) and the key is set,
    with a time to live of [max(1, ceil(ttlMs / 1000))] seconds, at
    least one second, no other key being touched; when the fingerprint
    is present it returns true (duplicate) and the store, the time to
    live of the entry included, is unchanged. *)
Theorem isDuplicate_sequential (now : Z) (fingerprint : string) (ttlMs : Z)
    (r : Redis) :
  let key := dedupKey fingerprint in
  let result := isDuplicate now fingerprint ttlMs r in
  (RedisCmd.get now key r = None ->
     result.1 = false
     /\ RedisCmd.get now key result.2 = Some (RString "1")
     /\ RedisCmd.pttl now key result.2 = Some (ttlSec ttlMs * 1000)
     /\ ttlSec ttlMs = Z.max 1 (ceil_seconds ttlMs)
     /\ 1 <= ttlSec ttlMs
     /\ 1000 * (ceil_seconds ttlMs - 1) < ttlMs <= 1000 * ceil_seconds ttlMs
     /\ forall k, k <> key -> result.2 !! k = r !! k)
  /\ (RedisCmd.get now key r <> None ->
      result.1 = true /\ result.2 = r).
Proof.
  intros key result. subst result. unfold isDuplicate. fold key.
  destruct (RedisCmd.get now key r) as [v|] eqn:Hget; simpl.
  - split; [done|]. by intros _.
  - split; [|done]. intros _.
    pose proof (ttlSec_positive ttlMs).
    repeat split; try done.
    + by apply get_setex.
    + by apply pttl_setex.
    + apply ceil_seconds_spec.
    + apply ceil_seconds_spec.
    + intros k Hk. unfold RedisCmd.setex. by rewrite lookup_insert_ne.
Qed.

Lemma isDuplicate_sequential_witness :
  let first := isDuplicate 0 "fp1" 300000 ∅ in
  let second := isDuplicate 1000 "fp1" 300000 first.2 in
  first.1 = false
  /\ RedisCmd.pttl 0 (dedupKey "fp1") first.2 = Some 300000
  /\ second.1 = true /\ second.2 = first.2.
Proof.
  intros first second.
  destruct (isDuplicate_sequential 0 "fp1" 300000 ∅) as [Hnew _].
  destruct (isDuplicate_sequential 1000 "fp1" 300000 first.2) as [_ Hdup].
  destruct (Hnew eq_refl) as (H1 & _ & H3 & _).
  destruct Hdup as [H4 H5]; [by vm_compute|].
  repeat split; done.
Defined.

End DedupFacts.

(* ===================================================================== *)
(** * Frames of the handlers *)
(* ===================================================================== *)

Module Frames.
Import Spec.

Lemma continues_refl allowed k w : continues allowed k w w.
Proof.
  split; [|done]. exists []. split; [by rewrite app_nil_r | constructor].
Qed.

Lemma continues_trans allowed k w1 w2 w3 :
  continues allowed k w1 w2 -> continues allowed k w2 w3 ->
  continues allowed k w1 w3.
Proof.
  intros [(a1 & E1 & F1) R1] [(a2 & E2 & F2) R2]. split; [|auto].
  exists (a1 ++ a2)%list. split.
  - by rewrite E2, E1, <- app_assoc.
  - by apply Forall_app.
Qed.

Lemma keeps_ret {A} allowed k (a : A) : keeps allowed k (ret a).
Proof. intros w. apply continues_refl. Qed.

Lemma keeps_bind {A B} allowed k (m : M A) (f : A -> M B) :
  keeps allowed k m -> (forall a, keeps allowed k (f a)) ->
  keeps allowed k (bind m f).
Proof.
  intros Hm Hf w. unfold bind. specialize (Hm w).
  destruct (m w) as [a w1]. eapply continues_trans; [exact Hm | apply Hf].
Qed.

Lemma keeps_call (allowed : Call -> Prop) k c :
  allowed c -> keeps allowed k (call c).
Proof.
  intros Hc w. split; [|done]. exists [c]. split; [done|]. by constructor.
Qed.

Lemma keeps_when allowed k b (m : M unit) :
  keeps allowed k m -> keeps allowed k (when b m).
Proof. intros Hm. destruct b; [done | apply keeps_ret]. Qed.

(** A Redis command that leaves the key [k] absent. *)
Lemma keeps_on_redis {A} allowed k (f : Redis -> A * Redis) :
  (forall r, r !! k = None -> (f r).2 !! k = None) ->
  keeps allowed k (on_redis f).
Proof.
  intros Hf w. unfold on_redis. specialize (Hf (redis w)).
  destruct (f (redis w)) as [a r']. split; [|done].
  exists []. split; [by rewrite app_nil_r | constructor].
Qed.

(** The keys of the dedup store and of the incident store are
    disjoint. *)
Lemma alertKey_not_dedupKey alertId resource fingerprint :
  Store.alertKey alertId resource <> Dedup.dedupKey fingerprint.
Proof. discriminate. Qed.

Lemma dedupKey_inj a b : Dedup.dedupKey a = Dedup.dedupKey b -> a = b.
Proof. unfold Dedup.dedupKey. apply JsFacts.app_inv_head. Qed.

Section Gateway.

Context `{rt : Runtime}.
Variable api : Discord.Api.
Variable config : AlertsConfig.
Variable allowed : Call -> Prop.
Variable fingerprint : string.

(** The calls of the chat mirror are allowed. *)
Hypothesis allowed_chat : forall e, allowed (CallChat e).
Hypothesis allowed_get : forall a r, allowed (CallGetStoredAlert a r).
Hypothesis allowed_set : forall a r d, allowed (CallSetStoredAlert a r d).

Lemma keeps_chat e : keeps allowed (Dedup.dedupKey fingerprint) (Do.chat e).
Proof. by apply keeps_call. Qed.

Lemma keeps_getStoredAlert now a r :
  keeps allowed (Dedup.dedupKey fingerprint) (Do.getStoredAlert now a r).
Proof.
  apply keeps_bind; [by apply keeps_call|]. intros _.
  by apply keeps_on_redis.
Qed.

Lemma keeps_setStoredAlert now a r d :
  keeps allowed (Dedup.dedupKey fingerprint) (Do.setStoredAlert now a r d).
Proof.
  apply keeps_bind; [by apply keeps_call|]. intros _.
  apply keeps_on_redis. intros m Hm. simpl.
  unfold Store.setStoredAlert, RedisCmd.setex.
  rewrite lookup_insert_ne; [done | apply alertKey_not_dedupKey].
Qed.

(** Decompose a handler into its calls. *)
Ltac frame :=
  repeat first
    [ apply keeps_ret
    | apply keeps_chat
    | apply keeps_getStoredAlert
    | apply keeps_setStoredAlert
    | apply keeps_when
    | apply keeps_bind; [|intros ?]
    | match goal with
      | |- keeps _ _ (match ?x with _ => _ end) => destruct x
      end ].

Lemma keeps_ack_reminder now stored target :
  keeps allowed (Dedup.dedupKey fingerprint) (Client.ack_reminder api config now stored target).
Proof. unfold Client.ack_reminder. frame. Qed.

Lemma keeps_send_repeated now payload stored target :
  keeps allowed (Dedup.dedupKey fingerprint) (Client.send_repeated api config now payload stored target).
Proof.
  unfold Client.send_repeated. frame; try apply keeps_ack_reminder.
Qed.

Lemma keeps_post_repeated now payload stored channel :
  keeps allowed (Dedup.dedupKey fingerprint) (Client.post_repeated api config now payload stored channel).
Proof.
  unfold Client.post_repeated. cbv zeta.
  frame; try apply keeps_send_repeated; frame.
Qed.

Lemma keeps_edit_existing now payload stored :
  keeps allowed (Dedup.dedupKey fingerprint) (Client.edit_existing api config now payload stored).
Proof.
  unfold Client.edit_existing.
  frame; try apply keeps_post_repeated; frame.
Qed.

Lemma keeps_create_new now payload :
  keeps allowed (Dedup.dedupKey fingerprint) (Client.create_new api now payload).
Proof. unfold Client.create_new. cbv zeta. frame. Qed.

(** The chat emit writes incident records only: a dedup key that is
    absent stays absent, and the emit calls nothing but the gateway and
    the incident store. *)
Lemma keeps_sendOrUpdateAlert now payload :
  keeps allowed (Dedup.dedupKey fingerprint) (Client.sendOrUpdateAlert api config now payload).
Proof.
  unfold Client.sendOrUpdateAlert.
  frame; try apply keeps_edit_existing; try apply keeps_create_new; frame;
    try apply keeps_create_new.
Qed.

End Gateway.

End Frames.

(* ===================================================================== *)
(** * The processor (services/processor.ts) *)
(* ===================================================================== *)

Module ProcessorFacts.
Import Processor Spec Frames.

Section Pipeline.

Context `{rt : Runtime}.
Variable api : Discord.Api.
Variable config : AlertsConfig.
Variable database : bool.

Lemma keeps_inc k name :
  name <> "dedup_suppressed_total" -> keeps delivering k (Do.inc name).
Proof. intros Hn. apply keeps_call. split; [done | congruence]. Qed.

Lemma keeps_deleteStoredAlert k a r :
  keeps delivering k (Do.deleteStoredAlert a r).
Proof.
  apply keeps_bind; [by apply keeps_call|]. intros _.
  apply keeps_on_redis. intros m Hm. simpl.
  unfold Store.deleteStoredAlert, RedisCmd.del.
  by apply lookup_delete_None; right.
Qed.

Lemma keeps_expire_stored fingerprint now payload :
  keeps delivering (Dedup.dedupKey fingerprint) (expire_stored now payload).
Proof.
  unfold expire_stored.
  apply keeps_bind; [by apply keeps_getStoredAlert|]. intros stored.
  apply keeps_bind; [|intros _];
    apply keeps_when, keeps_deleteStoredAlert.
Qed.

(** What follows the call of the chat emit. *)
Lemma keeps_after_emit fingerprint now payload :
  keeps delivering (Dedup.dedupKey fingerprint)
    (let* sent := Client.sendOrUpdateAlert api config now payload in
     match sent with
     | Some messageId =>
         Do.inc "alerts_sent_total" ;;
         when database (call (CallInsertAlertEvent payload messageId))
     | None => Do.inc "discord_errors_total"
     end).
Proof.
  apply keeps_bind; [by apply keeps_sendOrUpdateAlert|].
  intros [messageId|]; [|by apply keeps_inc].
  apply keeps_bind; [by apply keeps_inc|]. intros _.
  by apply keeps_when, keeps_call.
Qed.

(** The run of a resolved alert, past the rule lookup and the dedup
    gate. *)
Lemma run_resolved now payload w :
  status payload = Resolved ->
  Config.has_channel (config !! Js.nullish (p_ruleName payload) "default") = true ->
  processOneAlertPayload api config database now payload w
  = (expire_stored now payload ;; emit api config database now payload)
      (mkWorld (delete (Dedup.dedupKey (alertId payload)) (redis w))
               (calls w ++ [CallInc "alerts_received_total";
                            CallClearDedup (alertId payload)])).
Proof.
  intros Hst Hch. unfold processOneAlertPayload. rewrite Hch, Hst. cbn [negb].
  cbv beta iota zeta delta [bind Do.inc Do.clearDedup call on_redis ret redis calls].
  by rewrite <- app_assoc.
Qed.

(** C1. A resolved alert whose rule has a channel is never suppressed
    by deduplication: the processor does not call [isDuplicate] and
    counts no suppression, it calls [clearDedup] on the alert id and,
    after it, [sendOrUpdateAlert] on the payload; when it is done the
    dedup key of the alert id is absent. *)
Theorem resolved_clears_dedup_before_emit
    (now : Z) (payload : AlertApiPayload) (w : World) :
  status payload = Resolved ->
  Config.has_channel (config !! Js.nullish (p_ruleName payload) "default") = true ->
  let w' := (processOneAlertPayload api config database now payload w).2 in
  exists before after,
    calls w' = (calls w ++ before ++ CallClearDedup (alertId payload) :: after)%list
    /\ CallSendOrUpdateAlert payload ∈ after
    /\ (forall p, CallSendOrUpdateAlert p ∉ before)
    /\ (forall fp ttlMs, CallIsDuplicate fp ttlMs ∉ (before ++ after)%list)
    /\ (CallInc "dedup_suppressed_total" ∉ (before ++ after)%list)
    /\ redis w' !! Dedup.dedupKey (alertId payload) = None.
Proof.
  intros Hst Hch w'. subst w'. rewrite (run_resolved now payload w Hst Hch).
  set (key := Dedup.dedupKey (alertId payload)).
  set (w1 := mkWorld _ _).
  assert (exists w2,
            continues delivering key w1 w2
            /\ ((expire_stored now payload ;; emit api config database now payload) w1).2
               = ((let* sent := Client.sendOrUpdateAlert api config now payload in
                   match sent with
                   | Some messageId =>
                       Do.inc "alerts_sent_total" ;;
                       when database (call (CallInsertAlertEvent payload messageId))
                   | None => Do.inc "discord_errors_total"
                   end)
                    (mkWorld (redis w2)
                             (calls w2 ++ [CallSendOrUpdateAlert payload]))).2)
    as (w2 & H1 & ->).
  { pose proof (keeps_expire_stored (alertId payload) now payload w1) as H1.
    unfold bind at 1.
    destruct (expire_stored now payload w1) as [[] w2]. by exists w2. }
  set (w3 := mkWorld (redis w2) _).
  pose proof (keeps_after_emit (alertId payload) now payload w3) as H3.
  cbv beta in H3.
  match type of H3 with
  | continues _ _ _ ?x => set (w4 := x) in *
  end.
  destruct H1 as [(a1 & Ec1 & Fa1) Hr1]. destruct H3 as [(a3 & Ec3 & Fa3) Hr3].
  exists [CallInc "alerts_received_total"],
         (a1 ++ CallSendOrUpdateAlert payload :: a3)%list.
  assert (Hall : Forall delivering (a1 ++ CallSendOrUpdateAlert payload :: a3)).
  { apply Forall_app. split; [done|]. constructor; [|done]. split; [done | congruence]. }
  repeat split.
  - rewrite Ec3. subst w3. cbn [calls]. rewrite Ec1. subst w1. cbn [calls].
    by rewrite <- !app_assoc.
  - apply elem_of_app. right. by left.
  - intros p [?|?%elem_of_nil]%elem_of_cons; done.
  - intros fp ttlMs [?|Hin]%elem_of_cons; [done|].
    rewrite Forall_forall in Hall. by destruct (Hall _ Hin).
  - intros [?|Hin]%elem_of_cons; [done|].
    rewrite Forall_forall in Hall. by destruct (Hall _ Hin) as [_ ?].
  - apply Hr3. subst w3. cbn [redis]. apply Hr1. subst w1. cbn [redis].
    apply lookup_delete_eq.
Qed.

(** ** The lifecycle-expiry check *)

Lemma getStoredAlert_deleted now a r (m : Redis) :
  Store.getStoredAlert now a r (Store.deleteStoredAlert a r m) = None.
Proof.
  unfold Store.getStoredAlert, Store.deleteStoredAlert, RedisCmd.get, RedisCmd.del.
  by rewrite lookup_delete_eq.
Qed.

(** What the check leaves in the store: the prior record is deleted
    exactly when one of the two guards of the code holds. *)
Lemma expire_stored_deletes now payload w :
  let stored :=
    Store.getStoredAlert now (alertId payload) (resource payload) (redis w) in
  Store.getStoredAlert now (alertId payload) (resource payload)
    (redis (expire_stored now payload w).2)
  = if resolved_expired now stored || ack_expired now stored then None
    else stored.
Proof.
  intros stored. unfold expire_stored.
  cbv beta iota zeta delta
    [bind Do.getStoredAlert Do.deleteStoredAlert call on_redis ret when].
  cbn [redis calls]. fold stored.
  destruct (resolved_expired now stored), (ack_expired now stored);
    cbn [orb redis snd]; try apply getStoredAlert_deleted; done.
Qed.

(** On a record that carries [resolvedAt] exactly while it is resolved,
    the guards of the code are the condition of the specification. *)
Lemma guards_as_stated now (st : StoredAlert) :
  (state st = StateResolved -> exists r, resolvedAt st = Some r /\ r <> "") ->
  (state st <> StateResolved -> resolvedAt st = None) ->
  (forall a, acknowledgedAt st = Some a -> a <> "") ->
  resolved_expired now (Some st) || ack_expired now (Some st)
  = expired_as_stated now st.
Proof.
  intros Hres Hnot Hack.
  unfold resolved_expired, ack_expired, resolved_reference, expired_as_stated.
  destruct (state st) eqn:Hs; cbn [state_eqb andb orb].
  - rewrite Hnot by done. done.
  - rewrite Hnot by done. cbn [orb].
    destruct (acknowledgedAt st) as [a|]; [|done].
    by rewrite (proj2 (JsFacts.truthy_true a)) by (by apply Hack).
  - destruct Hres as (r & -> & Hr); [done|].
    rewrite (proj2 (JsFacts.truthy_true r)) by done.
    cbn [andb]. by rewrite orb_false_r.
Qed.

End Pipeline.

Lemma resolved_clears_dedup_before_emit_witness :
  let w := (Fixture.process (Fixture.T0 - Fixture.minutes 10)
              Fixture.firing_payload Fixture.empty_world).2 in
  let w' := (Fixture.process Fixture.T0 Fixture.resolved_payload w).2 in
  is_Some (redis w !! Dedup.dedupKey "fp1")
  /\ redis w' !! Dedup.dedupKey "fp1" = None
  /\ exists before after,
       calls w' = (calls w ++ before ++ CallClearDedup "fp1" :: after)%list
       /\ CallSendOrUpdateAlert Fixture.resolved_payload ∈ after.
Proof.
  intros w w'.
  destruct (resolved_clears_dedup_before_emit (rt := Sample.runtime)
              Fixture.api_ok Fixture.alerts_config false
              Fixture.T0 Fixture.resolved_payload w eq_refl)
    as (before & after & Hc & Hin & _ & _ & _ & Hr).
  { by vm_compute. }
  split; [by vm_compute; eauto|]. split; [exact Hr|].
  exists before, after. by split.
Defined.

(** C3 (code bug). An incident resolved at 11:00 fires again at 11:10;
    the chat mirror writes it back as firing and carries [resolvedAt]
    forward. At 11:31 the check deletes the record although it is
    firing; and when the incident was acknowledged at 11:20, it deletes
    it although it is acknowledged for 11 minutes only. In both runs
    the condition of the specification says to keep the record. *)
Theorem reopened_incident_expires_early :
  let now := Fixture.T0 + Fixture.minutes 31 in
  let check w :=
    redis (expire_stored (rt := Sample.runtime) now Fixture.firing_payload w).2 in
  (Store.getStoredAlert now "fp1" None (redis Fixture.reopened)
   = Some Fixture.record_reopened
   /\ expired_as_stated (H := Sample.runtime) now Fixture.record_reopened = false
   /\ Store.getStoredAlert now "fp1" None (check Fixture.reopened) = None)
  /\
  (Store.getStoredAlert now "fp1" None (redis Fixture.reopened_and_acknowledged)
   = Some Fixture.record_acknowledged
   /\ expired_as_stated (H := Sample.runtime) now Fixture.record_acknowledged = false
   /\ Store.getStoredAlert now "fp1" None (check Fixture.reopened_and_acknowledged)
      = None).
Proof. by vm_compute. Qed.

End ProcessorFacts.

(* ===================================================================== *)
(** * The button handlers and the escalation loop (discord/client.ts) *)
(* ===================================================================== *)

Module ClientFacts.
Import Client Spec Frames.

(** ** Reading an incident back from a custom id or a key *)

Lemma split_button_id prefix alertId resource :
  colon_free prefix -> colon_free alertId -> colon_free_resource resource ->
  Js.split ":" (button_id prefix alertId resource)
  = [prefix; alertId; Js.nullish resource ""].
Proof.
  intros Hp Ha Hr. unfold button_id.
  change (":" ++ alertId ++ ":" ++ Js.nullish resource "")
    with (String ":" (alertId ++ String ":" (Js.nullish resource ""))).
  rewrite !JsFacts.split_cons by done.
  rewrite JsFacts.split_colon_free; [done|]. by destruct resource.
Qed.

Lemma split_alertKey alertId resource :
  colon_free alertId -> colon_free_resource resource ->
  Js.split ":" (Store.alertKey alertId resource)
  = ["alert"; alertId; Js.nullish resource "default"].
Proof.
  intros Ha Hr. unfold Store.alertKey.
  change ("alert:" ++ alertId ++ ":" ++ Js.nullish resource "default")
    with ("alert" ++ String ":" (alertId ++ String ":" (Js.nullish resource "default"))).
  rewrite !JsFacts.split_cons by done.
  rewrite JsFacts.split_colon_free; [done|]. by destruct resource.
Qed.

Lemma plain_resource_colon_free resource :
  plain_resource resource -> colon_free_resource resource.
Proof. destruct resource; [by intros [? _] | done]. Qed.

Lemma button_resource_plain prefix alertId resource :
  plain_resource resource ->
  button_resource [prefix; alertId; Js.nullish resource ""] = resource.
Proof.
  destruct resource as [r|]; [|done]. intros [_ Hr]. unfold button_resource.
  simpl. by destruct r.
Qed.

(** The key of the resource read back is the key of the resource. *)
Lemma alertKey_parsed alertId resource :
  Store.alertKey alertId (parsed_resource resource)
  = Store.alertKey alertId resource.
Proof.
  unfold parsed_resource, Store.alertKey.
  destruct (String.eqb_spec (Js.nullish resource "default") "default") as [E|];
    [|done].
  simpl. by rewrite E.
Qed.

Lemma getStoredAlert_setStoredAlert now a r d (m : Redis) :
  Store.getStoredAlert now a r (Store.setStoredAlert now a r d m) = Some d.
Proof.
  unfold Store.getStoredAlert, Store.setStoredAlert.
  by rewrite DedupFacts.get_setex.
Qed.

Section Handlers.

Context `{rt : Runtime}.
Variable api : Discord.Api.
Variable config : AlertsConfig.
Variable database : bool.
Variable guides : string -> option string.

(** ** The Acknowledge button *)



End Handlers.



(** ** The escalation loop *)

Lemma parsed_resource_of_part resource :
  (if String.eqb (Js.nullish resource "default") "default" then None
   else Some (Js.nullish resource "default"))
  = parsed_resource resource.
Proof.
  unfold parsed_resource.
  destruct (String.eqb_spec (Js.nullish resource "default") "default");
    [done|]. by destruct resource.
Qed.

Lemma getStoredAlert_parsed now alertId resource (m : Redis) :
  Store.getStoredAlert now alertId (parsed_resource resource) m
  = Store.getStoredAlert now alertId resource m.
Proof. unfold Store.getStoredAlert. by rewrite alertKey_parsed. Qed.




Lemma with_mentionLevel_twice stored a b :
  with_mentionLevel (with_mentionLevel stored a) b = with_mentionLevel stored b.
Proof. done. Qed.

Section Escalation.

Context `{rt : Runtime}.
Variable api : Discord.Api.
Variable config : AlertsConfig.

Lemma escalating_with_mentionLevel stored users t0 n :
  escalating config stored users t0 ->
  escalating config (with_mentionLevel stored n) users t0.
Proof. done. Qed.

Lemma reachable_with_mentionLevel stored n :
  reachable api stored -> reachable api (with_mentionLevel stored n).
Proof. done. Qed.


(** The run of the loop body on the key of a record that is not yet
    due: the record is read and nothing else happens. *)
Lemma escalate_key_early now alertId resource stored users t0 w :
  colon_free alertId -> colon_free_resource resource ->
  Store.getStoredAlert now alertId resource (redis w) = Some stored ->
  escalating config stored users t0 ->
  now - t0 < (Js.nullish (mentionLevel stored) 0 + 1) * MENTION_ESCALATION_STEP_MS ->
  escalate_key api config now (Store.alertKey alertId resource) w
  = (tt,
     mkWorld (redis w)
             (calls w ++ [CallGetStoredAlert alertId (parsed_resource resource)])).
Proof.
  intros Ha Hr Hs (Hst & Hsev & Hm & Ht) Hearly.
  unfold escalate_key. rewrite split_alertKey by done.
  change (length ["alert"; alertId; Js.nullish resource "default"] <? 3)%nat
    with false.
  change (part ["alert"; alertId; Js.nullish resource "default"] 1) with alertId.
  change (part ["alert"; alertId; Js.nullish resource "default"] 2)
    with (Js.nullish resource "default").
  rewrite parsed_resource_of_part.
  cbv beta iota zeta delta [bind Do.getStoredAlert call on_redis].
  cbn [redis calls]. rewrite getStoredAlert_parsed, Hs, Hst, Hsev.
  change (negb ("critical" =? "critical")%string) with false. cbv iota.
  unfold escalate_record. rewrite Hm.
  destruct users as [|u0 users']; [done|].
  destruct (Z.of_nat (length (u0 :: users')) <=? _); [done|].
  unfold too_early. rewrite Ht. by rewrite (proj2 (Z.ltb_lt _ _)) by done.
Qed.







End Escalation.



(** A record stored under a resource with a colon is not read back:
    the loop and the Acknowledge button cut the key, respectively the
    custom id, at every colon and look for the alert on [host]. *)
Lemma colon_in_resource_not_read_back :
  let now := Fixture.T0 - Fixture.minutes 5 in
  Store.getStoredAlert now "fp1" (Some "host:9100") (redis Fixture.fired_on_host)
  = Some Fixture.record_on_host
  /\ (escalate_key (rt := Sample.runtime) Fixture.api_ok Fixture.alerts_config
        now (Store.alertKey "fp1" (Some "host:9100")) Fixture.fired_on_host).2
     = mkWorld (redis Fixture.fired_on_host)
               (calls Fixture.fired_on_host
                ++ [CallGetStoredAlert "fp1" (Some "host")])
  /\ (Fixture.press now
        (mkInteraction (button_id ACK_BUTTON_CUSTOM_ID "fp1" (Some "host:9100"))
                       "u9" [Fixture.alert_embed])
        Fixture.fired_on_host).2
     = mkWorld (redis Fixture.fired_on_host)
               (calls Fixture.fired_on_host
                ++ [ CallGetStoredAlert "fp1" (Some "host");
                     CallChat (Discord.InteractionReply "Alert state not found.") ]).
Proof. by vm_compute. Qed.

End ClientFacts.

(* ===================================================================== *)
(** * The repository's unit tests, on the model *)
(* ===================================================================== *)

Module RepositoryTests.

Import Fixture.

(** ** tests/discord/interaction-embeds.test.ts *)

Example resolve_base_fields :
  Embed.buildResolvedFields base_fields "user-42" "2024-01-15T11:30:45Z"
  = [ Embed.mkResolvedField "Started" "2024-01-15T10:00:00Z" true;
      Embed.mkResolvedField "severity" "critical" true;
      Embed.mkResolvedField "Status" "resolved" true;
      Embed.mkResolvedField "Resolved by" "<@user-42>" true;
      Embed.mkResolvedField "Resolved at" "2024-01-15 11:30:45" true ].
Proof. reflexivity. Qed.

Example resolve_replaces_resolved_by :
  Embed.count_name "Resolved by"
    (Embed.buildResolvedFields
       (base_fields ++ [Embed.mkEmbedField "Resolved by" "<@old>" (Embed.InlineBool true)])
       "user-2" "2024-01-15T11:00:00Z") = 1%nat.
Proof. reflexivity. Qed.

Example resolve_null_inline :
  Embed.buildResolvedFields with_null "user-1" "2024-01-15T11:00:00Z"
  = [ Embed.mkResolvedField "env" "prod" true;
      Embed.mkResolvedField "Status" "resolved" true;
      Embed.mkResolvedField "Resolved by" "<@user-1>" true;
      Embed.mkResolvedField "Resolved at" "2024-01-15 11:00:00" true ].
Proof. reflexivity. Qed.

Example acknowledge_base_fields :
  Embed.buildAcknowledgedFields base_fields "user-99"
  = [ Embed.mkResolvedField "Started" "2024-01-15T10:00:00Z" true;
      Embed.mkResolvedField "severity" "critical" true;
      Embed.mkResolvedField "Status" "acknowledged" true;
      Embed.mkResolvedField "Acknowledged by" "<@user-99>" true ].
Proof. reflexivity. Qed.

Example acknowledge_replaces_acknowledged_by :
  Embed.count_name "Acknowledged by"
    (Embed.buildAcknowledgedFields
       (base_fields ++ [Embed.mkEmbedField "Acknowledged by" "<@old>" (Embed.InlineBool true)])
       "user-2") = 1%nat.
Proof. reflexivity. Qed.

(** ** tests/services/sns-processor.test.ts *)

Example event_name_from_Subject :
  Sns.deriveEventName (rt := Sample.runtime) envelope_health = "AWS_Health_Event".
Proof. reflexivity. Qed.

Example event_name_from_event_type :
  Sns.deriveEventName (rt := Sample.runtime) envelope_event_type = "CloudWatch-Alarm".
Proof. reflexivity. Qed.

Example event_name_from_detail_type :
  Sns.deriveEventName (rt := Sample.runtime) envelope_detail_type = "EC2_State_Change".
Proof. reflexivity. Qed.

Example event_name_default :
  Sns.deriveEventName (rt := Sample.runtime) envelope_text = "sns".
Proof. reflexivity. Qed.

Example no_payload_without_rule :
  Sns.snsEnvelopeToAlertPayload (rt := Sample.runtime) ∅ T0 envelope_unknown = Sns.NoConfig.
Proof. reflexivity. Qed.

Example payload_from_rule :
  Sns.snsEnvelopeToAlertPayload (rt := Sample.runtime) test_config T0 envelope_body
  = Sns.Payload
      (mkPayload "mid" None "Alert: sns" (Some "alert body") Firing
         (Some Warning) None "2026-02-11T12:00:00Z" None None
         "123" (Some "sns") None (Some "sns")).
Proof. by vm_compute. Qed.

(** ** tests/services/processor.test.ts, the lifecycle cases *)

Example resolved_31_minutes_ago :
  let w := (process T0 firing_payload
              (holding (resolved_since (T0 - minutes 31)))).2 in
  deletes w = true /\ sends w = true.
Proof. by vm_compute. Qed.

Example resolved_10_minutes_ago :
  let w := (process T0 firing_payload
              (holding (resolved_since (T0 - minutes 10)))).2 in
  deletes w = false /\ sends w = true.
Proof. by vm_compute. Qed.

Example acknowledged_91_minutes_ago :
  let w := (process T0 firing_payload
              (holding (acknowledged_since (T0 - minutes 91)))).2 in
  deletes w = true /\ sends w = true.
Proof. by vm_compute. Qed.

Example acknowledged_30_minutes_ago :
  let w := (process T0 firing_payload
              (holding (acknowledged_since (T0 - minutes 30)))).2 in
  deletes w = false /\ sends w = true.
Proof. by vm_compute. Qed.

(** ** The sample runtime *)

(** Each document of the table is the text [JSON.stringify] gives for
    its value. *)
Example documents_are_stringified :
  forallb (fun d => String.eqb (Sample.stringify d.2) d.1) Sample.documents
  = true.
Proof. reflexivity. Qed.

Example stringify_nested :
  Sample.stringify
    (JObj [ ("a", JNum 1); ("u", JUndefined);
            ("b", JArr [JStr "x y"; JNull; JUndefined; JNum (-3)]);
            ("c", JObj []) ])
  = "{" ++ Sample.quoted "a" ++ ":1," ++ Sample.quoted "b" ++ ":["
    ++ Sample.quoted "x y" ++ ",null,null,-3]," ++ Sample.quoted "c" ++ ":{}}".
Proof. reflexivity. Qed.

Example toString_array :
  Sample.toString (JArr [JNum 1; JNull; JArr [JStr "a"; JStr "b"]; JObj []])
  = "1,,a,b,[object Object]".
Proof. reflexivity. Qed.

Example getTime_round_trip :
  Sample.getTime (Sample.toISOString T0) = Some T0
  /\ Sample.toISOString T0 = "2024-01-15T11:00:00.000Z".
Proof. by vm_compute. Qed.

End RepositoryTests.

Module StoreFacts.
Import Spec.

Lemma colon_split a a' x x' :
  colon_free a -> colon_free a' ->
  a ++ String ":" x = a' ++ String ":" x' -> a = a' /\ x = x'.
Proof.
  unfold colon_free. revert a'.
  induction a as [|c a IH]; intros [|c' a'] Ha Ha'; rewrite ?JsFacts.append_nil, ?JsFacts.append_cons; intros E.
  - by inversion E.
  - inversion E; subst. by simpl in Ha'.
  - inversion E; subst. by simpl in Ha.
  - inversion E; subst. simpl in Ha, Ha'.
    apply orb_false_iff in Ha as [_ Ha]. apply orb_false_iff in Ha' as [_ Ha'].
    destruct (IH a' Ha Ha' H1) as [-> ->]. done.
Qed.

(** X1. The key of an incident record names one incident: for alert ids
    without a colon, two keys are equal exactly when the alert ids are
    equal and the resources are, an absent resource counting as the
    resource [default]. *)
Theorem alertKey_injective (a a' : string) (r r' : option string) :
  colon_free a -> colon_free a' ->
  (Store.alertKey a r = Store.alertKey a' r'
   <-> a = a' /\ Js.nullish r "default" = Js.nullish r' "default").
Proof.
  intros Ha Ha'. unfold Store.alertKey. split.
  - intros E. apply JsFacts.app_inv_head in E.
    change (":" ++ ?x) with (String ":" x) in E.
    by apply colon_split.
  - by intros [-> ->].
Qed.

Lemma alertKey_injective_witness :
  (Store.alertKey "fp1" (Some "db-1") = Store.alertKey "fp1" (Some "db-1")
   <-> "fp1" = "fp1" /\ "db-1" = "db-1")
  /\ Store.alertKey "fp1" None = Store.alertKey "fp1" (Some "default").
Proof.
  split; [|reflexivity].
  exact (alertKey_injective "fp1" "fp1" (Some "db-1") (Some "db-1") eq_refl eq_refl).
Defined.

(** X2. The incident store is a map with expiry: a record written is read
    back as written until seven days after the write and is absent
    from then on; a deleted record is absent; writing or deleting one
    record leaves every record under another key as it reads. *)
Theorem stored_record_lifetime (now now' : Z) (a : string) (r : option string)
    (d : StoredAlert) (m : Redis) :
  Store.getStoredAlert now' a r (Store.setStoredAlert now a r d m)
  = (if now' <? now + 7 * 24 * 60 * 60 * 1000 then Some d else None)
  /\ Store.getStoredAlert now' a r (Store.deleteStoredAlert a r m) = None
  /\ forall a' r',
       Store.alertKey a' r' <> Store.alertKey a r ->
       Store.getStoredAlert now' a' r' (Store.setStoredAlert now a r d m)
       = Store.getStoredAlert now' a' r' m
       /\ Store.getStoredAlert now' a' r' (Store.deleteStoredAlert a r m)
          = Store.getStoredAlert now' a' r' m.
Proof.
  unfold Store.getStoredAlert, Store.setStoredAlert, Store.deleteStoredAlert,
    RedisCmd.get, RedisCmd.setex, RedisCmd.del, Store.TTL_SEC.
  repeat split.
  - rewrite lookup_insert_eq.
    replace (now + 60 * 60 * 24 * 7 * 1000) with (now + 7 * 24 * 60 * 60 * 1000) by lia.
    by destruct (now' <? _).
  - by rewrite lookup_delete_eq.
  - by rewrite lookup_insert_ne.
  - by rewrite lookup_delete_ne.
Qed.

Lemma stored_record_lifetime_witness :
  Store.getStoredAlert (Fixture.T0 + 1) "fp2" None
    (Store.setStoredAlert Fixture.T0 "fp1" None Fixture.record_fired ∅)
  = Store.getStoredAlert (Fixture.T0 + 1) "fp2" None ∅.
Proof.
  exact (proj1 (proj2 (proj2 (stored_record_lifetime Fixture.T0 (Fixture.T0 + 1)
                  "fp1" None Fixture.record_fired ∅)) "fp2" None ltac:(discriminate))).
Defined.

End StoreFacts.

Module DedupWindow.
Import Dedup.

Lemma isDuplicate_answer now fp ttl (r : Redis) :
  (isDuplicate now fp ttl r).1 = bool_decide (is_Some (RedisCmd.get now (dedupKey fp) r)).
Proof.
  unfold isDuplicate. destruct (RedisCmd.get now (dedupKey fp) r) eqn:E;
    cbn [fst]; symmetry.
  - apply bool_decide_eq_true_2. by eexists.
  - apply bool_decide_eq_false_2. by intros [? ?].
Qed.

Lemma get_setex_later now now' k sec v (r : Redis) :
  RedisCmd.get now' k (RedisCmd.setex now k sec v r)
  = if now' <? now + sec * 1000 then Some v else None.
Proof. unfold RedisCmd.get, RedisCmd.setex. by rewrite lookup_insert_eq. Qed.

(** X3. The suppress window in time. After [setDedupTtl], or after an
    [isDuplicate] that found the fingerprint absent, a later
    [isDuplicate] on the fingerprint answers "duplicate" exactly until
    the window, rounded up to whole seconds, has passed. The rounded
    window covers the configured one and exceeds it by less than a
    second; a window of zero or less still suppresses for one second. *)
Theorem dedup_window (now now' : Z) (fp : string) (ttlMs ttl' : Z) (r : Redis) :
  let window := 1000 * ttlSec ttlMs in
  ((isDuplicate now' fp ttl' (setDedupTtl now fp ttlMs r)).1 = true
   <-> now' < now + window)
  /\ (RedisCmd.get now (dedupKey fp) r = None ->
      ((isDuplicate now' fp ttl' (isDuplicate now fp ttlMs r).2).1 = true
       <-> now' < now + window))
  /\ (0 < ttlMs -> ttlMs <= window < ttlMs + 1000)
  /\ (ttlMs <= 0 -> window = 1000).
Proof.
  intros window. subst window.
  pose proof (DedupFacts.ceil_seconds_spec ttlMs) as Hc.
  assert (Hset : forall r0,
    (isDuplicate now' fp ttl' (RedisCmd.setex now (dedupKey fp) (ttlSec ttlMs) (RString "1") r0)).1 = true
    <-> now' < now + 1000 * ttlSec ttlMs).
  { intros r0. rewrite isDuplicate_answer, get_setex_later, bool_decide_eq_true.
    destruct (Z.ltb_spec now' (now + ttlSec ttlMs * 1000)); split; try lia.
    - by eexists.
    - by intros [? ?]. }
  split; [apply Hset|].
  split; [intros Hg; unfold isDuplicate at 2; rewrite Hg; apply Hset|].
  split; unfold ttlSec; lia.
Qed.

Lemma dedup_window_witness :
  ((isDuplicate 299999 "fp1" 1 (isDuplicate 0 "fp1" 299001 ∅).2).1 = true
   <-> 299999 < 0 + 1000 * ttlSec 299001)
  /\ 299001 <= 1000 * ttlSec 299001 < 299001 + 1000
  /\ 1000 * ttlSec 0 = 1000.
Proof.
  destruct (dedup_window 0 299999 "fp1" 299001 1 ∅) as (_ & H2 & H3 & _).
  destruct (dedup_window 0 0 "fp1" 0 1 ∅) as (_ & _ & _ & H4).
  split; [exact (H2 eq_refl)|]. split; [apply H3; lia | apply H4; lia].
Defined.

(** X4. [clearDedup] reopens the gate for its fingerprint, whatever the
    state of the key and at any instant: the next [isDuplicate] answers
    "new". None of the three operations on a fingerprint changes what
    [isDuplicate] answers for another one. *)
Theorem clearDedup_reopens (now now' : Z) (fp : string) (ttlMs ttl' : Z) (r : Redis) :
  (isDuplicate now fp ttlMs (clearDedup fp r)).1 = false
  /\ forall fp', fp' <> fp ->
       (isDuplicate now' fp' ttl' (clearDedup fp r)).1 = (isDuplicate now' fp' ttl' r).1
       /\ (isDuplicate now' fp' ttl' (setDedupTtl now fp ttlMs r)).1
          = (isDuplicate now' fp' ttl' r).1
       /\ (isDuplicate now' fp' ttl' (isDuplicate now fp ttlMs r).2).1
          = (isDuplicate now' fp' ttl' r).1.
Proof.
  split.
  - rewrite isDuplicate_answer. apply bool_decide_eq_false.
    unfold clearDedup, RedisCmd.del, RedisCmd.get. rewrite lookup_delete_eq.
    by intros [? ?].
  - intros fp' Hne.
    assert (Hk : dedupKey fp <> dedupKey fp').
    { intros E. apply Hne. symmetry. by apply Frames.dedupKey_inj. }
    rewrite !isDuplicate_answer. repeat split.
    + unfold clearDedup, RedisCmd.del, RedisCmd.get. by rewrite lookup_delete_ne.
    + unfold setDedupTtl. by rewrite DedupFacts.get_setex_ne.
    + unfold isDuplicate. destruct (RedisCmd.get now (dedupKey fp) r); [done|].
      simpl. by rewrite DedupFacts.get_setex_ne.
Qed.

Lemma clearDedup_reopens_witness :
  (isDuplicate 5 "fp2" 1000 (clearDedup "fp1" (setDedupTtl 0 "fp2" 60000 ∅))).1 = true.
Proof.
  destruct (clearDedup_reopens 0 5 "fp1" 1000 1000 (setDedupTtl 0 "fp2" 60000 ∅)) as [_ H].
  destruct (H "fp2" ltac:(discriminate)) as [-> _]. reflexivity.
Defined.

End DedupWindow.

Module Confinement.
Import Notions.

Lemma confined_refl allowed touched w : confined allowed touched w w.
Proof. split; [|done]. exists []. by rewrite app_nil_r. Qed.

Lemma confined_trans allowed touched w1 w2 w3 :
  confined allowed touched w1 w2 -> confined allowed touched w2 w3 ->
  confined allowed touched w1 w3.
Proof.
  intros [(a1 & E1 & F1) R1] [(a2 & E2 & F2) R2]. split.
  - exists (a1 ++ a2)%list. split; [by rewrite E2, E1, <- app_assoc|].
    by apply Forall_app.
  - intros k Hk. by rewrite R2, R1.
Qed.

Lemma confined_weaken (allowed allowed' : Call -> Prop)
    (touched touched' : string -> Prop) w w' :
  (forall c, allowed c -> allowed' c) -> (forall k, touched k -> touched' k) ->
  confined allowed touched w w' -> confined allowed' touched' w w'.
Proof.
  intros Ha Ht [(a & E & F) R]. split.
  - exists a. split; [done|]. eapply Forall_impl; eauto.
  - intros k Hk. apply R. auto.
Qed.

Lemma confines_weaken {A} (allowed allowed' : Call -> Prop)
    (touched touched' : string -> Prop) (m : M A) :
  (forall c, allowed c -> allowed' c) -> (forall k, touched k -> touched' k) ->
  confines allowed touched m -> confines allowed' touched' m.
Proof. intros Ha Ht Hm w. eapply confined_weaken; eauto. Qed.

Lemma confines_ret {A} allowed touched (a : A) : confines allowed touched (ret a).
Proof. intros w. apply confined_refl. Qed.

Lemma confines_bind {A B} allowed touched (m : M A) (f : A -> M B) :
  confines allowed touched m -> (forall a, confines allowed touched (f a)) ->
  confines allowed touched (bind m f).
Proof.
  intros Hm Hf w. unfold bind. specialize (Hm w).
  destruct (m w) as [a w1]. eapply confined_trans; [exact Hm | apply Hf].
Qed.

Lemma confines_call (allowed : Call -> Prop) touched c :
  allowed c -> confines allowed touched (call c).
Proof.
  intros Hc w. split; [|done]. exists [c]. split; [done|]. by constructor.
Qed.

Lemma confines_when allowed touched b (m : M unit) :
  confines allowed touched m -> confines allowed touched (when b m).
Proof. intros Hm. destruct b; [done | apply confines_ret]. Qed.

Lemma confines_on_redis {A} allowed (touched : string -> Prop)
    (f : Redis -> A * Redis) :
  (forall r k, ~ touched k -> (f r).2 !! k = r !! k) ->
  confines allowed touched (on_redis f).
Proof.
  intros Hf w. unfold on_redis. specialize (Hf (redis w)).
  destruct (f (redis w)) as [a r']. split; [|done].
  exists []. by rewrite app_nil_r.
Qed.

Lemma confines_for_each {A} allowed touched (f : A -> M unit) l :
  (forall a, confines allowed touched (f a)) ->
  confines allowed touched (Client.for_each f l).
Proof.
  intros Hf. induction l as [|a l IH]; [apply confines_ret|].
  simpl. apply confines_bind; [apply Hf | by intros _].
Qed.

(** A run that touches no key leaves the store as it is. *)
Lemma confined_nowhere allowed w w' :
  confined allowed nowhere w w' -> redis w' = redis w.
Proof. intros [_ R]. apply map_eq. intros k. apply R. by intros []. Qed.

Section Collaborators.

Variable allowed : Call -> Prop.
Variable touched : string -> Prop.

Lemma confines_getStoredAlert now a r :
  allowed (CallGetStoredAlert a r) ->
  confines allowed touched (Do.getStoredAlert now a r).
Proof.
  intros Ha. apply confines_bind; [by apply confines_call|]. intros _.
  by apply confines_on_redis.
Qed.

Lemma confines_setStoredAlert now a r d :
  allowed (CallSetStoredAlert a r d) -> touched (Store.alertKey a r) ->
  confines allowed touched (Do.setStoredAlert now a r d).
Proof.
  intros Ha Ht. apply confines_bind; [by apply confines_call|]. intros _.
  apply confines_on_redis. intros m k Hk. simpl.
  unfold Store.setStoredAlert, RedisCmd.setex.
  apply lookup_insert_ne. by intros <-.
Qed.

Lemma confines_deleteStoredAlert a r :
  allowed (CallDeleteStoredAlert a r) -> touched (Store.alertKey a r) ->
  confines allowed touched (Do.deleteStoredAlert a r).
Proof.
  intros Ha Ht. apply confines_bind; [by apply confines_call|]. intros _.
  apply confines_on_redis. intros m k Hk. simpl.
  unfold Store.deleteStoredAlert, RedisCmd.del.
  apply lookup_delete_ne. by intros <-.
Qed.

Lemma confines_clearDedup fp :
  allowed (CallClearDedup fp) -> touched (Dedup.dedupKey fp) ->
  confines allowed touched (Do.clearDedup fp).
Proof.
  intros Ha Ht. apply confines_bind; [by apply confines_call|]. intros _.
  apply confines_on_redis. intros m k Hk. simpl.
  unfold Dedup.clearDedup, RedisCmd.del.
  apply lookup_delete_ne. by intros <-.
Qed.

Lemma confines_setDedupTtl now fp ttl :
  allowed (CallSetDedupTtl fp ttl) -> touched (Dedup.dedupKey fp) ->
  confines allowed touched (Do.setDedupTtl now fp ttl).
Proof.
  intros Ha Ht. apply confines_bind; [by apply confines_call|]. intros _.
  apply confines_on_redis. intros m k Hk. simpl.
  unfold Dedup.setDedupTtl, RedisCmd.setex.
  apply lookup_insert_ne. by intros <-.
Qed.

Lemma confines_isDuplicate now fp ttl :
  allowed (CallIsDuplicate fp ttl) -> touched (Dedup.dedupKey fp) ->
  confines allowed touched (Do.isDuplicate now fp ttl).
Proof.
  intros Ha Ht. apply confines_bind; [by apply confines_call|]. intros _.
  apply confines_on_redis. intros m k Hk.
  unfold Dedup.isDuplicate.
  destruct (RedisCmd.get now (Dedup.dedupKey fp) m); [done|]. simpl.
  unfold RedisCmd.setex. apply lookup_insert_ne. by intros <-.
Qed.

End Collaborators.

Section Gateway.

Context `{rt : Runtime}.
Variable api : Discord.Api.
Variable config : AlertsConfig.
Variable allowed : Call -> Prop.
Variable touched : string -> Prop.
Hypothesis allowed_chat : forall e, allowed (CallChat e).

Lemma confines_chat e : confines allowed touched (Do.chat e).
Proof. by apply confines_call. Qed.

Ltac confine :=
  repeat first
    [ apply confines_ret
    | apply confines_chat
    | apply confines_when
    | apply confines_bind; [|intros ?]
    | match goal with
      | |- confines _ _ (match ?x with _ => _ end) => destruct x
      | |- confines _ _ (if ?x then _ else _) => destruct x
      end ].

Lemma confines_ack_reminder now stored target :
  confines allowed touched (Client.ack_reminder api config now stored target).
Proof. unfold Client.ack_reminder. confine. Qed.

Lemma confines_send_repeated now payload stored target :
  confines allowed touched (Client.send_repeated api config now payload stored target).
Proof. unfold Client.send_repeated. confine; try apply confines_ack_reminder. Qed.

Lemma confines_post_repeated now payload stored channel :
  confines allowed touched (Client.post_repeated api config now payload stored channel).
Proof.
  unfold Client.post_repeated. cbv zeta.
  confine; try apply confines_send_repeated; confine.
Qed.

Lemma confines_send_from target n texts :
  confines allowed touched (Client.send_from api target n texts).
Proof.
  revert n. induction texts as [|t texts IH]; intros n; simpl; confine.
  apply IH.
Qed.

Lemma confines_send_all target texts :
  confines allowed touched (Client.send_all api target texts).
Proof. apply confines_send_from. Qed.

End Gateway.

Section Emit.

Context `{rt : Runtime}.
Variable api : Discord.Api.
Variable config : AlertsConfig.

(** The edit path and the notices it posts are gateway traffic only
    until the record is written. *)
Lemma post_repeated_store now payload stored channel w :
  redis (Client.post_repeated api config now payload stored channel w).2 = redis w.
Proof.
  eapply (confined_nowhere (fun _ => True)).
  by apply confines_post_repeated.
Qed.

Lemma edit_existing_outcome now payload stored w :
  let run := Client.edit_existing api config now payload stored w in
  match run.1 with
  | None => run.2 = w
  | Some id =>
      id = messageId stored
      /\ exists thread,
           redis run.2
           = Store.setStoredAlert now (alertId payload) (resource payload)
               (Client.updated_record now payload stored thread) (redis w)
  end.
Proof.
  unfold Client.edit_existing.
  destruct (Discord.usable _) as [channel|]; [|done].
  destruct (Discord.messages_fetch _ _ _); [|done].
  destruct (Discord.message_edit _ _); [|done].
  cbn [negb].
  cbv beta iota zeta delta [bind Do.chat Do.setStoredAlert call on_redis ret].
  cbn [redis calls].
  destruct (status payload).
  - pose proof (post_repeated_store now payload stored channel
                  (mkWorld (redis w)
                     (calls w ++ [CallChat (Discord.MessageEdited (p_channelId payload)
                        (messageId stored) payload (Client.components payload))]))) as Hr.
    destruct (Client.post_repeated _ _ _ _ _ _ _) as [thread w1].
    cbn [fst snd redis] in *. split; [done|]. exists thread. by rewrite Hr.
  - cbn [fst snd redis]. split; [done|]. by eexists.
  - cbn [fst snd redis]. split; [done|]. by eexists.
Qed.

Lemma create_new_outcome now payload w :
  let run := Client.create_new api now payload w in
  match run.1 with
  | None => redis run.2 = redis w
  | Some id =>
      exists thread,
        redis run.2
        = Store.setStoredAlert now (alertId payload) (resource payload)
            (Client.fresh_record now payload id thread) (redis w)
  end.
Proof.
  unfold Client.create_new.
  destruct (Discord.usable _) as [channel|]; [|done].
  destruct (Discord.channel_send _ _) as [message|]; [|done].
  cbv beta iota zeta delta [bind Do.chat Do.setStoredAlert call on_redis ret].
  cbn [redis calls].
  destruct (Discord.isThread channel || negb (Discord.hasThreads channel)).
  - cbn [fst snd redis]. by eexists.
  - destruct (Discord.message_startThread api message) as [thread|];
      cbn [fst snd redis]; [by eexists | done].
Qed.

Lemma getStoredAlert_written now a r d (m : Redis) :
  Store.getStoredAlert now a r (Store.setStoredAlert now a r d m) = Some d.
Proof.
  unfold Store.getStoredAlert, Store.setStoredAlert.
  by rewrite DedupFacts.get_setex.
Qed.

Lemma state_of_status_resolved s :
  Client.state_of_status s = StateResolved <-> s = Resolved.
Proof. by destruct s. Qed.

(** What [Client.sendOrUpdateAlert] leaves behind. *)
Lemma client_send_outcome now payload w :
  let run := Client.sendOrUpdateAlert api config now payload w in
  match run.1 with
  | None => redis run.2 = redis w
  | Some id =>
      exists record,
        Store.getStoredAlert now (alertId payload) (resource payload)
          (redis run.2) = Some record
        /\ messageId record = id
        /\ channelId record = p_channelId payload
        /\ updatedAt record = Date_toISOString now
        /\ mentionLevel record = None
        /\ (state record = StateResolved <-> status payload = Resolved)
  end.
Proof.
  assert (Hnew : forall w1, redis w1 = redis w ->
    let run := Client.create_new api now payload w1 in
    match run.1 with
    | None => redis run.2 = redis w
    | Some id =>
        exists record,
          Store.getStoredAlert now (alertId payload) (resource payload)
            (redis run.2) = Some record
          /\ messageId record = id
          /\ channelId record = p_channelId payload
          /\ updatedAt record = Date_toISOString now
          /\ mentionLevel record = None
          /\ (state record = StateResolved <-> status payload = Resolved)
    end).
  { intros w1 Hw1. pose proof (create_new_outcome now payload w1) as H.
    cbv zeta in *. destruct (Client.create_new api now payload w1) as [[id|] w2];
      cbn [fst snd] in *; [|congruence].
    destruct H as [thread ->]. eexists. split; [apply getStoredAlert_written|].
    repeat split; try done; cbn [state Client.fresh_record];
      by destruct (status payload). }
  unfold Client.sendOrUpdateAlert.
  cbv beta iota zeta delta [bind Do.getStoredAlert call on_redis ret].
  cbn [redis calls].
  set (w0 := mkWorld (redis w) _).
  destruct (Store.getStoredAlert _ _ _ _) as [stored|]; [|by apply (Hnew w0)].
  destruct (Js.truthy (messageId stored)); [|by apply (Hnew w0)].
  pose proof (edit_existing_outcome now payload stored w0) as H.
  cbv zeta in H.
  destruct (Client.edit_existing api config now payload stored w0) as [[id|] w1];
    cbn [fst snd] in *.
  - destruct H as [-> [thread ->]]. eexists.
    split; [apply getStoredAlert_written|].
    repeat split; try done; cbn [state Client.updated_record];
      apply state_of_status_resolved.
  - subst w1. by apply (Hnew w0).
Qed.

Lemma confines_edit_existing now payload stored :
  confines (gateway_or_record (alertId payload) (resource payload))
           (eq (Store.alertKey (alertId payload) (resource payload)))
           (Client.edit_existing api config now payload stored).
Proof.
  unfold Client.edit_existing.
  repeat first
    [ apply confines_ret
    | by apply confines_chat
    | by apply confines_post_repeated
    | by apply confines_setStoredAlert
    | apply confines_bind; [|intros ?]
    | match goal with
      | |- confines _ _ (match ?x with _ => _ end) => destruct x
      | |- confines _ _ (if ?x then _ else _) => destruct x
      end ].
Qed.

Lemma confines_create_new now payload :
  confines (gateway_or_record (alertId payload) (resource payload))
           (eq (Store.alertKey (alertId payload) (resource payload)))
           (Client.create_new api now payload).
Proof.
  unfold Client.create_new. cbv zeta.
  repeat first
    [ apply confines_ret
    | by apply confines_chat
    | by apply confines_setStoredAlert
    | apply confines_bind; [|intros ?]
    | match goal with
      | |- confines _ _ (match ?x with _ => _ end) => destruct x
      | |- confines _ _ (if ?x then _ else _) => destruct x
      end ].
Qed.

Lemma confines_client_send now payload :
  confines (gateway_or_record (alertId payload) (resource payload))
           (eq (Store.alertKey (alertId payload) (resource payload)))
           (Client.sendOrUpdateAlert api config now payload).
Proof.
  unfold Client.sendOrUpdateAlert.
  repeat first
    [ apply confines_ret
    | by apply confines_getStoredAlert
    | apply confines_edit_existing
    | apply confines_create_new
    | apply confines_bind; [|intros ?]
    | match goal with
      | |- confines _ _ (match ?x with _ => _ end) => destruct x
      | |- confines _ _ (if ?x then _ else _) => destruct x
      end ].
Qed.

End Emit.

End Confinement.

Module AlertEmbedFacts.
Import AlertEmbed.




Lemma slice0_length n s : (String.length (Js.slice0 n s) <= n)%nat.
Proof.
  revert s. induction n as [|n IH]; intros [|c s]; simpl; try lia.
  specialize (IH s). lia.
Qed.



End AlertEmbedFacts.

Module DeliveryFacts.
Import Notions Confinement Ledger.

Ltac listed :=
  repeat first [rewrite elem_of_app | rewrite elem_of_cons | rewrite elem_of_nil];
  intuition (try congruence; try discriminate).

Lemma counted_app a b : counted (a ++ b) = (counted a ++ counted b)%list.
Proof. unfold counted. apply omap_app. Qed.

Lemma counted_quiet l : Forall quiet l -> counted l = [].
Proof.
  induction 1 as [|c l Hc _ IH]; [done|]. unfold counted in *. simpl.
  destruct c; try done. 
Qed.

Lemma gateway_or_record_quiet a r c : gateway_or_record a r c -> quiet c.
Proof. by destruct c. Qed.

Section Pipeline.

Context `{rt : Runtime}.
Variable api : Discord.Api.
Variable config : AlertsConfig.
Variable database : bool.

Lemma confines_send now payload :
  confines (gateway_or_record (alertId payload) (resource payload))
           (eq (Store.alertKey (alertId payload) (resource payload)))
           (Delivery.sendOrUpdateAlert api config now payload).
Proof.
  unfold Delivery.sendOrUpdateAlert.
  destruct (AlertEmbed.buildAlertEmbed payload).
  - apply confines_client_send.
  - apply confines_bind; [by apply confines_getStoredAlert|].
    intros _. apply confines_ret.
Qed.

Lemma send_outcome now payload w :
  let run := Delivery.sendOrUpdateAlert api config now payload w in
  match run.1 with
  | None => redis run.2 = redis w
  | Some id =>
      exists record,
        Store.getStoredAlert now (alertId payload) (resource payload)
          (redis run.2) = Some record
        /\ messageId record = id
        /\ channelId record = p_channelId payload
        /\ updatedAt record = Date_toISOString now
        /\ mentionLevel record = None
        /\ (state record = StateResolved <-> status payload = Resolved)
  end.
Proof.
  unfold Delivery.sendOrUpdateAlert.
  destruct (AlertEmbed.buildAlertEmbed payload).
  - apply client_send_outcome.
  - done.
Qed.

Lemma confines_expire_stored now payload :
  confines (fun c => quiet c /\ processor_call payload c)
           (eq (Store.alertKey (alertId payload) (resource payload)))
           (Processor.expire_stored now payload).
Proof.
  unfold Processor.expire_stored.
  apply confines_bind; [by apply confines_getStoredAlert|]. intros stored.
  apply confines_bind; [|intros _];
    by apply confines_when, confines_deleteStoredAlert.
Qed.

Lemma confines_emit now payload :
  confines (processor_call payload)
           (eq (Store.alertKey (alertId payload) (resource payload)))
           (Delivery.emit api config database now payload).
Proof.
  unfold Delivery.emit.
  apply confines_bind; [by apply confines_call|]. intros _.
  apply confines_bind.
  { eapply confines_weaken; [| |apply confines_send]; [|done].
    intros c. by destruct c. }
  intros [messageId|]; [|by apply confines_call].
  apply confines_bind; [by apply confines_call|]. intros _.
  by apply confines_when, confines_call.
Qed.

Lemma confines_process now payload :
  confines (processor_call payload) (own_key payload)
           (Delivery.processOneAlertPayload api config database now payload).
Proof.
  unfold Delivery.processOneAlertPayload.
  apply confines_bind; [by apply confines_call|]. intros _.
  destruct (negb _); [by apply confines_call|].
  apply confines_bind.
  { destruct (status payload).
    - apply confines_isDuplicate; [done | by left].
    - apply confines_bind; [|intros _; apply confines_ret].
      apply confines_clearDedup; [done | by left].
    - apply confines_isDuplicate; [done | by left]. }
  intros [|]; [by apply confines_call|].
  apply confines_bind; [|intros _].
  - eapply confines_weaken; [| |apply confines_expire_stored].
    + by intros c [_ ?].
    + intros k <-. by right.
  - eapply confines_weaken; [| |apply confines_emit]; [done|].
    intros k <-. by right.
Qed.

(** The run of the emit: the call itself, the calls of the gateway
    client, none of which is a counter, and one outcome counter. *)
Lemma emit_counted now payload w :
  exists added outcome,
    calls (Delivery.emit api config database now payload w).2
    = (calls w ++ added)%list
    /\ counted added = [outcome]
    /\ (outcome = "alerts_sent_total" \/ outcome = "discord_errors_total")
    /\ CallSendOrUpdateAlert payload ∈ added.
Proof.
  unfold Delivery.emit.
  cbv beta iota zeta delta [bind call]. cbn [redis calls].
  set (w1 := mkWorld _ _).
  destruct (confines_send now payload w1) as [(a1 & E1 & F1) _].
  destruct (Delivery.sendOrUpdateAlert api config now payload w1) as [[id|] w2];
    cbn [snd fst] in *.
  - cbv beta iota zeta delta [bind call Do.inc when ret]. cbn [redis calls].
    exists ([CallSendOrUpdateAlert payload] ++ a1
            ++ [CallInc "alerts_sent_total"]
            ++ (if database then [CallInsertAlertEvent payload id] else []))%list.
    exists "alerts_sent_total". split; [|split; [|split]].
    + destruct database; cbn [snd calls ret]; rewrite E1; subst w1; cbn [calls];
        rewrite <- ?app_assoc, ?app_nil_r; done.
    + rewrite !counted_app.
      rewrite (counted_quiet a1)
        by (eapply Forall_impl; [exact F1 | apply gateway_or_record_quiet]).
      by destruct database.
    + by left.
    + listed.
  - cbv beta iota zeta delta [bind call Do.inc when ret]. cbn [redis calls snd].
    exists ([CallSendOrUpdateAlert payload] ++ a1
            ++ [CallInc "discord_errors_total"])%list.
    exists "discord_errors_total". split; [|split; [|split]].
    + rewrite E1. subst w1. cbn [calls]. by rewrite <- ?app_assoc.
    + rewrite !counted_app.
      by rewrite (counted_quiet a1)
        by (eapply Forall_impl; [exact F1 | apply gateway_or_record_quiet]).
    + by right.
    + listed.
Qed.

(** Past the gate: the lifecycle check, then the emit. *)
Lemma delivered_counted now payload w :
  exists added outcome,
    calls ((Processor.expire_stored now payload ;;
            Delivery.emit api config database now payload) w).2
    = (calls w ++ added)%list
    /\ counted added = [outcome]
    /\ (outcome = "alerts_sent_total" \/ outcome = "discord_errors_total")
    /\ CallSendOrUpdateAlert payload ∈ added.
Proof.
  unfold bind.
  destruct (confines_expire_stored now payload w) as [(a1 & E1 & F1) _].
  destruct (Processor.expire_stored now payload w) as [[] w1]. cbn [snd] in *.
  destruct (emit_counted now payload w1) as (a2 & outcome & E2 & C2 & O2 & S2).
  exists (a1 ++ a2)%list, outcome. split; [|split; [|split]].
  - by rewrite E2, E1, <- app_assoc.
  - rewrite counted_app, C2.
    by rewrite (counted_quiet a1)
      by (eapply Forall_impl; [exact F1 | by intros c [? _]]).
  - done.
  - listed.
Qed.

(** The counters of one payload, with what the run leaves of the store. *)
Lemma payload_counted (now : Z) (payload : AlertApiPayload) (w : World) :
  let w' := (Delivery.processOneAlertPayload api config database now payload w).2 in
  exists added outcome,
    calls w' = (calls w ++ added)%list
    /\ counted added = ["alerts_received_total"; outcome]
    /\ if negb (has_rule config payload)
       then outcome = "no_config_suppressed_total"
            /\ redis w' = redis w
            /\ CallSendOrUpdateAlert payload ∉ added
       else if held_back now payload w
       then outcome = "dedup_suppressed_total"
            /\ redis w' = redis w
            /\ CallSendOrUpdateAlert payload ∉ added
       else (outcome = "alerts_sent_total" \/ outcome = "discord_errors_total")
            /\ CallSendOrUpdateAlert payload ∈ added.
Proof.
  unfold Delivery.processOneAlertPayload, has_rule, held_back.
  destruct (negb (Config.has_channel _)).
  { exists [CallInc "alerts_received_total"; CallInc "no_config_suppressed_total"],
      "no_config_suppressed_total".
    cbv beta iota zeta delta [bind call Do.inc]. cbn [redis calls snd].
    rewrite <- app_assoc. repeat split; try done. listed. }
  set (windowMs := Js.nullish _ Client.DEFAULT_SUPPRESS_MS).
  assert (Hdelivered : forall pre r1,
    Forall quiet pre ->
    CallSendOrUpdateAlert payload ∉ pre ->
    exists added outcome,
      calls ((Processor.expire_stored now payload ;;
              Delivery.emit api config database now payload)
               (mkWorld r1 (calls w ++ CallInc "alerts_received_total" :: pre))).2
      = (calls w ++ added)%list
      /\ counted added = ["alerts_received_total"; outcome]
      /\ (outcome = "alerts_sent_total" \/ outcome = "discord_errors_total")
      /\ CallSendOrUpdateAlert payload ∈ added).
  { intros pre r1 Hq Hn.
    destruct (delivered_counted now payload
                (mkWorld r1 (calls w ++ CallInc "alerts_received_total" :: pre)))
      as (a & outcome & E & C & O & S).
    exists (CallInc "alerts_received_total" :: pre ++ a)%list, outcome.
    split; [|split; [|split]]; try done.
    - rewrite E. cbn [calls]. by rewrite <- app_assoc.
    - change (CallInc "alerts_received_total" :: pre ++ a)%list
        with ([CallInc "alerts_received_total"] ++ pre ++ a)%list.
      rewrite !counted_app, C, (counted_quiet pre) by done. done.
    - listed. }
  destruct (status payload) eqn:Hst.
  - (* firing *)
    cbv beta iota zeta delta [bind call Do.inc Do.isDuplicate on_redis].
    cbn [redis calls]. unfold Dedup.isDuplicate.
    destruct (RedisCmd.get now (Dedup.dedupKey (alertId payload)) (redis w)) as [v|] eqn:Hg.
    + rewrite bool_decide_eq_true_2 by by eexists.
      cbn [fst snd redis calls].
      exists [CallInc "alerts_received_total";
              CallIsDuplicate (alertId payload) windowMs;
              CallInc "dedup_suppressed_total"], "dedup_suppressed_total".
      rewrite <- !app_assoc. repeat split; try done. listed.
    + rewrite bool_decide_eq_false_2 by by intros [? ?].
      cbn [fst snd redis calls]. rewrite <- app_assoc. cbn [app].
      destruct (Hdelivered [CallIsDuplicate (alertId payload) windowMs]
                  (RedisCmd.setex now (Dedup.dedupKey (alertId payload))
                     (Dedup.ttlSec windowMs) (RString "1") (redis w)))
        as (a & outcome & E & C & O & S); [by repeat constructor | listed|].
      by exists a, outcome.
  - (* resolved *)
    cbv beta iota zeta delta [bind call Do.inc Do.clearDedup on_redis ret].
    cbn [redis calls fst snd]. rewrite <- app_assoc. cbn [app].
    destruct (Hdelivered [CallClearDedup (alertId payload)]
                (Dedup.clearDedup (alertId payload) (redis w)))
      as (a & outcome & E & C & O & S); [by repeat constructor | listed|].
    by exists a, outcome.
  - (* acknowledged *)
    cbv beta iota zeta delta [bind call Do.inc Do.isDuplicate on_redis].
    cbn [redis calls]. unfold Dedup.isDuplicate.
    destruct (RedisCmd.get now (Dedup.dedupKey (alertId payload)) (redis w)) as [v|] eqn:Hg.
    + rewrite bool_decide_eq_true_2 by by eexists.
      cbn [fst snd redis calls].
      exists [CallInc "alerts_received_total";
              CallIsDuplicate (alertId payload) windowMs;
              CallInc "dedup_suppressed_total"], "dedup_suppressed_total".
      rewrite <- !app_assoc. repeat split; try done. listed.
    + rewrite bool_decide_eq_false_2 by by intros [? ?].
      cbn [fst snd redis calls]. rewrite <- app_assoc. cbn [app].
      destruct (Hdelivered [CallIsDuplicate (alertId payload) windowMs]
                  (RedisCmd.setex now (Dedup.dedupKey (alertId payload))
                     (Dedup.ttlSec windowMs) (RString "1") (redis w)))
        as (a & outcome & E & C & O & S); [by repeat constructor | listed|].
      by exists a, outcome.
Qed.

(** X6. Every payload is counted once as received and once by its outcome.
    Without a rule that has a channel the outcome is
    [no_config_suppressed_total]; held back by the dedup gate it is
    [dedup_suppressed_total]; in both cases the store is as it was and
    [sendOrUpdateAlert] is not called. Otherwise [sendOrUpdateAlert] is
    called and the outcome is [alerts_sent_total] or
    [discord_errors_total]. *)
Theorem every_payload_counted (now : Z) (payload : AlertApiPayload) (w : World) :
  let w' := (Delivery.processOneAlertPayload api config database now payload w).2 in
  exists added outcome,
    calls w' = (calls w ++ added)%list
    /\ counted added = ["alerts_received_total"; outcome]
    /\ if negb (has_rule config payload)
       then outcome = "no_config_suppressed_total"
            /\ redis w' = redis w
            /\ CallSendOrUpdateAlert payload ∉ added
       else if held_back now payload w
       then outcome = "dedup_suppressed_total"
            /\ redis w' = redis w
            /\ CallSendOrUpdateAlert payload ∉ added
       else (outcome = "alerts_sent_total" \/ outcome = "discord_errors_total")
            /\ CallSendOrUpdateAlert payload ∈ added.
Proof. exact (payload_counted now payload w). Qed.

(** X7. What [sendOrUpdateAlert] leaves behind. When it throws, the store
    is as it was. When it returns a message id, the record of the
    incident names that message and the channel of the payload, is
    stamped with the instant of the run, carries no escalation level
    any more, and is in the resolved state exactly when the payload is
    resolved; and [startedAt] of the payload is a date. *)
Theorem sendOrUpdateAlert_outcome (now : Z) (payload : AlertApiPayload)
    (w : World) :
  let run := Delivery.sendOrUpdateAlert api config now payload w in
  match run.1 with
  | None => redis run.2 = redis w
  | Some id =>
      (exists record,
         Store.getStoredAlert now (alertId payload) (resource payload)
           (redis run.2) = Some record
         /\ messageId record = id
         /\ channelId record = p_channelId payload
         /\ updatedAt record = Date_toISOString now
         /\ mentionLevel record = None
         /\ (state record = StateResolved <-> status payload = Resolved))
      /\ Date_getTime (startedAt payload) <> None
  end.
Proof.
  pose proof (send_outcome now payload w) as H. cbv zeta in *.
  destruct (Delivery.sendOrUpdateAlert api config now payload w) as [[id|] w1] eqn:E;
    cbn [fst snd] in *; [|done].
  split; [done|]. intros Hd.
  unfold Delivery.sendOrUpdateAlert, AlertEmbed.buildAlertEmbed in E.
  rewrite Hd in E. by inversion E.
Qed.

(** X8. [sendOrUpdateAlert] calls the chat gateway and reads and writes the
    record of its own incident, nothing else: every other key of the
    store, the dedup keys and the records of other incidents among
    them, is left as it was. *)
Theorem sendOrUpdateAlert_confined (now : Z) (payload : AlertApiPayload)
    (w : World) :
  confined (gateway_or_record (alertId payload) (resource payload))
           (eq (Store.alertKey (alertId payload) (resource payload)))
           w (Delivery.sendOrUpdateAlert api config now payload w).2.
Proof. apply confines_send. Qed.

(** X9. The processor, on one payload, touches two keys at most: the dedup
    key of the alert id and the record of the incident; and its calls
    concern that alert only. *)
Theorem processor_confined (now : Z) (payload : AlertApiPayload) (w : World) :
  confined (processor_call payload) (own_key payload)
           w (Delivery.processOneAlertPayload api config database now payload w).2.
Proof. apply confines_process. Qed.

Lemma delivered_keeps now payload w k :
  k <> Store.alertKey (alertId payload) (resource payload) ->
  redis ((Processor.expire_stored now payload ;;
          Delivery.emit api config database now payload) w).2 !! k
  = redis w !! k.
Proof.
  intros Hk.
  assert (H : confines (processor_call payload)
                (eq (Store.alertKey (alertId payload) (resource payload)))
                (Processor.expire_stored now payload ;;
                 Delivery.emit api config database now payload)).
  { apply confines_bind; [|intros _; apply confines_emit].
    eapply confines_weaken; [| |apply confines_expire_stored]; [|done].
    by intros c [_ ?]. }
  destruct (H w) as [_ R]. apply R. by intros <-.
Qed.

(** X10. A firing (or acknowledged) payload that passes the dedup gate and
    is followed, before its rule's suppress window has passed, by
    another unresolved payload of the same alert id: the second one is
    suppressed, whatever the gateway answered to the first. It is
    counted as received and as suppressed; the gateway is not called
    and the store is not touched. *)
Theorem repeat_within_window_suppressed (api' : Discord.Api) (now now' : Z)
    (payload payload' : AlertApiPayload) (w : World) :
  has_rule config payload = true -> has_rule config payload' = true ->
  status payload <> Resolved -> status payload' <> Resolved ->
  alertId payload' = alertId payload ->
  RedisCmd.get now (Dedup.dedupKey (alertId payload)) (redis w) = None ->
  now' < now + window config payload ->
  let w1 := (Delivery.processOneAlertPayload api config database now payload w).2 in
  let w2 :=
    (Delivery.processOneAlertPayload api' config database now' payload' w1).2 in
  redis w2 = redis w1
  /\ calls w2
     = (calls w1
        ++ [ CallInc "alerts_received_total";
             CallIsDuplicate (alertId payload') (window config payload');
             CallInc "dedup_suppressed_total" ])%list.
Proof.
  intros Hrule Hrule' Hst Hst' Hid Hfree Hnow w1 w2.
  assert (Hkey : redis w1 !! Dedup.dedupKey (alertId payload)
                 = Some (RString "1",
                         now + Dedup.ttlSec (window config payload) * 1000)).
  { subst w1. unfold Delivery.processOneAlertPayload.
    unfold has_rule in Hrule. rewrite Hrule. cbn [negb].
    fold (window config payload).
    assert (Hgate : forall pre,
      ((let* suppressed := Do.isDuplicate now (alertId payload) (window config payload) in
        if suppressed then Do.inc "dedup_suppressed_total"
        else Processor.expire_stored now payload ;;
             Delivery.emit api config database now payload)
         (mkWorld (redis w) pre)).2.(redis) !! Dedup.dedupKey (alertId payload)
      = Some (RString "1", now + Dedup.ttlSec (window config payload) * 1000)).
    { intros pre.
      set (rest := Processor.expire_stored now payload ;;
                   Delivery.emit api config database now payload).
      cbv beta iota delta [bind call Do.isDuplicate on_redis].
      cbn [redis calls]. unfold Dedup.isDuplicate. rewrite Hfree.
      cbn [fst snd]. subst rest.
      rewrite delivered_keeps by apply not_eq_sym, Frames.alertKey_not_dedupKey.
      cbn [redis]. unfold RedisCmd.setex. by rewrite lookup_insert_eq. }
    unfold window in *.
    destruct (status payload); [|done|];
      cbv beta iota zeta delta [bind call Do.inc] ; cbn [redis calls];
      apply (Hgate (calls w ++ [CallInc "alerts_received_total"])%list). }
  subst w2. unfold Delivery.processOneAlertPayload.
  unfold has_rule in Hrule'. rewrite Hrule'. cbn [negb].
  fold (window config payload').
  assert (Hlive : RedisCmd.get now' (Dedup.dedupKey (alertId payload')) (redis w1)
                  = Some (RString "1")).
  { rewrite Hid. unfold RedisCmd.get. rewrite Hkey.
    pose proof (DedupFacts.ceil_seconds_spec (window config payload)).
    unfold Dedup.ttlSec.
    destruct (Z.ltb_spec now' (now + Z.max 1 (Dedup.ceil_seconds (window config payload)) * 1000));
      [done | lia]. }
  destruct (status payload'); [|done|];
    cbv beta iota zeta delta [bind call Do.inc Do.isDuplicate on_redis];
    cbn [redis calls]; unfold Dedup.isDuplicate; rewrite Hlive;
    cbn [fst snd redis calls]; by rewrite <- !app_assoc.
Qed.

(** X11. A webhook item without an [alertname] label is routed by its
    [alert_type] label, but the payload made from it names the rule
    [default]: unless the configuration has a rule [default] with a
    channel, the item is never delivered. The store is as it was, the
    gateway is not called, and the item is either not counted at all
    or counted as received and suppressed for want of a rule. *)
Theorem alert_type_needs_default_rule (now : Z) (fresh : nat -> string)
    (groupLabels commonLabels commonAnnotations : Processor.Labels)
    (a : Processor.SingleAlert) (w : World) :
  Processor.label "alertname" (Processor.a_labels a) = None ->
  Config.has_channel (config !! "default") = false ->
  let w' :=
    (Delivery.processAlerts api config database now fresh
       groupLabels commonLabels commonAnnotations [a] w).2 in
  redis w' = redis w
  /\ (calls w' = calls w
      \/ calls w'
         = (calls w ++ [ CallInc "alerts_received_total";
                         CallInc "no_config_suppressed_total" ])%list).
Proof.
  intros Hname Hdefault w'. subst w'. cbn [Delivery.processAlerts].
  set (alert := Processor.normalizeOne _ _ _ _ _ _).
  assert (Hlabels : Processor.n_labels alert = Processor.a_labels a) by done.
  destruct (config !! Processor.getAlertTypeKey alert) as [typeConfig|];
    [|cbv beta iota zeta delta [bind ret]; cbn [snd]; by split; [|left]].
  destruct (Js.truthy (c_channelId typeConfig));
    [|cbv beta iota zeta delta [bind when ret]; cbn [snd]; by split; [|left]].
  unfold when.
  set (run := Delivery.processOneAlertPayload _ _ _ _ _).
  cbv beta iota zeta delta [bind ret]. 
  assert (Hrun : run w = (tt, mkWorld (redis w)
            (calls w ++ [ CallInc "alerts_received_total";
                          CallInc "no_config_suppressed_total" ]))).
  { subst run.
  unfold Delivery.processOneAlertPayload.
  assert (Hrule : p_ruleName (Processor.normalizedToApiPayload alert typeConfig)
                  = Some "default").
  { unfold Processor.normalizedToApiPayload. cbn [p_ruleName].
    by rewrite Hlabels, Hname. }
  rewrite Hrule. cbn [Js.nullish]. rewrite Hdefault. cbn [negb].
    cbv beta iota zeta delta [bind call Do.inc]. cbn [redis calls snd].
    by rewrite <- app_assoc. }
  rewrite Hrun. cbn [snd redis calls]. split; [done | by right].
Qed.

End Pipeline.

Lemma repeat_within_window_suppressed_witness :
  let w1 := (Delivery.processOneAlertPayload (rt := Sample.runtime)
               Fixture.api_ok Fixture.alerts_config false
               Fixture.T0 Fixture.firing_payload Fixture.empty_world).2 in
  let w2 := (Delivery.processOneAlertPayload (rt := Sample.runtime)
               Fixture.api_down Fixture.alerts_config false
               (Fixture.T0 + 299999) Fixture.firing_payload w1).2 in
  redis w2 = redis w1
  /\ calls w2
     = (calls w1
        ++ [ CallInc "alerts_received_total";
             CallIsDuplicate "fp1" 300000;
             CallInc "dedup_suppressed_total" ])%list.
Proof.
  apply (repeat_within_window_suppressed (rt := Sample.runtime)
           Fixture.api_ok Fixture.alerts_config false Fixture.api_down
           Fixture.T0 (Fixture.T0 + 299999)
           Fixture.firing_payload Fixture.firing_payload Fixture.empty_world);
    try reflexivity; discriminate.
Defined.

Lemma alert_type_needs_default_rule_witness :
  let w' := (Delivery.processAlerts (rt := Sample.runtime)
               Fixture.api_ok Fixture.alerts_config false Fixture.T0
               (fun _ => "made-up") [] [] [] [Cases.item_by_type]
               Fixture.empty_world).2 in
  redis w' = redis Fixture.empty_world
  /\ (calls w' = calls Fixture.empty_world
      \/ calls w'
         = (calls Fixture.empty_world
            ++ [ CallInc "alerts_received_total";
                 CallInc "no_config_suppressed_total" ])%list).
Proof.
  apply (alert_type_needs_default_rule (rt := Sample.runtime)
           Fixture.api_ok Fixture.alerts_config false Fixture.T0
           (fun _ => "made-up") [] [] [] Cases.item_by_type Fixture.empty_world);
    reflexivity.
Defined.

End DeliveryFacts.

Module ButtonFacts.
Import Spec Readback Notions Confinement.

Lemma split_head s : exists rest, Js.split ":" s = before_colon s :: rest.
Proof.
  induction s as [|c r [rest IH]]; simpl; [by eexists|].
  destruct (Ascii.eqb c ":"); [by eexists|]. rewrite IH. by eexists.
Qed.

Lemma before_colon_free s : colon_free s -> before_colon s = s.
Proof.
  unfold colon_free. induction s as [|c r IH]; simpl; [done|].
  destruct (Ascii.eqb c ":"); simpl; [done|]. intros H. by rewrite IH.
Qed.

(** X12. Custom ids and store keys are read back by splitting at colons.
    With an alert id (and prefix) that has no colon, the alert id is
    read back as it is, and the resource up to its first colon: from a
    custom id the empty text reads as absent, from a store key the word
    [default] does. A resource without a colon is thus read back whole,
    one with a colon is cut. *)
Theorem ids_read_back (prefix alertId : string) (resource : option string) :
  colon_free prefix -> colon_free alertId ->
  let parts := Js.split ":" (Client.button_id prefix alertId resource) in
  let keyparts := Js.split ":" (Store.alertKey alertId resource) in
  part parts 1 = alertId
  /\ Client.button_resource parts
     = nonempty (before_colon (Js.nullish resource ""))
  /\ (plain_resource resource -> Client.button_resource parts = resource)
  /\ (3 <= length keyparts)%nat
  /\ part keyparts 1 = alertId
  /\ part keyparts 2 = before_colon (Js.nullish resource "default").
Proof.
  intros Hp Ha parts keyparts.
  assert (Eparts : exists rest, parts
            = prefix :: alertId :: before_colon (Js.nullish resource "") :: rest).
  { subst parts. unfold Client.button_id.
    change (":" ++ alertId ++ ":" ++ Js.nullish resource "")
      with (String ":" (alertId ++ String ":" (Js.nullish resource ""))).
    rewrite !JsFacts.split_cons by done.
    destruct (split_head (Js.nullish resource "")) as [rest ->]. by eexists. }
  assert (Ekey : exists rest, keyparts
            = "alert" :: alertId :: before_colon (Js.nullish resource "default") :: rest).
  { subst keyparts. unfold Store.alertKey.
    change ("alert:" ++ alertId ++ ":" ++ Js.nullish resource "default")
      with ("alert" ++ String ":" (alertId ++ String ":" (Js.nullish resource "default"))).
    rewrite !JsFacts.split_cons by done.
    destruct (split_head (Js.nullish resource "default")) as [rest ->]. by eexists. }
  destruct Eparts as [rest ->], Ekey as [rest' ->].
  assert (Hres : Client.button_resource
            (prefix :: alertId :: before_colon (Js.nullish resource "") :: rest)
          = nonempty (before_colon (Js.nullish resource ""))) by done.
  repeat split; try done.
  - rewrite Hres. destruct resource as [r|]; [|done]. intros [Hr Hne].
    cbn [Js.nullish]. rewrite before_colon_free by done.
    unfold nonempty. by destruct r.
  - simpl. lia.
Qed.

Lemma ids_read_back_witness :
  part (Js.split ":" (Client.button_id "alert_ack" "fp1" (Some "host:9100"))) 1 = "fp1"
  /\ Client.button_resource
       (Js.split ":" (Client.button_id "alert_ack" "fp1" (Some "host:9100")))
     = Some "host"
  /\ part (Js.split ":" (Store.alertKey "fp1" None)) 2 = "default".
Proof.
  destruct (ids_read_back "alert_ack" "fp1" (Some "host:9100") eq_refl eq_refl)
    as (H1 & H2 & _).
  destruct (ids_read_back "alert_ack" "fp1" None eq_refl eq_refl)
    as (_ & _ & _ & _ & _ & H6).
  split; [exact H1|]. split; [rewrite H2; reflexivity | exact H6].
Defined.

(** ** Cutting the guide into messages *)

Lemma slice0_drop n s : Js.slice0 n s ++ Js.drop n s = s.
Proof.
  revert s. induction n as [|n IH]; intros [|c s]; try done.
  simpl. rewrite JsFacts.append_cons. by rewrite IH.
Qed.

Lemma drop_length n s : String.length (Js.drop n s) = (String.length s - n)%nat.
Proof.
  revert s. induction n as [|n IH]; intros [|c s]; simpl; try lia. apply IH.
Qed.

Lemma slice0_length_min n s :
  String.length (Js.slice0 n s) = Nat.min n (String.length s).
Proof.
  revert s. induction n as [|n IH]; intros [|c s]; simpl; try lia.
  by rewrite IH.
Qed.

Lemma chunks_spec fuel s :
  (String.length s <= fuel)%nat ->
  concat (Client.chunks fuel s) = s
  /\ Forall (fun c => (1 <= String.length c <= 2000)%nat) (Client.chunks fuel s)
  /\ (length (Client.chunks fuel s) * 2000 < String.length s + 2000)%nat
  /\ (String.length s <= length (Client.chunks fuel s) * 2000)%nat.
Proof.
  revert s. induction fuel as [|fuel IH]; intros s Hs.
  { destruct s; [|simpl in Hs; lia]. simpl. repeat split; try done; lia. }
  cbn [Client.chunks]. destruct s as [|c s].
  { simpl. repeat split; try done; lia. }
  cbn [Js.is_empty].
  set (s0 := String c s) in *.
  assert (Hlen : (1 <= String.length s0)%nat) by (subst s0; simpl; lia).
  destruct (IH (Js.drop Client.DISCORD_MAX_LEN s0)) as (H1 & H2 & H3 & H4).
  { rewrite drop_length. unfold Client.DISCORD_MAX_LEN. lia. }
  cbn [concat length]. rewrite H1, slice0_drop.
  rewrite drop_length in H3, H4. unfold Client.DISCORD_MAX_LEN in *.
  repeat split; try done.
  - constructor; [|done]. rewrite slice0_length_min. lia.
  - lia.
  - lia.
Qed.

Lemma chunks_joined (s : string) :
  concat (Client.chunks (String.length s) s) = s.
Proof.
  by destruct (chunks_spec (String.length s) s) as (H1 & _); [done|].
Qed.

(** X13. The text of a guide is cut into messages of at most 2000 code
    units: the pieces, joined, are the text; none is empty; there are
    as many as the length divided by 2000, rounded up. *)
Theorem chunks_cover (s : string) :
  let pieces := Client.chunks (String.length s) s in
  concat pieces = s
  /\ Forall (fun c => (1 <= String.length c <= 2000)%nat) pieces
  /\ length pieces = ((String.length s + 1999) / 2000)%nat.
Proof.
  intros pieces. destruct (chunks_spec (String.length s) s) as (H1 & H2 & H3 & H4);
    [done|].
  fold pieces in H1, H2, H3, H4. repeat split; try done.
  apply Nat.div_unique with (r := (String.length s + 1999 - length pieces * 2000)%nat); lia.
Qed.

Section Handlers.

Context `{rt : Runtime}.
Variable api : Discord.Api.
Variable config : AlertsConfig.
Variable database : bool.
Variable guides : string -> option string.

(** A custom id of the Resolve button is none of the Troubleshoot
    button. *)
Lemma resolve_is_not_troubleshoot (s : string) :
  Js.startsWith Client.RESOLVE_BUTTON_CUSTOM_ID s = true ->
  Js.startsWith Client.TROUBLESHOOT_BUTTON_CUSTOM_ID s = false.
Proof.
  unfold Client.RESOLVE_BUTTON_CUSTOM_ID, Client.TROUBLESHOOT_BUTTON_CUSTOM_ID.
  do 6 (destruct s as [|? s]; [done|]; cbn [Js.startsWith];
        destruct (Ascii.eqb _ _); [cbn [andb]|done]).
  destruct s as [|c s]; [done|]. cbn [Js.startsWith].
  by destruct (Ascii.eqb_spec "r" c) as [<-|].
Qed.

(** The run of the handler on a Resolve button whose custom id reads
    back to an incident with a stored record. *)
Lemma onResolve_run now (i : Client.Interaction) stored w :
  let parts := Js.split ":" (Client.i_customId i) in
  let alertId := part parts 1 in
  let resource := Client.button_resource parts in
  let userId := Client.i_userId i in
  Js.startsWith Client.RESOLVE_BUTTON_CUSTOM_ID (Client.i_customId i) = true ->
  Store.getStoredAlert now alertId resource (redis w) = Some stored ->
  Client.onButton api config database guides now i w
  = (tt,
     mkWorld
       (Store.setStoredAlert now alertId resource
          (Client.resolved_by stored userId (Date_toISOString now))
          (Dedup.clearDedup alertId (redis w)))
       (calls w
        ++ [ CallGetStoredAlert alertId resource;
             CallClearDedup alertId;
             CallSetStoredAlert alertId resource
               (Client.resolved_by stored userId (Date_toISOString now)) ]
        ++ (if database then [CallUpdateAlertEventResolve alertId resource userId]
            else [])
        ++ resolve_response now userId (Client.i_embeds i))%list).
Proof.
  intros parts alertId resource userId Hp Hs.
  unfold Client.onButton, resolve_response.
  rewrite (resolve_is_not_troubleshoot _ Hp), Hp.
  unfold Client.onResolve. fold parts. fold alertId. fold resource. fold userId.
  cbv beta iota zeta delta
    [bind Do.getStoredAlert Do.setStoredAlert Do.clearDedup Do.chat
     call on_redis ret when].
  cbn [redis calls]. rewrite Hs.
  destruct database, (Client.i_embeds i) as [|oldEmbed rest]; cbn [redis calls];
    try destruct (Client.rebuild oldEmbed _ _);
    cbv beta iota zeta delta [ret]; cbn [redis calls];
    rewrite <- ?app_assoc; cbn [app]; rewrite ?app_nil_r; reflexivity.
Qed.

(** X14. When a Resolve button is pressed and a record is stored under
    the alert id and the resource that its custom id reads back to
    (those of the incident the button was made for, when the alert
    id has no colon and the resource is absent or a non-empty text
    without a colon), that record is stored as resolved by the
    pressing user at the present instant, its other fields as they
    were; the dedup key of the alert id is deleted, so that the next
    firing of the alert passes the gate whenever it comes; every
    other key of the store is untouched; and the answer to the
    interaction carries no button. *)
Theorem resolve_button_outcome (now : Z) (i : Client.Interaction)
    (stored : StoredAlert) (w : World) :
  let parts := Js.split ":" (Client.i_customId i) in
  let alertId := part parts 1 in
  let resource := Client.button_resource parts in
  let userId := Client.i_userId i in
  Js.startsWith Client.RESOLVE_BUTTON_CUSTOM_ID (Client.i_customId i) = true ->
  Store.getStoredAlert now alertId resource (redis w) = Some stored ->
  let w' := (Client.onButton api config database guides now i w).2 in
  Store.getStoredAlert now alertId resource (redis w')
  = Some (mkStored (messageId stored) (channelId stored) (threadId stored)
            StateResolved (Date_toISOString now) (ruleName stored)
            (acknowledgedBy stored) (Some userId) (s_severity stored)
            (mentionLevel stored) (Some (Date_toISOString now))
            (acknowledgedAt stored))
  /\ (forall now' ttlMs,
        (Dedup.isDuplicate now' alertId ttlMs (redis w')).1 = false)
  /\ (forall k, k <> Dedup.dedupKey alertId ->
                k <> Store.alertKey alertId resource ->
                redis w' !! k = redis w !! k)
  /\ (exists added,
        calls w' = (calls w ++ added)%list /\ Forall takes_buttons_off added)
  /\ (forall (a : string) (r : option string),
        colon_free a -> plain_resource r ->
        Client.i_customId i
        = Client.button_id Client.RESOLVE_BUTTON_CUSTOM_ID a r ->
        alertId = a /\ resource = r).
Proof.
  intros parts alertId resource userId Hp Hs w'. subst w'.
  rewrite (onResolve_run _ _ stored) by done.
  cbn [snd redis calls]. fold parts. fold alertId. fold resource. fold userId.
  split; [|split; [|split; [|split]]].
  - apply ClientFacts.getStoredAlert_setStoredAlert.
  - intros now' ttlMs. unfold Dedup.isDuplicate.
    assert (RedisCmd.get now' (Dedup.dedupKey alertId)
              (Store.setStoredAlert now alertId resource
                 (Client.resolved_by stored userId (Date_toISOString now))
                 (Dedup.clearDedup alertId (redis w))) = None) as ->; [|done].
    unfold RedisCmd.get, Store.setStoredAlert, RedisCmd.setex,
      Dedup.clearDedup, RedisCmd.del.
    rewrite lookup_insert_ne by apply Frames.alertKey_not_dedupKey.
    by rewrite lookup_delete_eq.
  - intros k Hk1 Hk2.
    unfold Store.setStoredAlert, RedisCmd.setex, Dedup.clearDedup, RedisCmd.del.
    rewrite lookup_insert_ne by done. by rewrite lookup_delete_ne.
  - eexists. split; [reflexivity|].
    repeat first [apply Forall_app; split | apply Forall_cons; split
                 | apply Forall_nil]; try done.
    + by destruct database; repeat constructor.
    + unfold resolve_response. destruct (Client.i_embeds i) as [|oldEmbed rest];
        [by repeat constructor|].
      destruct (Client.rebuild _ _ _); by repeat constructor.
  - intros a r Ha Hr Hid. subst alertId resource parts. rewrite Hid.
    rewrite ClientFacts.split_button_id
      by (done || by apply ClientFacts.plain_resource_colon_free).
    by rewrite ClientFacts.button_resource_plain.
Qed.

(** X15. A button of an incident that has no record (none was stored, it has
    expired, or the custom id does not read back) is answered with
    "Alert state not found."; a custom id that is none of the three
    buttons' is ignored. In both cases the store is as it was. *)
Theorem unknown_incident_not_found (now : Z) (i : Client.Interaction)
    (w : World) :
  let parts := Js.split ":" (Client.i_customId i) in
  let known :=
    Js.startsWith Client.TROUBLESHOOT_BUTTON_CUSTOM_ID (Client.i_customId i)
    || Js.startsWith Client.RESOLVE_BUTTON_CUSTOM_ID (Client.i_customId i)
    || Js.startsWith Client.ACK_BUTTON_CUSTOM_ID (Client.i_customId i) in
  Store.getStoredAlert now (part parts 1) (Client.button_resource parts)
    (redis w) = None ->
  Client.onButton api config database guides now i w
  = (tt,
     if known
     then mkWorld (redis w)
            (calls w
             ++ [ CallGetStoredAlert (part parts 1) (Client.button_resource parts);
                  CallChat (Discord.InteractionReply "Alert state not found.") ])
     else w).
Proof.
  intros parts known Hs. subst known. unfold Client.onButton.
  destruct (Js.startsWith Client.TROUBLESHOOT_BUTTON_CUSTOM_ID _).
  { unfold Client.onTroubleshoot. fold parts.
    cbv beta iota zeta delta [bind Do.getStoredAlert Do.chat call on_redis ret].
    cbn [redis calls]. rewrite Hs. cbn [orb redis calls]. by rewrite <- app_assoc. }
  destruct (Js.startsWith Client.RESOLVE_BUTTON_CUSTOM_ID _).
  { unfold Client.onResolve. fold parts.
    cbv beta iota zeta delta [bind Do.getStoredAlert Do.chat call on_redis ret].
    cbn [redis calls]. rewrite Hs. cbn [orb redis calls]. by rewrite <- app_assoc. }
  destruct (Js.startsWith Client.ACK_BUTTON_CUSTOM_ID _); cbn [negb orb].
  - unfold Client.onAcknowledge. fold parts.
    cbv beta iota zeta delta [bind Do.getStoredAlert Do.chat call on_redis ret].
    cbn [redis calls]. rewrite Hs. cbn [redis calls]. by rewrite <- app_assoc.
  - done.
Qed.

Lemma send_from_run target texts n w :
  exists k : nat,
    Client.send_from api target n texts w
    = (bool_decide (k = length texts),
       mkWorld (redis w)
         (calls w ++ map (fun t => CallChat (Discord.TextSent target t))
                         (take k texts)))
    /\ (k <= length texts)%nat
    /\ (forall j, (j < k)%nat ->
          Discord.channel_send_nth api target (n + j) = true)
    /\ ((k < length texts)%nat ->
          Discord.channel_send_nth api target (n + k) = false).
Proof.
  revert n w. induction texts as [|t texts IH]; intros n w.
  { exists 0%nat. cbn [Client.send_from take map length]. unfold ret.
    rewrite app_nil_r. repeat split; [by destruct w | lia | lia | lia]. }
  cbn [Client.send_from].
  destruct (Discord.channel_send_nth api target n) eqn:Hn.
  - cbv beta iota zeta delta [bind Do.chat call]. cbn [redis calls].
    destruct (IH (S n) (mkWorld (redis w)
                (calls w ++ [CallChat (Discord.TextSent target t)])))
      as (k & Hrun & Hk & Hacc & Hrej).
    exists (S k). rewrite Hrun. cbn [redis calls take map length].
    rewrite <- app_assoc. cbn [app].
    split; [f_equal; apply bool_decide_ext; lia|].
    split; [lia|]. split.
    + intros [|j] Hj; [by rewrite Nat.add_0_r|].
      rewrite Nat.add_succ_r. apply (Hacc j). lia.
    + intros Hlt. rewrite Nat.add_succ_r. apply Hrej. lia.
  - exists 0%nat. unfold ret. cbn [take map length]. rewrite app_nil_r.
    rewrite Nat.add_0_r.
    repeat split; [by destruct w | lia | lia | done].
Qed.

(** X16. The Troubleshoot button of an incident with a record never changes
    the store. It reads the record, posts to the thread of the incident
    (to its channel when it has no thread) and answers the interaction
    once. The message is the heading with the rule name and the trimmed
    guide of the rule, or a notice when the rule has no guide or a
    blank one; its pieces, joined in order, are the whole message. The
    texts posted are the pieces before the first one that the gateway
    refuses: none when the channel cannot be fetched (the answer is
    that posting failed) or is no text channel (the answer is that
    it could not post), and otherwise either all of them, with the
    answer that the guide was posted, or those before a refused
    piece, which stay posted, with the answer that posting failed. *)
Theorem troubleshoot_posts_guide (now : Z) (i : Client.Interaction)
    (stored : StoredAlert) (w : World) :
  let parts := Js.split ":" (Client.i_customId i) in
  Js.startsWith Client.TROUBLESHOOT_BUTTON_CUSTOM_ID (Client.i_customId i) = true ->
  Store.getStoredAlert now (part parts 1) (Client.button_resource parts)
    (redis w) = Some stored ->
  let w' := (Client.onButton api config database guides now i w).2 in
  let target := Js.nullish (threadId stored) (channelId stored) in
  let rule := Js.nullish (ruleName stored) "default" in
  let message := guide_message guides rule in
  let heading :=
    "## Troubleshooting guide: " ++ rule
    ++ String (ascii_of_nat 10) (String (ascii_of_nat 10) "") in
  let notice :=
    "No troubleshooting guide configured for **" ++ rule
    ++ "**. Add one via `POST /troubleshooting-guide` with `alertType: "
    ++ Config.dquote ++ rule ++ Config.dquote ++ "`." in
  let pieces := Client.chunks (String.length message) message in
  redis w' = redis w
  /\ (forall content, guides rule = Some content -> Js.trim content <> "" ->
        message = heading ++ Js.trim content)
  /\ (guides rule = None \/ (exists content, guides rule = Some content
                                             /\ Js.trim content = "") ->
        message = heading ++ notice)
  /\ concat pieces = message
  /\ exists (k : nat) (reply : string),
       calls w'
       = (calls w
          ++ [CallGetStoredAlert (part parts 1) (Client.button_resource parts)]
          ++ map (fun t => CallChat (Discord.TextSent target t)) (take k pieces)
          ++ [CallChat (Discord.InteractionReply reply)])%list
       /\ (k <= length pieces)%nat
       /\ (forall j, (j < k)%nat -> Discord.channel_send_nth api target j = true)
       /\ (Discord.channels_fetch api target = Discord.FetchRejects ->
             k = 0%nat /\ reply = "Failed to post troubleshooting guide.")
       /\ (Discord.channels_fetch api target <> Discord.FetchRejects ->
           Discord.usable (Discord.channels_fetch api target) = None ->
             k = 0%nat /\ reply = "Could not post to the discussion thread.")
       /\ (is_Some (Discord.usable (Discord.channels_fetch api target)) ->
             k = length pieces
             /\ reply = "Troubleshooting guide posted in the discussion thread."
             \/ (k < length pieces)%nat
                /\ Discord.channel_send_nth api target k = false
                /\ reply = "Failed to post troubleshooting guide.").
Proof.
  intros parts Hp Hs w' target rule message heading notice pieces.
  split; [|split; [|split; [|split; [apply chunks_joined|]]]].
  2:{ intros content Hc Ht. subst message heading. unfold guide_message.
      unfold Client.guide_text. rewrite Hc.
      destruct (Js.truthy (Js.trim content)) eqn:E.
      - by rewrite !JsFacts.app_assoc.
      - apply JsFacts.truthy_true in Ht. congruence. }
  2:{ intros Hg. subst message heading notice. unfold guide_message.
      unfold Client.guide_text.
      destruct Hg as [-> | (content & -> & Ht)].
      - by rewrite !JsFacts.app_assoc.
      - rewrite Ht. cbn [Js.truthy]. by rewrite !JsFacts.app_assoc. }
  all: subst w'; unfold Client.onButton; rewrite Hp;
    unfold Client.onTroubleshoot; fold parts;
    cbv beta iota zeta delta [bind Do.getStoredAlert call on_redis];
    cbn [redis calls]; rewrite Hs; fold target; fold rule;
    change ("## Troubleshooting guide: " ++ rule
            ++ String (ascii_of_nat 10) (String (ascii_of_nat 10)
                 (Client.guide_text guides rule)))
      with message; fold pieces;
    set (w1 := mkWorld (redis w) _).
  - destruct (Discord.channels_fetch api target) as [| |c]; [done|done|].
    destruct (Discord.usable (Discord.FetchChannel c)); [|done].
    unfold Client.send_all.
    destruct (send_from_run target pieces 0 w1) as (k & -> & _).
    by destruct (bool_decide (k = length pieces)).
  - assert (Hnone : forall reply,
      calls (Do.chat (Discord.InteractionReply reply) w1).2
      = (calls w
         ++ [CallGetStoredAlert (part parts 1) (Client.button_resource parts)]
         ++ map (fun t => CallChat (Discord.TextSent target t)) (take 0 pieces)
         ++ [CallChat (Discord.InteractionReply reply)])%list).
    { intros reply. cbv beta iota zeta delta [Do.chat call]. subst w1.
      cbn [snd redis calls take map app]. by rewrite <- app_assoc. }
    destruct (Discord.channels_fetch api target) as [| |c] eqn:Hf.
    + exists 0%nat, "Failed to post troubleshooting guide.".
      split; [apply Hnone|]. split; [lia|]. split; [intros j Hj; lia|].
      split; [done|]. split; [done|]. cbn [Discord.usable].
      by intros [? ?].
    + exists 0%nat, "Could not post to the discussion thread.".
      split; [apply Hnone|]. split; [lia|]. split; [intros j Hj; lia|].
      split; [done|]. split; [done|]. cbn [Discord.usable].
      by intros [? ?].
    + destruct (Discord.usable (Discord.FetchChannel c)) as [c'|] eqn:Hu.
      * unfold Client.send_all.
        destruct (send_from_run target pieces 0 w1)
          as (k & -> & Hk & Hacc & Hrej).
        cbn [Nat.add] in Hacc, Hrej.
        assert (Hcalls : forall reply,
          calls (Do.chat (Discord.InteractionReply reply)
                   (mkWorld (redis w1)
                      (calls w1
                       ++ map (fun t => CallChat (Discord.TextSent target t))
                              (take k pieces)))).2
          = (calls w
             ++ [CallGetStoredAlert (part parts 1) (Client.button_resource parts)]
             ++ map (fun t => CallChat (Discord.TextSent target t))
                    (take k pieces)
             ++ [CallChat (Discord.InteractionReply reply)])%list).
        { intros reply. cbv beta iota zeta delta [Do.chat call]. subst w1.
          cbn [snd redis calls]. by rewrite <- !app_assoc. }
        destruct (decide (k = length pieces)) as [Hall|Hsome].
        -- rewrite (bool_decide_eq_true_2 _ Hall).
           exists k, "Troubleshooting guide posted in the discussion thread.".
           split; [apply Hcalls|]. split; [done|]. split; [done|].
           split; [done|]. split; [done|]. intros _. by left.
        -- rewrite (bool_decide_eq_false_2 _ Hsome).
           exists k, "Failed to post troubleshooting guide.".
           split; [apply Hcalls|]. split; [done|]. split; [done|].
           split; [done|]. split; [done|]. intros _. right.
           split; [lia|]. split; [apply Hrej; lia | done].
      * exists 0%nat, "Could not post to the discussion thread.".
        split; [apply Hnone|]. split; [lia|]. split; [intros j Hj; lia|].
        split; [done|]. split; [done|]. by intros [? ?].
Qed.

End Handlers.

Lemma resolve_button_outcome_witness :
  let w' := (Fixture.press Fixture.T0
               (Client.mkInteraction "alert_resolve:fp1:" "u9" [Fixture.alert_embed])
               Fixture.fired).2 in
  (exists record,
     Store.getStoredAlert Fixture.T0 "fp1" None (redis w') = Some record
     /\ state record = StateResolved /\ resolvedBy record = Some "u9")
  /\ (Dedup.isDuplicate (Fixture.T0 + 1) "fp1" 300000 (redis w')).1 = false.
Proof.
  intros w'.
  destruct (resolve_button_outcome (rt := Sample.runtime)
              Fixture.api_ok Fixture.alerts_config false (fun _ => None)
              Fixture.T0
              (Client.mkInteraction "alert_resolve:fp1:" "u9" [Fixture.alert_embed])
              Fixture.record_fired Fixture.fired eq_refl)
    as (H1 & H2 & _).
  { by vm_compute. }
  split; [|apply H2]. eexists. split; [exact H1|]. by split.
Defined.

Lemma unknown_incident_not_found_witness :
  Fixture.press Fixture.T0 (Client.mkInteraction "alert_ack:nope:" "u9" [])
    Fixture.empty_world
  = (tt, mkWorld ∅ [ CallGetStoredAlert "nope" None;
                     CallChat (Discord.InteractionReply "Alert state not found.") ]).
Proof.
  exact (unknown_incident_not_found (rt := Sample.runtime)
           Fixture.api_ok Fixture.alerts_config false (fun _ => None)
           Fixture.T0 (Client.mkInteraction "alert_ack:nope:" "u9" [])
           Fixture.empty_world eq_refl).
Defined.

Lemma troubleshoot_posts_guide_witness :
  let w' := (Client.onButton (rt := Sample.runtime) Fixture.api_one_text
               Fixture.alerts_config false (fun _ => Some Fixture.long_guide)
               Fixture.T0
               (Client.mkInteraction "alert_troubleshoot:fp1:" "u9" [])
               Fixture.fired).2 in
  let message :=
    "## Troubleshooting guide: HighCPU"
    ++ String (ascii_of_nat 10) (String (ascii_of_nat 10) Fixture.long_guide) in
  let pieces := Client.chunks (String.length message) message in
  length pieces = 2%nat
  /\ redis w' = redis Fixture.fired
  /\ calls w'
     = (calls Fixture.fired
        ++ [ CallGetStoredAlert "fp1" None ]
        ++ map (fun t => CallChat (Discord.TextSent "th-msg-c1" t)) (take 1 pieces)
        ++ [ CallChat (Discord.InteractionReply
                         "Failed to post troubleshooting guide.") ])%list.
Proof.
  intros w' message pieces.
  destruct (troubleshoot_posts_guide (rt := Sample.runtime)
              Fixture.api_one_text Fixture.alerts_config false
              (fun _ => Some Fixture.long_guide) Fixture.T0
              (Client.mkInteraction "alert_troubleshoot:fp1:" "u9" [])
              Fixture.record_fired Fixture.fired eq_refl
              ltac:(by vm_compute))
    as (Hredis & _ & _ & _ & k & reply & Hcalls & Hk & Hacc & _ & _ & Hcase).
  assert (Hlen : length pieces = 2%nat) by (by vm_compute).
  split; [exact Hlen|]. split; [exact Hredis|].
  assert (Hu : is_Some (Discord.usable
                 (Discord.channels_fetch Fixture.api_one_text "th-msg-c1")))
    by (by eexists).
  specialize (Hcase Hu).
  change (length (Client.chunks _ _)) with (length pieces) in Hcase.
  rewrite Hlen in Hcase.
  assert (Hk1 : k = 1%nat).
  { destruct k as [|[|k]]; [|reflexivity|].
    - destruct Hcase as [[Hall _] | (_ & Hrej & _)]; [discriminate Hall|].
      change (true = false) in Hrej. discriminate Hrej.
    - assert (H1 : (1 < S (S k))%nat) by lia.
      apply Hacc in H1. change (false = true) in H1. discriminate H1. }
  subst k.
  destruct Hcase as [[Hall _] | (_ & _ & ->)]; [discriminate Hall|].
  exact Hcalls.
Defined.

End ButtonFacts.

Module EscalationFacts.
Import Spec Levels Notions Confinement.

Section Loop.

Context `{rt : Runtime}.
Variable api : Discord.Api.
Variable config : AlertsConfig.

(** The loop body on one key either reads at most, or pings. *)
Lemma escalate_key_cases now key w :
  let run := Client.escalate_key api config now key w in
  (redis run.2 = redis w
   /\ (calls run.2 = calls w
       \/ exists a r, calls run.2 = (calls w ++ [CallGetStoredAlert a r])%list))
  \/ exists alertId resource stored users userId,
       let level := Js.nullish (mentionLevel stored) 0 in
       Store.getStoredAlert now alertId resource (redis w) = Some stored
       /\ state stored = StateFiring
       /\ Js.toLowerCase (Js.nullish (s_severity stored) "") = "critical"
       /\ config !! Js.nullish (ruleName stored) "" ≫= mentions = Some users
       /\ level < Z.of_nat (length users)
       /\ Client.mention_at users level = Some userId
       /\ userId <> ""
       /\ (forall t0, Date_getTime (updatedAt stored) = Some t0 ->
                      (level + 1) * (5 * 60 * 1000) <= now - t0)
       /\ is_Some (Discord.usable (Discord.channels_fetch api (target stored)))
       /\ is_Some (Discord.channel_send api (target stored))
       /\ calls run.2
          = (calls w
             ++ [ CallGetStoredAlert alertId resource;
                  CallChat (Discord.TextSent (target stored)
                              (Client.escalation_text userId level));
                  CallSetStoredAlert alertId resource
                    (Client.with_mentionLevel stored (level + 1)) ])%list
       /\ redis run.2
          = Store.setStoredAlert now alertId resource
              (Client.with_mentionLevel stored (level + 1)) (redis w).
Proof.
  unfold Client.escalate_key.
  destruct (length (Js.split ":" key) <? 3)%nat; [left; by split; [|left]|].
  set (alertId := part (Js.split ":" key) 1).
  set (resource := if String.eqb (part (Js.split ":" key) 2) "default"
                   then None else Some (part (Js.split ":" key) 2)).
  cbv beta iota zeta delta [bind Do.getStoredAlert call on_redis].
  cbn [redis calls].
  set (w1 := mkWorld (redis w) (calls w ++ [CallGetStoredAlert alertId resource])).
  assert (Hidle : redis w1 = redis w
                  /\ (calls w1 = calls w
                      \/ exists a r, calls w1 = (calls w ++ [CallGetStoredAlert a r])%list)).
  { split; [done|]. right. by eexists _, _. }
  destruct (Store.getStoredAlert now alertId resource (redis w)) as [stored|] eqn:Hs;
    [|by left].
  destruct (state stored) eqn:Hst; [|by left|by left].
  destruct (String.eqb_spec (Js.toLowerCase (Js.nullish (s_severity stored) ""))
              "critical") as [Hsev|]; [|by left].
  cbn [negb]. unfold Client.escalate_record.
  destruct (config !! Js.nullish (ruleName stored) "" ≫= mentions)
    as [[|u users]|] eqn:Hm; [by left| |by left].
  set (ms := u :: users) in *. set (level := Js.nullish (mentionLevel stored) 0).
  destruct (Z.leb_spec (Z.of_nat (length ms)) level) as [|Hlevel]; [by left|].
  destruct (Client.too_early now (updatedAt stored) _) eqn:Hearly; [by left|].
  destruct (Client.mention_at ms level) as [userId|] eqn:Hu; [|by left].
  destruct (Js.truthy userId) eqn:Hne; [|by left]. cbn [negb].
  fold (target stored).
  destruct (Discord.usable (Discord.channels_fetch api (target stored)))
    as [ch|] eqn:Hch; [|by left].
  destruct (Discord.channel_send api (target stored)) as [m|] eqn:Hsend;
    [|by left].
  right. exists alertId, resource, stored, ms, userId. fold level.
  cbv beta iota zeta delta [bind Do.chat Do.setStoredAlert call on_redis].
  subst w1. cbn [snd redis calls].
  repeat split; try done.
  - intros ->. by simpl in Hne.
  - intros t0 Ht. unfold Client.too_early in Hearly. rewrite Ht in Hearly.
    apply Z.ltb_ge in Hearly. exact Hearly.
  - by rewrite <- !app_assoc.
Qed.

(** X17. A ping is always warranted. At a key, the loop body either leaves
    the store as it is and calls nothing but, at most, the read of one
    record; or it has read a record that is firing, critical (in any
    letter case), of a rule whose mentions are not exhausted, whose
    next user is not the empty text, and that is due (its [updatedAt],
    when it is a date, lies at least [(level + 1)] times five minutes
    back), the gateway delivers to its thread, and then the body posts
    one mention there and writes the record back one level up. *)
Theorem escalation_ping_is_warranted (now : Z) (key : string) (w : World) :
  let run := Client.escalate_key api config now key w in
  (redis run.2 = redis w
   /\ (calls run.2 = calls w
       \/ exists a r, calls run.2 = (calls w ++ [CallGetStoredAlert a r])%list))
  \/ exists alertId resource stored users userId,
       let level := Js.nullish (mentionLevel stored) 0 in
       Store.getStoredAlert now alertId resource (redis w) = Some stored
       /\ state stored = StateFiring
       /\ Js.toLowerCase (Js.nullish (s_severity stored) "") = "critical"
       /\ config !! Js.nullish (ruleName stored) "" ≫= mentions = Some users
       /\ level < Z.of_nat (length users)
       /\ Client.mention_at users level = Some userId
       /\ userId <> ""
       /\ (forall t0, Date_getTime (updatedAt stored) = Some t0 ->
                      (level + 1) * (5 * 60 * 1000) <= now - t0)
       /\ is_Some (Discord.usable (Discord.channels_fetch api (target stored)))
       /\ is_Some (Discord.channel_send api (target stored))
       /\ calls run.2
          = (calls w
             ++ [ CallGetStoredAlert alertId resource;
                  CallChat (Discord.TextSent (target stored)
                              (Client.escalation_text userId level));
                  CallSetStoredAlert alertId resource
                    (Client.with_mentionLevel stored (level + 1)) ])%list
       /\ redis run.2
          = Store.setStoredAlert now alertId resource
              (Client.with_mentionLevel stored (level + 1)) (redis w).
Proof. apply escalate_key_cases. Qed.

Lemma only_level_refl v : only_level v v.
Proof. by left. Qed.

Lemma only_level_trans v1 v2 v3 :
  only_level v1 v2 -> only_level v2 v3 -> only_level v1 v3.
Proof.
  intros [->|(s1 & e1 & n1 & e1' & -> & ->)]; [done|].
  intros [->|(s2 & e2 & n2 & e2' & E & ->)].
  - right. by eexists _, _, _, _.
  - right. inversion E; subst. exists s1, e1, n2, e2'. split; [done|].
    by rewrite ClientFacts.with_mentionLevel_twice.
Qed.

Lemma escalated_refl r : escalated r r.
Proof. intros k. by left. Qed.

Lemma escalated_trans r1 r2 r3 :
  escalated r1 r2 -> escalated r2 r3 -> escalated r1 r3.
Proof.
  intros H12 H23 k. destruct (H12 k) as [E12|[Hk O12]], (H23 k) as [E23|[Hk' O23]].
  - left. by rewrite E23.
  - right. split; [done|]. by rewrite <- E12.
  - right. split; [done|]. by rewrite E23.
  - right. split; [done|]. by eapply only_level_trans.
Qed.

Lemma getStoredAlert_entry now a r (m : Redis) stored :
  Store.getStoredAlert now a r m = Some stored ->
  exists expiry, m !! Store.alertKey a r = Some (RJson stored, expiry).
Proof.
  unfold Store.getStoredAlert, RedisCmd.get.
  destruct (m !! Store.alertKey a r) as [[v e]|]; [|done].
  destruct (now <? e); [|done]. destruct v; [done|]. intros [= ->]. by eexists.
Qed.

Lemma escalate_key_escalated now key w :
  escalated (redis w) (redis (Client.escalate_key api config now key w).2)
  /\ exists added,
       calls (Client.escalate_key api config now key w).2 = (calls w ++ added)%list
       /\ Forall escalation_call added.
Proof.
  destruct (escalate_key_cases now key w) as [[Hr Hc]|H].
  - rewrite Hr. split; [apply escalated_refl|].
    destruct Hc as [->|(a & r & ->)].
    + exists []. by rewrite app_nil_r.
    + eexists. split; [done|]. by repeat constructor.
  - destruct H as (alertId & resource & stored & users & userId & H).
    cbv zeta in H.
    destruct H as (Hs & _ & _ & _ & _ & _ & _ & _ & _ & _ & Hc & Hr).
    rewrite Hr, Hc. split.
    + intros k. unfold Store.setStoredAlert, RedisCmd.setex.
      destruct (decide (k = Store.alertKey alertId resource)) as [->|Hk].
      * right. split; [done|]. rewrite lookup_insert_eq.
        destruct (getStoredAlert_entry _ _ _ _ _ Hs) as [e ->].
        right. by eexists _, _, _, _.
      * left. by rewrite lookup_insert_ne.
    + eexists. split; [done|]. by repeat constructor.
Qed.

(** X18. One run of the escalation loop changes nothing in the store but
    escalation levels: every key holds what it held, or it is a key of
    the incident store whose record differs in [mentionLevel] (and time
    to live) only, [updatedAt], state and thread as they were. No key
    appears or disappears, no dedup key is touched. The loop calls
    nothing but reads and writes of incident records and texts posted
    to the gateway; when the client is not ready it does nothing. *)
Theorem escalation_changes_levels_only (ready : bool) (now : Z) (w : World) :
  let w' := (Client.escalation_tick api config ready now w).2 in
  escalated (redis w) (redis w')
  /\ (forall k, is_Some (redis w' !! k) <-> is_Some (redis w !! k))
  /\ (forall fingerprint,
        redis w' !! Dedup.dedupKey fingerprint = redis w !! Dedup.dedupKey fingerprint)
  /\ (exists added,
        calls w' = (calls w ++ added)%list /\ Forall escalation_call added)
  /\ (ready = false -> w' = w).
Proof.
  intros w'.
  assert (Hloop : forall ks w0,
    escalated (redis w0) (redis (Client.for_each (Client.escalate_key api config now) ks w0).2)
    /\ exists added,
         calls (Client.for_each (Client.escalate_key api config now) ks w0).2
         = (calls w0 ++ added)%list
         /\ Forall escalation_call added).
  { induction ks as [|key ks IH]; intros w0.
    { split; [apply escalated_refl|]. exists []. by rewrite app_nil_r. }
    cbn [Client.for_each]. unfold bind.
    destruct (escalate_key_escalated now key w0) as [E1 (a1 & C1 & F1)].
    destruct (Client.escalate_key api config now key w0) as [[] w1].
    cbn [snd] in *. destruct (IH w1) as [E2 (a2 & C2 & F2)].
    split; [by eapply escalated_trans|].
    exists (a1 ++ a2)%list. split; [by rewrite C2, C1, <- app_assoc|].
    by apply Forall_app. }
  assert (H : escalated (redis w) (redis w')
              /\ exists added,
                   calls w' = (calls w ++ added)%list /\ Forall escalation_call added).
  { subst w'. unfold Client.escalation_tick. destruct ready; cbn [negb].
    - cbv beta iota zeta delta [bind on_redis]. cbn [redis calls].
      destruct (Hloop (Store.getStoredAlertKeys now (redis w))
                      (mkWorld (redis w) (calls w))) as [E C].
      by split.
    - split; [apply escalated_refl|]. exists []. by rewrite app_nil_r. }
  destruct H as [E C]. split; [done|]. split; [|split; [|split; [done|]]].
  - intros k. by destruct (E k) as [->|[_ [->|(s & e & n & e' & -> & ->)]]].
  - intros fp. by destruct (E (Dedup.dedupKey fp)) as [->|[? _]].
  - intros ->. by subst w'.
Qed.

End Loop.

Lemma escalation_changes_levels_only_witness :
  (Client.escalation_tick (rt := Sample.runtime) Fixture.api_ok
     Fixture.alerts_config false Fixture.T0 Fixture.fired).2
  = Fixture.fired.
Proof.
  destruct (escalation_changes_levels_only (rt := Sample.runtime) Fixture.api_ok
              Fixture.alerts_config false Fixture.T0 Fixture.fired)
    as (_ & _ & _ & _ & H).
  exact (H eq_refl).
Defined.

End EscalationFacts.

Module ReconcilerFacts.
Import Spec Orphans Notions Confinement.

Section Run.

Variable api : Reconciler.Api.








End Run.



End ReconcilerFacts.

Module SnsPayloadFacts.
Import Sns.

(** A [match] on the literal ["OK"] has two outcomes. *)
Lemma match_OK {A} (v : JsVal) (a b : A) :
  match v with JStr "OK" => a | _ => b end = a
  \/ match v with JStr "OK" => a | _ => b end = b.
Proof.
  destruct v as [| | | |s| |]; try (by right).
  destruct s as [|c s]; [by right|].
  destruct c as [[] [] [] [] [] [] [] []]; try (by right).
  destruct s as [|c s]; [by right|].
  destruct c as [[] [] [] [] [] [] [] []]; try (by right).
  destruct s; [by left | by right].
Qed.

Section WithRuntime.

Context `{rt : Runtime}.

Lemma parseResolvedState_cases e :
  parseResolvedState e = (Resolved, Timestamp e)
  \/ parseResolvedState e = (Firing, None).
Proof.
  unfold parseResolvedState.
  destruct (parsed_object (Message e)) as [o|]; [|by right].
  set (rest := if JsValue.truthy (JsValue.get o "detail") then _ else _).
  destruct (match_OK (JsValue.get o "NewStateValue")
              (Resolved, Timestamp e) rest) as [H|H];
    rewrite H; [by left|]. subst rest.
  destruct (JsValue.truthy (JsValue.get o "detail")); [|by right].
  apply match_OK.
Qed.


Lemma fields_at_most_20 (message : string) :
  (length (buildFieldsFromMessage message) <= 20)%nat.
Proof. unfold buildFieldsFromMessage. rewrite length_take. lia. Qed.

Lemma parseResolvedState_status e :
  (parseResolvedState e).1 <> Acknowledged
  /\ ((parseResolvedState e).1 = Resolved ->
      (parseResolvedState e).2 = Timestamp e)
  /\ ((parseResolvedState e).1 = Firing -> (parseResolvedState e).2 = None).
Proof. by destruct (parseResolvedState_cases e) as [-> | ->]. Qed.

(** X21. The fields that the SNS pipeline reads off a message body are at
    most 20, the value of each is cut to 500 characters, and each is
    named after an entry of the parsed body whose value is neither
    [null] nor [undefined]; a body that is not the JSON text of an
    object or an array gives no field. *)
Theorem sns_fields_bounded (message : string) :
  let fields := buildFieldsFromMessage message in
  (length fields <= 20)%nat
  /\ Forall (fun f => (String.length f.2 <= 500)%nat) fields
  /\ (forall f, f ∈ fields ->
        exists o v, parsed_object message = Some o
                    /\ (f.1, v) ∈ entries o
                    /\ v <> JUndefined /\ v <> JNull)
  /\ (parsed_object message = None -> fields = []).
Proof.
  cbv zeta. unfold buildFieldsFromMessage.
  split; [rewrite length_take; lia|].
  destruct (parsed_object message) as [o|];
    [|by repeat split; try done; intros f Hf; rewrite take_nil in Hf;
         apply elem_of_nil in Hf].
  split; [|split; [|done]].
  - apply Forall_take, Forall_forall. intros f Hf.
    apply list_elem_of_omap in Hf as ((k & v) & _ & Hkv). cbn [fst snd] in Hkv.
    destruct v; try done; apply (inj Some) in Hkv; subst f; cbn [snd];
      apply AlertEmbedFacts.slice0_length.
  - intros f Hf. apply elem_of_take in Hf as (i & Hf & _).
    apply list_elem_of_lookup_2, list_elem_of_omap in Hf
      as ((k & v) & Hin & Hkv). cbn [fst snd] in Hkv.
    exists o, v.
    destruct v; try done; apply (inj Some) in Hkv; subst f; by cbn [fst].
Qed.

(** X22. A payload built from an SNS envelope is marked as coming from SNS
    and carries the derived event name as its rule name; that rule
    exists in the configuration with a channel, which is the payload's
    channel, so the processor does not hold it back for want of a rule.
    Its description is not empty and has at most 1500 characters, its
    fields are left out or are between 1 and 20, it has a severity and
    no generator URL, its status is firing or resolved, and it has a
    resolution time (the envelope's timestamp) only when resolved. *)
Theorem sns_payload_well_formed (config : AlertsConfig) (now : Z)
    (e : Envelope) (p : AlertApiPayload) :
  snsEnvelopeToAlertPayload config now e = Payload p ->
  source p = Some "sns"
  /\ p_ruleName p = Some (deriveEventName e)
  /\ Ledger.has_rule config p = true
  /\ (exists cfg, config !! deriveEventName e = Some cfg
                  /\ p_channelId p = c_channelId cfg
                  /\ p_thumbnailUrl p = thumbnailUrl cfg)
  /\ (exists d, description p = Some d /\ d <> ""
                /\ (String.length d <= 1500)%nat)
  /\ (fields p = None
      \/ exists l, fields p = Some l /\ (1 <= length l <= 20)%nat)
  /\ severity p <> None
  /\ generatorURL p = None
  /\ status p <> Acknowledged
  /\ (status p = Resolved -> p_resolvedAt p = Timestamp e)
  /\ (status p = Firing -> p_resolvedAt p = None).
Proof.
  unfold snsEnvelopeToAlertPayload, Ledger.has_rule.
  destruct (config !! deriveEventName e) as [cfg|] eqn:Hcfg; [|done].
  destruct (Js.truthy (c_channelId cfg)) eqn:Hch; [|done]. cbn [negb].
  pose proof (parseResolvedState_status e) as Hst.
  destruct (parseResolvedState e) as [st ra]. cbn [fst snd] in Hst.
  pose proof (fields_at_most_20 (Message e)) as Hlen.
  assert (Hd : exists d,
    Some (if Js.truthy (Js.slice0 MAX_DESCRIPTION_LEN (Message e))
          then Js.slice0 MAX_DESCRIPTION_LEN (Message e)
          else "No description") = Some d
    /\ d <> "" /\ (String.length d <= 1500)%nat).
  { eexists. split; [reflexivity|].
    destruct (Js.truthy (Js.slice0 _ _)) eqn:Ht.
    - split; [by apply JsFacts.truthy_true in Ht|
             apply AlertEmbedFacts.slice0_length].
    - split; [done|]. simpl. lia. }
  assert (Hf : match buildFieldsFromMessage (Message e) with
               | [] => None | _ :: _ => Some (buildFieldsFromMessage (Message e))
               end = None
    \/ exists l, match buildFieldsFromMessage (Message e) with
                 | [] => None
                 | _ :: _ => Some (buildFieldsFromMessage (Message e))
                 end = Some l /\ (1 <= length l <= 20)%nat).
  { destruct (buildFieldsFromMessage (Message e)) as [|f l] eqn:E; [by left|].
    right. eexists. split; [reflexivity|]. simpl in *. lia. }
  destruct (parseResource e) as [|r|v]; [| |done].
  all: intros E; injection E as <-; cbn [source p_ruleName p_channelId
         p_thumbnailUrl description fields severity generatorURL status
         p_resolvedAt Js.nullish]; rewrite Hcfg; cbn [Config.has_channel];
       rewrite Hch; repeat split; try done; try apply Hst; eauto.
Qed.

End WithRuntime.

Lemma sns_payload_well_formed_witness :
  exists p,
    snsEnvelopeToAlertPayload (rt := Sample.runtime) Fixture.alerts_config 0
      Fixture.envelope_alarm = Payload p
    /\ source p = Some "sns"
    /\ Ledger.has_rule Fixture.alerts_config p = true
    /\ p_resolvedAt p = None.
Proof.
  destruct (snsEnvelopeToAlertPayload (rt := Sample.runtime)
              Fixture.alerts_config 0 Fixture.envelope_alarm)
    as [|p|] eqn:H; try (vm_compute in H; discriminate).
  exists p. split; [done|].
  destruct (sns_payload_well_formed (rt := Sample.runtime) _ _ _ _ H)
    as (Hs & _ & Hr & _ & _ & _ & _ & _ & _ & _ & Hf).
  split; [done|]. split; [done|]. apply Hf.
  vm_compute in H. by injection H as <-.
Defined.

End SnsPayloadFacts.

Module ConfigStoreFacts.
Import Spec ConfigStore.

Lemma lookup_upsert k k' v out :
  JsValue.lookup k (JsValue.upsert k' v out)
  = if String.eqb k' k then Some v else JsValue.lookup k out.
Proof.
  induction out as [|[k1 v1] out IH]; simpl.
  - by destruct (String.eqb k' k).
  - destruct (String.eqb_spec k1 k') as [->|Hne]; simpl.
    + by destruct (String.eqb k' k).
    + destruct (String.eqb_spec k1 k) as [->|Hne'].
      * by rewrite (proj2 (String.eqb_neq _ _)) by congruence.
      * apply IH.
Qed.

Lemma upsert_NoDup k v out :
  NoDup (keys out) -> NoDup (keys (JsValue.upsert k v out)).
Proof.
  intros Hnd. destruct (decide (k ∈ keys out)) as [Hin|Hnin].
  - by rewrite ConfigFacts.upsert_keys.
  - rewrite ConfigFacts.upsert_fresh by done. unfold keys.
    rewrite map_app. simpl. apply NoDup_app.
    repeat split; [done | | apply NoDup_singleton].
    by intros x Hx ->%list_elem_of_singleton.
Qed.

Lemma lookup_None k props : JsValue.lookup k props = None <-> k ∉ keys props.
Proof.
  induction props as [|[k1 v1] props IH]; simpl.
  - split; [intros _ H; by apply elem_of_nil in H | done].
  - rewrite not_elem_of_cons.
    destruct (String.eqb_spec k1 k) as [->|Hne]; [by split; [|intros [? _]]|].
    rewrite IH. split; [by split | by intros [_ ?]].
Qed.

Lemma lookup_elem_of k v props :
  JsValue.lookup k props = Some v -> (k, v) ∈ props.
Proof.
  induction props as [|[k1 v1] props IH]; simpl; [done|].
  destruct (String.eqb_spec k1 k) as [->|Hne].
  - intros [= ->]. by left.
  - intros H. right. by apply IH.
Qed.

Lemma elem_of_lookup k v props :
  NoDup (keys props) -> (k, v) ∈ props -> JsValue.lookup k props = Some v.
Proof.
  induction props as [|[k1 v1] props IH]; simpl;
    [by intros _ ?%elem_of_nil|].
  intros [Hk Hnd]%NoDup_cons [[= -> ->]|Hin]%elem_of_cons.
  - by rewrite String.eqb_refl.
  - destruct (String.eqb_spec k1 k) as [->|Hne]; [|by apply IH].
    exfalso. apply Hk. unfold keys. apply list_elem_of_fmap. by exists (k, v).
Qed.

Lemma spread_NoDup a b : NoDup (keys a) -> NoDup (keys (spread a b)).
Proof.
  unfold spread. revert a. induction b as [|[k v] b IH]; intros a Ha; [done|].
  simpl. by apply IH, upsert_NoDup.
Qed.

Lemma lookup_spread a b k :
  NoDup (keys b) ->
  JsValue.lookup k (spread a b) = file_over_db b a k.
Proof.
  unfold spread, file_over_db. revert a.
  induction b as [|[k1 v1] b IH]; intros a Hnd; [done|].
  simpl in Hnd. apply NoDup_cons in Hnd as [Hk Hnd]. simpl.
  rewrite IH by done. rewrite lookup_upsert.
  destruct (String.eqb_spec k1 k) as [->|Hne]; [|done].
  by rewrite (proj2 (lookup_None k b)).
Qed.

Lemma lookup_normalized k props :
  k <> "__proto__" ->
  JsValue.lookup k (normalized props) = Config.entry_of <$> JsValue.lookup k props.
Proof.
  intros Hk.
  induction props as [|[k1 v1] props IH]; [done|].
  assert (Hn : normalized ((k1, v1) :: props)
               = if negb (String.eqb k1 "__proto__")
                 then (k1, Config.entry_of v1) :: normalized props
                 else normalized props).
  { unfold normalized. cbn [List.filter fst snd].
    by destruct (negb (String.eqb k1 "__proto__")). }
  rewrite Hn. clear Hn.
  change (JsValue.lookup k ((k1, v1) :: props))
    with (if String.eqb k1 k then Some v1 else JsValue.lookup k props).
  destruct (String.eqb_spec k1 "__proto__") as [->|Hne]; cbn [negb].
  - by rewrite (proj2 (String.eqb_neq _ _)) by congruence.
  - change (JsValue.lookup k ((k1, Config.entry_of v1) :: normalized props))
      with (if String.eqb k1 k then Some (Config.entry_of v1)
            else JsValue.lookup k (normalized props)).
    by destruct (String.eqb k1 k).
Qed.

Lemma typed_dec v : {typed v} + {~ typed v}.
Proof.
  destruct (Config.isAlertTypeConfig v) eqn:E.
  - left. by apply ConfigFacts.isAlertTypeConfig_typed.
  - right. intros H%ConfigFacts.isAlertTypeConfig_typed. congruence.
Qed.

Section WithRuntime.

Context `{rt : Runtime}.
Variable parse_error : string -> string.

(** X23. A reload that fails leaves the cached configuration as it was, and
    fails exactly on a file from which the plain loader would get the
    empty configuration, which is what [reloadAlertsConfig] would then
    put in the cache. A reload that succeeds caches the object of the
    file, which is what the plain loader reads too, and from then on
    [getAlertsConfig] answers it whatever becomes of the file. *)
Theorem reload_failure_keeps_cache (configPath : string) (file : File)
    (cachedConfig : option JsVal) :
  match reloadAlertsConfigSafe parse_error configPath file cachedConfig with
  | (Reloaded config, cached') =>
      cached' = Some config
      /\ config = JObj (loadAlertsConfig file)
      /\ forall later, getAlertsConfig later cached' = (config, cached')
  | (Failed _, cached') =>
      cached' = cachedConfig
      /\ loadAlertsConfig file = []
      /\ reloadAlertsConfig file cachedConfig = (JObj [], Some (JObj []))
      /\ forall later config,
           cachedConfig = Some config ->
           getAlertsConfig later cached' = (config, cachedConfig)
  end.
Proof.
  unfold reloadAlertsConfigSafe, reloadAlertsConfig, getAlertsConfig,
    loadAlertsConfig.
  destruct file as [|message|raw]; try by (repeat split; intros ? ? ->).
  destruct (JSON_parse raw) as [[| | | | | |props]|];
    by (repeat split; intros ? ? ->).
Qed.

(** X24. What the migration hands to the database, when both the file and
    the database hold objects with distinct keys: every rule of the
    file, and every rule of the database that the file does not have,
    each in the normal form of the validation; and nothing at all when
    there is no database, when both are empty, or when one of those
    rules has no string [channelId]. *)
Theorem migration_file_over_db (database : bool) (file : File)
    (db : list (string * JsVal)) :
  NoDup (keys (loadAlertsConfig file)) -> NoDup (keys db) ->
  let merged := file_over_db (loadAlertsConfig file) db in
  match runAlertsConfigMigration database file (Some db) with
  | Some written =>
      database = true
      /\ (loadAlertsConfig file <> [] \/ db <> [])
      /\ (forall k v, merged k = Some v -> typed v)
      /\ exists out,
           written = JObj out
           /\ forall k, k <> "__proto__" ->
                JsValue.lookup k out = Config.entry_of <$> merged k
  | None =>
      database = false
      \/ (loadAlertsConfig file = [] /\ db = [])
      \/ exists k v, merged k = Some v /\ ~ typed v
  end.
Proof.
  intros Hfile Hdb. cbv zeta. unfold runAlertsConfigMigration.
  destruct database; [|by left]. cbn [negb Js.nullish].
  assert (Hnd : NoDup (keys (spread db (loadAlertsConfig file))))
    by by apply spread_NoDup.
  assert (Hm : forall k, JsValue.lookup k (spread db (loadAlertsConfig file))
                         = file_over_db (loadAlertsConfig file) db k)
    by (intros k; by apply lookup_spread).
  assert (Hempty : spread db (loadAlertsConfig file) = [] ->
                   loadAlertsConfig file = [] /\ db = []).
  { intros Em. destruct (loadAlertsConfig file) as [|[k v] l]; [done|exfalso].
    pose proof (Hm k) as Hk. rewrite Em in Hk.
    unfold file_over_db in Hk. simpl in Hk.
    by rewrite String.eqb_refl in Hk. }
  remember (spread db (loadAlertsConfig file)) as m eqn:Em.
  destruct (Forall_Exists_dec (fun kv : string * JsVal => typed kv.2)
              (fun kv => ~ typed kv.2) (fun kv => typed_dec kv.2) m)
    as [Hall|Hex].
  - cbn [Config.validateAlertsConfig].
    rewrite (ConfigFacts.validate_entries_typed m [] Hnd Hall)
      by (intros k _ H; by apply elem_of_nil in H).
    rewrite app_nil_l.
    destruct (Nat.eqb_spec (length m) 0) as [Hl|Hl].
    + right. left. apply Hempty. by destruct m.
    + split; [done|]. split.
      { destruct (loadAlertsConfig file) as [|x l]; [|by left].
        right. intros ->. by subst m. }
      split.
      { intros k v Hk. rewrite <- Hm in Hk.
        apply lookup_elem_of in Hk.
        by apply (proj1 (Forall_forall _ _) Hall (k, v)). }
      eexists. split; [done|]. intros k Hk.
      by rewrite lookup_normalized, Hm.
  - apply Exists_exists in Hex as ([k v] & Hin & Hv).
    destruct (ConfigFacts.validate_entries_untyped m [] k v Hin Hv) as [err He].
    cbn [Config.validateAlertsConfig]. rewrite He.
    right. right. exists k, v. split; [|done].
    rewrite <- Hm. by apply elem_of_lookup.
Qed.

End WithRuntime.

Lemma reload_failure_keeps_cache_witness :
  getAlertsConfig (rt := sample_runtime) Missing
    (reloadAlertsConfigSafe (rt := sample_runtime) (fun _ => "Unexpected token")
       "/config/alerts.json" (Text "[]") (Some sample_object)).2
  = (sample_object, Some sample_object).
Proof.
  pose proof (reload_failure_keeps_cache (rt := sample_runtime)
                (fun _ => "Unexpected token") "/config/alerts.json"
                (Text "[]") (Some sample_object)) as H.
  cbv beta iota delta [reloadAlertsConfigSafe JSON_parse sample_runtime] in H.
  change (String.eqb "[]" (Sample.stringify sample_object)) with false in H.
  change (Sample.parse "[]") with (@None JsVal) in H.
  destruct H as (_ & _ & _ & H). exact (H Missing sample_object eq_refl).
Defined.

Lemma migration_file_over_db_witness :
  exists out,
    runAlertsConfigMigration (rt := sample_runtime) true sample_file
      (Some sample_db) = Some (JObj out)
    /\ JsValue.get (Js.nullish (JsValue.lookup "HighCPU" out) JNull) "channelId"
       = JStr "c1"
    /\ JsValue.get (Js.nullish (JsValue.lookup "DiskFull" out) JNull) "channelId"
       = JStr "c2".
Proof.
  assert (Hfile : NoDup (keys (loadAlertsConfig (rt := sample_runtime)
                                 sample_file)))
    by (apply (bool_decide_unpack _); by vm_compute).
  assert (Hdb : NoDup (keys sample_db))
    by (apply (bool_decide_unpack _); by vm_compute).
  pose proof (migration_file_over_db (rt := sample_runtime) true sample_file
                sample_db Hfile Hdb) as H.
  destruct (runAlertsConfigMigration (rt := sample_runtime) true sample_file
              (Some sample_db)) as [written|] eqn:E;
    [|vm_compute in E; discriminate].
  destruct H as (_ & _ & _ & out & -> & Hout).
  exists out. split; [done|].
  rewrite (Hout "HighCPU"), (Hout "DiskFull") by done. by vm_compute.
Defined.

End ConfigStoreFacts.

Module StringFacts.

Lemma trimEnd_idem s : Js.trimEnd (Js.trimEnd s) = Js.trimEnd s.
Proof.
  induction s as [|c r IH]; [done|]. simpl.
  destruct (Js.is_space c && Js.is_empty (Js.trimEnd r)) eqn:E; [done|].
  simpl. by rewrite IH, E.
Qed.

Lemma trimStart_head s :
  Js.trimStart s = ""
  \/ exists c r, Js.trimStart s = String c r /\ Js.is_space c = false.
Proof.
  induction s as [|c r IH]; simpl; [by left|].
  destruct (Js.is_space c) eqn:E; [done|]. right. eauto.
Qed.

Lemma trim_head s :
  Js.trim s = ""
  \/ exists c r, Js.trim s = String c r /\ Js.is_space c = false.
Proof.
  unfold Js.trim. destruct (trimStart_head s) as [->|(c & r & -> & Hc)];
    [by left|].
  right. simpl. rewrite Hc. simpl. eauto.
Qed.

Lemma trim_idem s : Js.trim (Js.trim s) = Js.trim s.
Proof.
  destruct (trim_head s) as [E|(c & r & Hs & Hc)]; [by rewrite E|].
  unfold Js.trim at 1. rewrite Hs. cbn [Js.trimStart]. rewrite Hc, <- Hs.
  unfold Js.trim. apply trimEnd_idem.
Qed.

Lemma contains_trimStart c s :
  Js.contains c s = false -> Js.contains c (Js.trimStart s) = false.
Proof.
  induction s as [|d r IH]; simpl; [done|].
  intros [Hd Hr]%orb_false_iff.
  destruct (Js.is_space d); [auto|]. simpl. by rewrite Hd, Hr.
Qed.

Lemma contains_trimEnd c s :
  Js.contains c s = false -> Js.contains c (Js.trimEnd s) = false.
Proof.
  induction s as [|d r IH]; simpl; [done|].
  intros [Hd Hr]%orb_false_iff.
  destruct (Js.is_space d && Js.is_empty (Js.trimEnd r)); [done|].
  simpl. by rewrite Hd, IH.
Qed.

Lemma contains_trim c s :
  Js.contains c s = false -> Js.contains c (Js.trim s) = false.
Proof. intros H. by apply contains_trimEnd, contains_trimStart. Qed.

Lemma split_parts sep s :
  Forall (fun part => Js.contains sep part = false) (Js.split sep s).
Proof.
  induction s as [|c r IH]; simpl; [by repeat constructor|].
  destruct (Ascii.eqb c sep) eqn:E; [by constructor|].
  destruct (Js.split sep r) as [|h t]; [by repeat constructor; simpl; rewrite E|].
  apply Forall_cons in IH as [Hh Ht]. constructor; [|done].
  simpl. by rewrite E, Hh.
Qed.

Lemma startsWith_app p s : Js.startsWith p (p ++ s) = true.
Proof.
  induction p as [|c p IH]; [done|].
  rewrite JsFacts.append_cons. simpl. by rewrite Ascii.eqb_refl, IH.
Qed.

Lemma drop_app p s : Js.drop (String.length p) (p ++ s) = s.
Proof. induction p as [|c p IH]; [by destruct s|]. by simpl. Qed.

Lemma trimStart_length s : (String.length (Js.trimStart s) <= String.length s)%nat.
Proof. induction s as [|c r IH]; simpl; [done|]. destruct (Js.is_space c); simpl; lia. Qed.

Lemma trimEnd_length s : (String.length (Js.trimEnd s) <= String.length s)%nat.
Proof.
  induction s as [|c r IH]; simpl; [done|].
  destruct (Js.is_space c && Js.is_empty (Js.trimEnd r)); simpl; lia.
Qed.

Lemma trim_length s : (String.length (Js.trim s) <= String.length s)%nat.
Proof.
  unfold Js.trim. pose proof (trimEnd_length (Js.trimStart s)).
  pose proof (trimStart_length s). lia.
Qed.

End StringFacts.

Module AuthFacts.
Import Auth StringFacts.

(** X25. With a token configured, a request is let through exactly when its
    authorization header, a leading [Bearer ] taken off and white space
    trimmed, is the trimmed token; so a request without the header is
    answered 401, one that presents the token after [Bearer ] passes,
    one that presents it bare passes unless the token itself starts
    with [Bearer ], in which case the bare token is refused. *)
Theorem configured_token_guards (token : string) :
  Js.trim token <> "" ->
  requireAuth (Some token) None = Rejected 401 "Unauthorized"
  /\ (forall raw,
        requireAuth (Some token) (Some raw) = Authorized
        <-> Js.trim (if Js.startsWith "Bearer " raw then Js.drop 7 raw else raw)
            = Js.trim token)
  /\ (forall raw,
        requireAuth (Some token) (Some raw) = Authorized
        \/ requireAuth (Some token) (Some raw) = Rejected 401 "Unauthorized")
  /\ requireAuth (Some token) (Some ("Bearer " ++ token)) = Authorized
  /\ (Js.startsWith "Bearer " token = false ->
      requireAuth (Some token) (Some token) = Authorized)
  /\ (Js.startsWith "Bearer " (Js.trim token) = true ->
      requireAuth (Some token) (Some (Js.trim token))
      = Rejected 401 "Unauthorized").
Proof.
  intros Ht.
  assert (Htruthy : Js.truthy (Js.trim token) = true)
    by by apply JsFacts.truthy_true.
  assert (Hraw : forall raw,
    requireAuth (Some token) (Some raw)
    = if bool_decide
           (Js.trim (if Js.startsWith "Bearer " raw then Js.drop 7 raw else raw)
            = Js.trim token)
      then Authorized else Rejected 401 "Unauthorized").
  { intros raw. unfold requireAuth, getAuthToken. cbn [fmap option_fmap option_map
      Js.truthy_opt]. rewrite Htruthy. cbn [negb].
    change (String.length BEARER) with 7%nat. change BEARER with "Bearer ".
    destruct (Js.startsWith "Bearer " raw).
    - destruct (decide (Js.trim (Js.drop 7 raw) = Js.trim token)) as [E|E].
      + rewrite !bool_decide_eq_true_2; [done..|by rewrite E].
      + rewrite !bool_decide_eq_false_2; [done..|by intros [= ?]].
    - destruct (decide (Js.trim raw = Js.trim token)) as [E|E].
      + rewrite !bool_decide_eq_true_2; [done..|by rewrite E].
      + rewrite !bool_decide_eq_false_2; [done..|by intros [= ?]]. }
  split.
  { unfold requireAuth, getAuthToken. cbn [fmap option_fmap option_map
      Js.truthy_opt]. by rewrite Htruthy. }
  split.
  { intros raw. rewrite Hraw. case_bool_decide; by split. }
  split.
  { intros raw. rewrite Hraw. case_bool_decide; [by left | by right]. }
  split.
  { rewrite Hraw. rewrite (startsWith_app "Bearer " token).
    change 7%nat with (String.length "Bearer "). rewrite drop_app.
    by rewrite bool_decide_eq_true_2. }
  split.
  { intros Hb. rewrite Hraw, Hb. by rewrite bool_decide_eq_true_2. }
  intros Hb. rewrite Hraw, Hb.
  rewrite bool_decide_eq_false_2; [done|].
  intros E. pose proof (trim_length (Js.drop 7 (Js.trim token))) as Hl.
  rewrite E, ButtonFacts.drop_length in Hl.
  assert (7 <= String.length (Js.trim token))%nat; [|lia].
  clear -Hb. destruct (Js.trim token) as [|c1 [|c2 [|c3 [|c4 [|c5 [|c6 [|c7 s]]]]]]];
    simpl in Hb; try done; try (by rewrite ?andb_false_r in Hb).
  simpl. lia.
Qed.

Lemma configured_token_guards_witness :
  requireAuth (Some " s3cret ") (Some "Bearer s3cret") = Authorized
  /\ requireAuth (Some " s3cret ") (Some "s3cret") = Authorized
  /\ requireAuth (Some " s3cret ") None = Rejected 401 "Unauthorized".
Proof.
  destruct (configured_token_guards " s3cret " ltac:(by vm_compute))
    as (Hnone & Hiff & _ & _ & _ & _).
  split; [by apply Hiff; vm_compute|].
  split; [by apply Hiff; vm_compute|]. exact Hnone.
Defined.

End AuthFacts.

Module CommandsFacts.
Import Spec Commands StringFacts.

Lemma parseCommaList_item s l :
  parseCommaList s = Some l -> Forall item l.
Proof.
  unfold parseCommaList. destruct s as [s|]; [|done].
  destruct (negb (Js.truthy (Js.trim s))); [done|]. intros [= <-].
  apply Forall_forall. intros x Hx.
  apply list_elem_of_In, List.filter_In in Hx as [Hx Ht].
  apply List.in_map_iff in Hx as (part & <- & Hpart).
  split; [by apply JsFacts.truthy_true|]. split; [apply trim_idem|].
  apply contains_trim.
  by apply (proj1 (Forall_forall _ _) (split_parts "," s)), list_elem_of_In.
Qed.


Lemma listed_well name l :
  (forall items, l = Some items -> Forall item items) ->
  Forall well_listed (listed name l).
Proof.
  intros H. destruct l as [[|x rest]|]; try by constructor.
  specialize (H _ eq_refl). cbn [listed]. constructor; [|constructor].
  unfold well_listed. cbn [snd]. split; [done|].
  change (map JStr (x :: rest)) with (JStr <$> (x :: rest)).
  apply Forall_fmap. eapply Forall_impl; [exact H|].
  intros y Hy. simpl. eauto.
Qed.

Lemma entry_well_listed o : Forall well_listed (entry o).
Proof.
  unfold entry. repeat apply Forall_app_2.
  - by repeat constructor.
  - destruct (o_suppress_minutes o) as [m|]; [destruct (0 <? m)|];
      by repeat constructor.
  - apply listed_well. intros items. apply parseCommaList_item.
  - apply listed_well. intros items. apply parseCommaList_item.
  - destruct (Js.trim <$> o_thumbnail_url o) as [u|]; [destruct (Js.truthy u)|];
      by repeat constructor.
  - apply listed_well. intros items. apply parseCommaList_item.
Qed.

(** X27. The configuration that /add-alert saves, the cached one having
    distinct keys: under the trimmed rule name it has the new entry,
    whose channel is the trimmed, non-empty channel id and whose list
    properties each hold one or more items; every other rule is as it
    was in the cache; and when every cached rule has a string channel,
    the saved configuration passes [validateAlertsConfig]. The command
    refuses exactly when the name or the channel id is white space. *)
Theorem add_alert_saves_valid_entry (o : AddAlert)
    (cached : list (string * JsVal)) :
  NoDup (keys cached) ->
  match add_alert o cached with
  | Refused _ => blank (o_name o) = true \/ blank (o_channel_id o) = true
  | Saved config =>
      blank (o_name o) = false /\ blank (o_channel_id o) = false
      /\ JsValue.lookup (Js.trim (o_name o)) config = Some (JObj (entry o))
      /\ JsValue.get (JObj (entry o)) "channelId"
         = JStr (Js.trim (o_channel_id o))
      /\ Forall well_listed (entry o)
      /\ (forall k, k <> Js.trim (o_name o) ->
            JsValue.lookup k config = JsValue.lookup k cached)
      /\ (Forall (fun kv => typed kv.2) cached ->
          exists valid, Config.validateAlertsConfig (JObj config)
                        = Config.Ok valid)
  end.
Proof.
  intros Hnd. unfold add_alert.
  rewrite !JsFacts.truthy_trim, !negb_involutive.
  destruct (blank (o_name o)) eqn:Hn; [by left|].
  destruct (blank (o_channel_id o)) eqn:Hc; [by right|]. cbn [orb].
  assert (Hsp : forall k, JsValue.lookup k (ConfigStore.spread [] cached)
                          = JsValue.lookup k cached).
  { intros k. rewrite ConfigStoreFacts.lookup_spread by done.
    unfold ConfigStore.file_over_db. by destruct (JsValue.lookup k cached). }
  split; [done|]. split; [done|]. split.
  { by rewrite ConfigStoreFacts.lookup_upsert, String.eqb_refl. }
  split; [done|]. split; [apply entry_well_listed|]. split.
  { intros k Hk. rewrite ConfigStoreFacts.lookup_upsert.
    by rewrite (proj2 (String.eqb_neq _ _)) by congruence. }
  intros Htyped. cbn [Config.validateAlertsConfig].
  set (config := JsValue.upsert _ _ _).
  assert (Hnd' : NoDup (keys config)).
  { apply ConfigStoreFacts.upsert_NoDup, ConfigStoreFacts.spread_NoDup.
    constructor. }
  assert (Hall : Forall (fun kv : string * JsVal => typed kv.2) config).
  { apply ConfigFacts.upsert_Forall.
    - cbn [snd]. by exists (Js.trim (o_channel_id o)).
    - apply Forall_forall. intros [k v] Hin. cbn [snd].
      apply (ConfigStoreFacts.elem_of_lookup k v) in Hin;
        [|apply ConfigStoreFacts.spread_NoDup; constructor].
      rewrite Hsp in Hin. apply ConfigStoreFacts.lookup_elem_of in Hin.
      by apply (proj1 (Forall_forall _ _) Htyped (k, v)). }
  eexists.
  apply (ConfigFacts.validate_entries_typed config [] Hnd' Hall).
  intros k _ H. by apply elem_of_nil in H.
Qed.

Lemma add_alert_saves_valid_entry_witness :
  exists config,
    add_alert sample_options ConfigStore.sample_db = Saved config
    /\ JsValue.get (Js.nullish (JsValue.lookup "DiskFull" config) JNull)
         "importantLabels" = JArr [JStr "env"; JStr "instance"]
    /\ JsValue.get (Js.nullish (JsValue.lookup "DiskFull" config) JNull)
         "hiddenLabels" = JUndefined
    /\ JsValue.lookup "HighCPU" config
       = JsValue.lookup "HighCPU" ConfigStore.sample_db.
Proof.
  assert (Hnd : NoDup (keys ConfigStore.sample_db))
    by (apply (bool_decide_unpack _); by vm_compute).
  pose proof (add_alert_saves_valid_entry sample_options ConfigStore.sample_db
                Hnd) as H.
  destruct (add_alert sample_options ConfigStore.sample_db)
    as [content|config] eqn:E; [vm_compute in E; discriminate|].
  destruct H as (_ & _ & Hl & _ & _ & Hk & _).
  assert (Hname : Js.trim (o_name sample_options) = "DiskFull")
    by by vm_compute.
  rewrite Hname in Hl, Hk.
  exists config. split; [done|]. rewrite Hl, (Hk "HighCPU") by done.
  by vm_compute.
Defined.

End CommandsFacts.

Module SqsPollerFacts.
Import Ledger SqsPoller.

Lemma processed_app a b : processed (a ++ b) = (processed a + processed b)%nat.
Proof.
  unfold processed. by rewrite DeliveryFacts.counted_app, List.filter_app, length_app.
Qed.

Section Poller.

Context `{rt : Runtime}.
Variable api : Discord.Api.
Variable config : AlertsConfig.
Variable database : bool.
Variable safeParse : JsVal -> option Sns.Envelope.

(** The processor does not touch the counter of the poller. *)
Lemma processor_not_processed now payload w :
  exists added,
    calls (Delivery.processOneAlertPayload api config database now payload w).2
    = (calls w ++ added)%list
    /\ processed added = O.
Proof.
  destruct (DeliveryFacts.payload_counted api config database now payload w)
    as (added & outcome & E & C & O).
  exists added. split; [done|]. unfold processed. rewrite C.
  destruct (negb (has_rule config payload)); [destruct O as (-> & _); done|].
  destruct (held_back now payload w); [destruct O as (-> & _); done|].
  by destruct O as ([-> | ->] & _).
Qed.

Lemma processOneMessage_spec now message q :
  string_resource config safeParse (now, message) ->
  exists q' added,
    processOneMessage api config database safeParse now message q = Some q'
    /\ deleted q' = (deleted q ++ option_list (handle safeParse message))%list
    /\ calls (world q') = (calls (world q) ++ added)%list
    /\ processed added = (if readable safeParse message then 1 else 0)%nat
    /\ (readable safeParse message = false -> q' = q).
Proof.
  intros Hs. unfold string_resource in Hs. cbn [fst snd] in Hs.
  unfold processOneMessage, handle, readable.
  destruct (parseSqsSnsBody safeParse (m_Body message)) as [envelope|] eqn:Hp.
  2: { exists q, []. rewrite bool_decide_eq_false_2 by by intros [? ?].
       by rewrite !app_nil_r. }
  rewrite bool_decide_eq_true_2 by by eexists. cbn [andb].
  specialize (Hs envelope eq_refl).
  assert (Hw : exists w added,
    processSnsNotification api config database now envelope (world q) = Some w
    /\ calls w = (calls (world q) ++ added)%list /\ processed added = O).
  { unfold processSnsNotification.
    destruct (Sns.snsEnvelopeToAlertPayload config now envelope) as [|p|];
      [| |done].
    - exists (world q), []. by rewrite app_nil_r.
    - destruct (processor_not_processed now p (world q)) as (added & E & C).
      by eexists _, added. }
  destruct Hw as (w & added & -> & E & C).
  cbv beta iota zeta delta [Do.inc call]. cbn [snd].
  destruct (Js.truthy_opt (m_ReceiptHandle message)) eqn:Hh.
  - eexists _, (added ++ [CallInc "sqs_messages_processed_total"])%list.
    cbn [deleted world calls]. split; [done|].
    destruct (m_ReceiptHandle message) as [h|]; [|done]. cbn [option_list Js.nullish].
    split; [done|]. split; [by rewrite E, <- app_assoc|].
    split; [|done]. by rewrite processed_app, C.
  - eexists _, (added ++ [CallInc "sqs_messages_processed_total"])%list.
    cbn [deleted world calls option_list]. split; [done|].
    split; [by rewrite app_nil_r|]. split; [by rewrite E, <- app_assoc|].
    split; [|done]. by rewrite processed_app, C.
Qed.

(** X28. One poll, no message of which names a resource that is not a
    string: it asks the queue to delete exactly the messages whose body
    reads as an SNS notification and that have a receipt handle, in the
    order received; it counts each message that reads as a notification
    once as processed, whether or not a rule matched it; and messages
    that do not read as a notification leave no trace at all, so those
    stay in the queue. *)
Theorem poll_deletes_what_it_read (arrivals : list (Z * Message)) (q : Queue) :
  Forall (string_resource config safeParse) arrivals ->
  exists q' added,
    pollOnce api config database safeParse arrivals q = Some q'
    /\ deleted q'
       = (deleted q ++ omap (fun a => handle safeParse a.2) arrivals)%list
    /\ calls (world q') = (calls (world q) ++ added)%list
    /\ processed added
       = length (List.filter (fun a => readable safeParse a.2) arrivals)
    /\ (Forall (fun a => readable safeParse a.2 = false) arrivals -> q' = q).
Proof.
  intros Hall. revert q.
  induction Hall as [|[now message] rest Hs _ IH]; intros q.
  { exists q, []. by rewrite !app_nil_r. }
  destruct (processOneMessage_spec now message q Hs)
    as (q1 & a1 & E1 & D1 & C1 & P1 & U1).
  destruct (IH q1) as (q2 & a2 & E2 & D2 & C2 & P2 & U2).
  exists q2, (a1 ++ a2)%list. cbn [pollOnce]. rewrite E1.
  split; [done|]. split.
  { rewrite D2, D1, <- app_assoc. f_equal. cbn [omap list_omap snd].
    by destruct (handle safeParse message). }
  split; [by rewrite C2, C1, <- app_assoc|]. split.
  { rewrite processed_app, P1, P2. cbn [List.filter snd].
    by destruct (readable safeParse message). }
  intros [Hm Hrest]%Forall_cons. cbn [snd] in Hm.
  rewrite (U2 Hrest). by apply U1.
Qed.

End Poller.

Lemma poll_deletes_what_it_read_witness :
  exists q',
    pollOnce (rt := sample_runtime) Fixture.api_ok Fixture.alerts_config false
      sample_schema sample_arrivals (mkQueue (mkWorld ∅ []) []) = Some q'
    /\ deleted q' = ["r2"].
Proof.
  assert (H : Forall (string_resource (rt := sample_runtime)
                        Fixture.alerts_config sample_schema) sample_arrivals).
  { repeat constructor; intros envelope He; cbn [fst snd] in *.
    - vm_compute in He. discriminate.
    - vm_compute in He. injection He as <-. by vm_compute. }
  destruct (poll_deletes_what_it_read (rt := sample_runtime) Fixture.api_ok
              Fixture.alerts_config false sample_schema sample_arrivals
              (mkQueue (mkWorld ∅ []) []) H) as (q' & added & E & D & _).
  exists q'. split; [done|]. rewrite D. by vm_compute.
Defined.

End SqsPollerFacts.

Module SanitizeFacts.
Import Processor Template.

(** Where a match can start. *)
Lemma broken_template_at_eq s :
  broken_template_at s
  = match s with
    | String c (String d r) =>
        if Ascii.eqb c "%" && Ascii.eqb d "!"
        then let '(n, rest) := skip_word r in
             if Js.startsWith "(<nil>)" rest then Some (2 + n + 7)%nat else None
        else None
    | _ => None
    end.
Proof.
  destruct s as [|c [|d r]]; [done| |].
  - by destruct c as [[] [] [] [] [] [] [] []].
  - destruct c as [[] [] [] [] [] [] [] []]; try reflexivity.
    by destruct d as [[] [] [] [] [] [] [] []].
Qed.

Lemma not_percent c r : c <> "%"%char -> broken_template_at (String c r) = None.
Proof.
  intros Hc. rewrite broken_template_at_eq. destruct r as [|d r]; [done|].
  by rewrite (proj2 (Ascii.eqb_neq _ _) Hc).
Qed.

Lemma match_percent c r n :
  broken_template_at (String c r) = Some n -> c = "%"%char.
Proof.
  intros H. destruct (Ascii.eqb_spec c "%") as [->|Hc]; [done|].
  by rewrite not_percent in H.
Qed.

Lemma replace_kept c r :
  broken_template_at (String c r) = None ->
  replace_broken 0 (String c r) = String c (replace_broken 0 r).
Proof. intros H. cbn [replace_broken]. by rewrite H. Qed.

Lemma replace_matched c r n :
  broken_template_at (String c r) = Some n ->
  replace_broken 0 (String c r)
  = String "N" (String "/" (String "A" (replace_broken (n - 1) r))).
Proof. intros H. cbn [replace_broken]. by rewrite H. Qed.

(** A literal prefix without [%] and [N] is seen after the replacement
    exactly when it was there before. *)
Lemma startsWith_replace p t :
  Js.contains "%" p = false -> Js.contains "N" p = false ->
  Js.startsWith p (replace_broken 0 t) = Js.startsWith p t.
Proof.
  revert t. induction p as [|a p IH]; intros t Hp Hn; [by destruct t|].
  cbn [Js.contains] in Hp, Hn.
  apply orb_false_iff in Hp as [Ha Hp]. apply orb_false_iff in Hn as [Ha' Hn].
  destruct t as [|d t]; [done|].
  destruct (broken_template_at (String d t)) as [n|] eqn:E.
  - rewrite (replace_matched _ _ _ E). apply match_percent in E as ->.
    cbn [Js.startsWith]. by rewrite Ha, Ha'.
  - rewrite (replace_kept _ _ E). cbn [Js.startsWith]. by rewrite IH.
Qed.

Lemma skip_word_word c r :
  Js.is_word c = true ->
  skip_word (String c r) = (S (skip_word r).1, (skip_word r).2).
Proof. intros H. cbn [skip_word]. rewrite H. by destruct (skip_word r). Qed.

Lemma skip_word_other c r :
  Js.is_word c = false -> skip_word (String c r) = (O, String c r).
Proof. intros H. cbn [skip_word]. by rewrite H. Qed.

Lemma word_not_percent c : Js.is_word c = true -> c <> "%"%char.
Proof. by intros H ->. Qed.

(** What follows the word after [%!] starts with [(<nil>)] after the
    replacement exactly when it did before. *)
Lemma skip_word_replace r :
  Js.startsWith "(<nil>)" (skip_word (replace_broken 0 r)).2
  = Js.startsWith "(<nil>)" (skip_word r).2.
Proof.
  induction r as [|c r IH]; [done|].
  destruct (Js.is_word c) eqn:Hc.
  - rewrite replace_kept by by apply not_percent, word_not_percent.
    by rewrite !skip_word_word.
  - rewrite (skip_word_other c r Hc). cbn [snd].
    destruct (broken_template_at (String c r)) as [n|] eqn:E.
    + rewrite (replace_matched _ _ _ E). apply match_percent in E as ->.
      rewrite skip_word_word by done. by rewrite skip_word_other.
    + rewrite <- (startsWith_replace "(<nil>)" (String c r)) by done.
      rewrite (replace_kept _ _ E). by rewrite skip_word_other.
Qed.

(** A position where no match starts is one after the replacement. *)
Lemma replace_makes_no_match s :
  broken_template_at s = None ->
  broken_template_at (replace_broken 0 s) = None.
Proof.
  intros H. destruct s as [|c r]; [done|]. rewrite (replace_kept _ _ H).
  destruct (Ascii.eqb_spec c "%") as [->|Hc]; [|by apply not_percent].
  destruct r as [|d r]; [done|].
  destruct (Ascii.eqb_spec d "!") as [->|Hd].
  - rewrite replace_kept by by apply not_percent.
    rewrite broken_template_at_eq in H |- *. cbn [Ascii.eqb Bool.eqb andb] in *.
    pose proof (skip_word_replace r) as Hs.
    destruct (skip_word r) as [n rest], (skip_word (replace_broken 0 r))
      as [n' rest']. cbn [snd] in Hs. rewrite Hs.
    by destruct (Js.startsWith "(<nil>)" rest).
  - destruct (broken_template_at (String d r)) as [n|] eqn:E.
    + rewrite (replace_matched _ _ _ E). by rewrite broken_template_at_eq.
    + rewrite (replace_kept _ _ E). rewrite broken_template_at_eq.
      rewrite (proj2 (Ascii.eqb_neq d "!") Hd). by rewrite andb_false_r.
Qed.

Lemma replace_marker_free s k : marker_free (replace_broken k s) = true.
Proof.
  revert k. induction s as [|c r IH]; intros k; [by destruct k|].
  destruct k as [|k]; [|apply IH].
  destruct (broken_template_at (String c r)) as [n|] eqn:E.
  - rewrite (replace_matched _ _ _ E). cbn [marker_free].
    rewrite !not_percent by done. apply IH.
  - pose proof (replace_makes_no_match _ E) as H.
    rewrite (replace_kept _ _ E) in H |- *. cbn [marker_free].
    rewrite H. apply IH.
Qed.

Lemma replace_id t : marker_free t = true -> replace_broken 0 t = t.
Proof.
  induction t as [|c r IH]; [done|]. cbn [marker_free].
  destruct (broken_template_at (String c r)) eqn:E; [done|].
  intros H. rewrite (replace_kept _ _ E). by rewrite IH.
Qed.

(** ** Trimming keeps a text free of matches *)

Lemma startsWith_app_l p s v :
  Js.startsWith p s = true -> Js.startsWith p (s ++ v) = true.
Proof.
  revert s. induction p as [|a p IH]; intros s; [done|].
  destruct s as [|c s]; [done|]. rewrite JsFacts.append_cons.
  cbn [Js.startsWith]. intros [-> H]%andb_true_iff. by rewrite IH.
Qed.

Lemma skip_word_app r v :
  (skip_word r).2 <> "" ->
  skip_word (r ++ v) = ((skip_word r).1, (skip_word r).2 ++ v).
Proof.
  induction r as [|c r IH]; [done|]. rewrite JsFacts.append_cons.
  destruct (Js.is_word c) eqn:Hc.
  - rewrite !skip_word_word by done. cbn [fst snd]. intros H.
    by rewrite IH.
  - by rewrite !skip_word_other.
Qed.

Lemma match_extends u v n :
  broken_template_at u = Some n -> broken_template_at (u ++ v) = Some n.
Proof.
  rewrite !broken_template_at_eq.
  destruct u as [|c [|d r]]; [done..|]. rewrite !JsFacts.append_cons.
  destruct (Ascii.eqb c "%" && Ascii.eqb d "!"); [|done].
  destruct (skip_word r) as [n0 rest] eqn:E.
  destruct (Js.startsWith "(<nil>)" rest) eqn:Hs; [|done].
  rewrite skip_word_app by (rewrite E; by destruct rest).
  rewrite E. cbn [fst snd]. by rewrite startsWith_app_l.
Qed.

Lemma marker_free_prefix u v :
  marker_free (u ++ v) = true -> marker_free u = true.
Proof.
  induction u as [|c u IH]; [done|]. rewrite JsFacts.append_cons.
  cbn [marker_free]. rewrite <- JsFacts.append_cons.
  destruct (broken_template_at (String c u)) as [n|] eqn:E.
  - by rewrite (match_extends _ v _ E).
  - destruct (broken_template_at (String c u ++ v)); [done|]. apply IH.
Qed.

Lemma marker_free_tail c r : marker_free (String c r) = true -> marker_free r = true.
Proof. cbn [marker_free]. by destruct (broken_template_at _). Qed.

Lemma marker_free_trimStart s :
  marker_free s = true -> marker_free (Js.trimStart s) = true.
Proof.
  induction s as [|c r IH]; [done|]. intros H. cbn [Js.trimStart].
  destruct (Js.is_space c); [|done]. by apply IH, (marker_free_tail c).
Qed.

Lemma trimEnd_prefix s : exists v, s = Js.trimEnd s ++ v.
Proof.
  induction s as [|c r [v IH]]; [by exists ""|]. cbn [Js.trimEnd].
  destruct (Js.is_space c && Js.is_empty (Js.trimEnd r)).
  - by exists (String c r).
  - exists v. rewrite JsFacts.append_cons. by rewrite <- IH.
Qed.

Lemma marker_free_trim s : marker_free s = true -> marker_free (Js.trim s) = true.
Proof.
  intros H%marker_free_trimStart. unfold Js.trim.
  destruct (trimEnd_prefix (Js.trimStart s)) as [v Hv].
  apply (marker_free_prefix _ v). by rewrite <- Hv.
Qed.

Lemma sanitize_free s : marker_free (sanitize s) = true.
Proof. apply marker_free_trim, replace_marker_free. Qed.

(** X29. In a text that [sanitize] returns no broken template starts
    anywhere, and no white space surrounds it; so sanitizing it again
    changes nothing. *)
Theorem sanitize_leaves_no_marker (s : string) :
  marker_free (sanitize s) = true
  /\ Js.trim (sanitize s) = sanitize s
  /\ sanitize (sanitize s) = sanitize s.
Proof.
  pose proof (sanitize_free s) as Hfree.
  split; [done|]. split; [apply StringFacts.trim_idem|].
  unfold sanitize at 1. rewrite (replace_id _ Hfree).
  apply StringFacts.trim_idem.
Qed.

End SanitizeFacts.

Module NormalizerPayloadFacts.
Import Processor Template.




End NormalizerPayloadFacts.
